(** * Screening and scoring engine of screener_v2: a shallow embedding

    The development follows the Python sources under [src/utils]:
    [score_calculator.py], [stock_data.py] (indicator computation),
    [pattern_analyzer.py], [financial_data.py] (fundamentals resolver and
    the records of its snapshot, market and DART tiers) and [screener.py]
    ([process_single_stock] and the result-collection loop of
    [run_screening]).

    Numbers.  The program computes with IEEE doubles.  Here a double is
    an exact rational, one of the two infinities, or NaN ([pyfloat]); the
    arithmetic is exact on rationals (no rounding of intermediate
    results, the two zeros identified) and follows IEEE 754 on the special
    values, so that comparisons with NaN are false and [0/0] is NaN, as
    in the code.  The square root of the rolling standard deviation is
    a parameter ([Qsqrt]).  Ranges and small exact values carry over to
    the doubles; a value rounded to a decimal can differ in its last
    digit where the exact value is a tie.  The composite score, whose
    value is the subject of a statement of its own, is therefore given
    on binary64 values as well ([Binary64]).

    Inputs.  A price series holds numbers in its five price columns, an
    investor-flow dictionary holds numbers under its numeric keys; with
    such inputs the [except] branches around the volume and slope
    computations of [calculate_trend_score] cannot be reached.  A number
    in a dictionary is a float; an int that no double holds, on which
    [float] raises OverflowError, is not among the values.  Calls
    that leave the process (remote tiers of the resolver, the clock,
    [int] and [float] on strings) are parameters of the sections that
    use them.  An exception is a value of [outcome]. *)

From Stdlib Require Import ZArith QArith Qround Qminmax Lqa Lia List Ascii String Bool.
From Stdlib Require Import SpecFloat.
From stdpp Require Import gmap strings.

Local Open Scope Q_scope.
Local Open Scope string_scope.
Local Open Scope list_scope.

(** ** Python floats *)

Module PyFloat.

Inductive pyfloat : Type :=
| Fin (q : Q)
| PInf
| NInf
| NaN.

Definition Qltb (a b : Q) : bool := negb (Qle_bool b a).
Definition Qzero (a : Q) : bool := Qeq_bool a 0.
Definition Qpos (a : Q) : bool := Qltb 0 a.

Definition isnan (x : pyfloat) : bool :=
  match x with NaN => true | _ => false end.

Definition is_fin (x : pyfloat) : bool :=
  match x with Fin _ => true | _ => false end.

(** Comparisons: every comparison with NaN is false. *)
Definition flt (x y : pyfloat) : bool :=
  match x, y with
  | NaN, _ | _, NaN => false
  | Fin a, Fin b => Qltb a b
  | NInf, NInf => false
  | NInf, _ => true
  | _, PInf => match x with PInf => false | _ => true end
  | PInf, _ => false
  | Fin _, NInf => false
  end.

Definition fle (x y : pyfloat) : bool :=
  match x, y with
  | NaN, _ | _, NaN => false
  | Fin a, Fin b => Qle_bool a b
  | NInf, _ => true
  | _, PInf => true
  | PInf, _ => false
  | Fin _, NInf => false
  end.

Definition fgt (x y : pyfloat) : bool := flt y x.
Definition fge (x y : pyfloat) : bool := fle y x.

Definition feq (x y : pyfloat) : bool :=
  match x, y with
  | Fin a, Fin b => Qeq_bool a b
  | PInf, PInf | NInf, NInf => true
  | _, _ => false
  end.

Definition fneg (x : pyfloat) : pyfloat :=
  match x with
  | Fin a => Fin (Qred (- a))
  | PInf => NInf
  | NInf => PInf
  | NaN => NaN
  end.

Definition fadd (x y : pyfloat) : pyfloat :=
  match x, y with
  | NaN, _ | _, NaN => NaN
  | Fin a, Fin b => Fin (Qred (a + b))
  | PInf, NInf | NInf, PInf => NaN
  | PInf, _ | _, PInf => PInf
  | NInf, _ | _, NInf => NInf
  end.

Definition fsub (x y : pyfloat) : pyfloat := fadd x (fneg y).

(** Sign of an infinity times a finite factor (zero gives NaN). *)
Definition inf_times (pos : bool) (a : Q) : pyfloat :=
  if Qzero a then NaN
  else if Bool.eqb pos (Qpos a) then PInf else NInf.

Definition fmul (x y : pyfloat) : pyfloat :=
  match x, y with
  | NaN, _ | _, NaN => NaN
  | Fin a, Fin b => Fin (Qred (a * b))
  | PInf, Fin a | Fin a, PInf => inf_times true a
  | NInf, Fin a | Fin a, NInf => inf_times false a
  | PInf, PInf | NInf, NInf => PInf
  | PInf, NInf | NInf, PInf => NInf
  end.

(** Division of numpy floats: no exception on a zero divisor; [a/0] is
    an infinity with the sign of [a], and [0/0] is NaN. *)
Definition fdiv (x y : pyfloat) : pyfloat :=
  match x, y with
  | NaN, _ | _, NaN => NaN
  | Fin a, Fin b =>
      if Qzero b then
        (if Qzero a then NaN else if Qpos a then PInf else NInf)
      else Fin (Qred (a / b))
  | Fin _, (PInf | NInf) => Fin 0
  | (PInf | NInf), (PInf | NInf) => NaN
  | PInf, Fin b => if Qltb b 0 then NInf else PInf
  | NInf, Fin b => if Qltb b 0 then PInf else NInf
  end.

(** Python's built-in [min(a, b)] and [max(a, b)]: the first argument
    is kept unless the second compares strictly below (above) it. *)
Definition pymin (a b : pyfloat) : pyfloat := if flt b a then b else a.
Definition pymax (a b : pyfloat) : pyfloat := if fgt b a then b else a.

(** Rounding half to even, the tie rule of Python's [round]. *)
Definition round_half_even (x : Q) : Z :=
  let f := Qfloor x in
  let d := x - inject_Z f in
  if Qltb d (1 # 2) then f
  else if Qltb (1 # 2) d then (f + 1)%Z
  else if Z.even f then f else (f + 1)%Z.

Definition pow10 (n : nat) : Z := (10 ^ Z.of_nat n)%Z.

Definition Qround_nd (n : nat) (x : Q) : Q :=
  Qred (inject_Z (round_half_even (x * inject_Z (pow10 n))) / inject_Z (pow10 n)).

(** [round(x, n)] on a float: NaN and the infinities are returned as
    they are. *)
Definition pyround (n : nat) (x : pyfloat) : pyfloat :=
  match x with
  | Fin a => Fin (Qround_nd n a)
  | _ => x
  end.

(** Equality of floats as numbers (rationals up to [Qeq]). *)
Definition num_eq (x y : pyfloat) : Prop :=
  match x, y with
  | Fin a, Fin b => a == b
  | PInf, PInf | NInf, NInf | NaN, NaN => True
  | _, _ => False
  end.

(** [x] is a finite number within [[lo, hi]]. *)
Definition within (lo hi : Q) (x : pyfloat) : Prop :=
  match x with
  | Fin a => lo <= a /\ a <= hi
  | _ => False
  end.

Definition fz (z : Z) : pyfloat := Fin (inject_Z z).

End PyFloat.
Import PyFloat.

Declare Scope float_scope.
Delimit Scope float_scope with F.
Bind Scope float_scope with pyfloat.
Notation "x + y" := (fadd x y) : float_scope.
Notation "x - y" := (fsub x y) : float_scope.
Notation "x * y" := (fmul x y) : float_scope.
Notation "x / y" := (fdiv x y) : float_scope.
Notation "x >? y" := (fgt x y) (at level 70, no associativity) : float_scope.
Notation "x >=? y" := (fge x y) (at level 70, no associativity) : float_scope.
Notation "x <? y" := (flt x y) (at level 70, no associativity) : float_scope.
Notation "x <=? y" := (fle x y) (at level 70, no associativity) : float_scope.
Coercion Fin : Q >-> pyfloat.

(** ** Python values, dictionaries and data frames *)

Module Py.

(** Values found in the dictionaries the program passes around. *)
#[local] Set Warnings "-register-all".
Inductive pyval : Type :=
| VNone
| VBool (b : bool)
| VNum (x : pyfloat)
| VStr (s : string)
| VDict (items : list (string * pyval))
| VOther.

(** A dictionary the code only builds and returns keeps its insertion
    order: an association list. *)
Definition details := list (string * pyval).

Definition vint (z : Z) : pyval := VNum (Fin (inject_Z z)).

(** [int(x)] on a finite float truncates toward zero. *)
Definition Qtrunc (a : Q) : Z :=
  if Qle_bool 0 a then Qfloor a else Qceiling a.

Definition pyint (x : pyfloat) : pyfloat :=
  match x with
  | Fin a => Fin (inject_Z (Qtrunc a))
  | _ => x
  end.

(** One point of a price series as the collector delivers it: the five
    price columns always exist and hold numbers (gaps are filled before
    any computation). *)
Record bar : Type := {
  Open : Q;
  High : Q;
  Low : Q;
  Close : Q;
  Volume : Q
}.

(** One row of an indicator-enriched frame.  An indicator column is
    meaningful only when its label is among the frame's [columns]. *)
Record row : Type := {
  price :> bar;
  MA20 : pyfloat;
  MA60 : pyfloat;
  MA120 : pyfloat;
  BB_Middle : pyfloat;
  Upper_Band : pyfloat;
  Lower_Band : pyfloat;
  Volume_MA5 : pyfloat;
  Volume_MA20 : pyfloat;
  High_52W : pyfloat;
  Low_52W : pyfloat;
  Return_1D : pyfloat;
  Return_13W : pyfloat;
  Return_26W : pyfloat;
  RSI : pyfloat;
  MACD : pyfloat;
  MACD_Signal : pyfloat;
  MACD_Histogram : pyfloat
}.

(** A data frame: the labels of the indicator columns it carries (the
    price columns are implicit) and its rows, oldest first. *)
Record DataFrame : Type := {
  columns : list string;
  rows : list row
}.

Definition has_col (df : DataFrame) (c : string) : bool :=
  existsb (String.eqb c) (columns df).

Definition len (df : DataFrame) : nat := length (rows df).

(** [df.empty] *)
Definition empty (df : DataFrame) : bool :=
  match rows df with [] => true | _ => false end.

(** [s.tail(n)] *)
Definition tail {A} (n : nat) (l : list A) : list A :=
  skipn (length l - n) l.

(** [s.iloc[-k]] for [k >= 1]; [None] stands for the IndexError. *)
Definition iloc_neg {A} (k : nat) (l : list A) : option A :=
  if (1 <=? k)%nat && (k <=? length l)%nat then nth_error l (length l - k) else None.

(** [s.iloc[-a:-b]] for [a >= b >= 1]: slices never fail, they clip. *)
Definition slice_neg {A} (a b : nat) (l : list A) : list A :=
  let n := length l in
  firstn ((n - b) - (n - a)) (skipn (n - a) l).

Definition Qsum (l : list Q) : Q := fold_right Qplus 0 l.

(** [s.mean()] of a column of numbers; the mean of nothing is NaN. *)
Definition mean (l : list Q) : pyfloat :=
  match l with
  | [] => NaN
  | _ => Fin (Qred (Qsum l / inject_Z (Z.of_nat (length l))))
  end.

(** The finite entries of a float column: pandas reductions skip NaN. *)
Definition finite_values (l : list pyfloat) : list Q :=
  omap (fun x => match x with Fin a => Some a | _ => None end) l.

(** [s.mean()] of a float column whose entries are numbers or NaN. *)
Definition nanmean (l : list pyfloat) : pyfloat := mean (finite_values l).

Definition Qmaximum (l : list Q) : pyfloat :=
  match l with
  | [] => NaN
  | a :: r => Fin (fold_left Qmax r a)
  end.

Definition Qminimum (l : list Q) : pyfloat :=
  match l with
  | [] => NaN
  | a :: r => Fin (fold_left Qmin r a)
  end.

(** What a call yields: a value, or an exception named by its class. *)
Inductive outcome (A : Type) : Type :=
| Returned (a : A)
| Raised (exn : string).
Arguments Returned {A} a.
Arguments Raised {A} exn.

End Py.
Import Py.

(** ** score_calculator.py *)

Module ScoreCalculator.

(** *** calculate_trend_score *)

(** Slope of a moving average against its value [k] rows back, in
    percent. *)
Definition ma_slope (latest_ma : pyfloat) (col : list pyfloat) (k : nat) : option pyfloat :=
  match iloc_neg k col with
  | Some past => Some (((latest_ma / past) - Fin 1) * Fin 100)%F
  | None => None
  end.

Definition slope_points (s : option pyfloat) : option Z :=
  match s with
  | Some v => Some (if (v >? Fin 0)%F then 2 else 0)%Z
  | None => None
  end.

(** Points for the alignment of the short moving averages. *)
Definition ma_alignment_score (latest : row) : Z :=
  ((if (Fin (Close latest) >? MA20 latest)%F then 3 else 0) +
   (if (MA20 latest >? MA60 latest)%F then 3 else 0))%Z.

(** The body of the first [try] block; [None] stands for an exception
    raised inside it. *)
Definition ma_trend_block (stock_data : DataFrame) (latest : row) : option Z :=
  let n := len stock_data in
  let rs := rows stock_data in
  let p20 :=
    if has_col stock_data "MA20"
    then slope_points (ma_slope (MA20 latest) (map MA20 rs) 20)
    else Some 0%Z in
  let p60 :=
    if has_col stock_data "MA60" && (60 <=? n)%nat
    then slope_points (ma_slope (MA60 latest) (map MA60 rs) (Nat.min 60 (n - 1)))
    else Some 0%Z in
  let p120 :=
    if has_col stock_data "MA120" && (120 <=? n)%nat
    then slope_points (ma_slope (MA120 latest) (map MA120 rs) (Nat.min 120 (n - 1)))
    else Some 0%Z in
  match p20, p60, p120 with
  | Some a, Some b, Some c => Some (a + b + c)%Z
  | _, _, _ => None
  end.

Definition long_trend_points (price_to_low_ratio : pyfloat) : Z :=
  if (price_to_low_ratio >=? Fin 1.5)%F then 6
  else if (price_to_low_ratio >=? Fin 1.3)%F then 4
  else if (price_to_low_ratio >=? Fin 1.2)%F then 2
  else 0.

Definition volume_tier (volume_ratio_20d : pyfloat) : Z :=
  if (volume_ratio_20d >=? Fin 2.0)%F then 7
  else if (volume_ratio_20d >=? Fin 1.5)%F then 6
  else if (volume_ratio_20d >=? Fin 1.3)%F then 5
  else if (volume_ratio_20d >=? Fin 1.1)%F then 4
  else if (volume_ratio_20d >=? Fin 1.0)%F then 3
  else if (volume_ratio_20d >=? Fin 0.8)%F then 2
  else if (volume_ratio_20d >=? Fin 0.5)%F then 1
  else 0.

Definition volume_points (volume_ratio_20d volume_ratio_60d : pyfloat) : Z :=
  let volume_score := volume_tier volume_ratio_20d in
  if (volume_ratio_60d >=? Fin 1.5)%F then Z.min (volume_score + 1) 7 else volume_score.

Definition calculate_trend_score (stock_data : DataFrame) : pyfloat * details :=
  match last (rows stock_data) with
  | None => (Fin 0, [])
  | Some latest =>
    let n := len stock_data in
    let score := Fin 0 in
    let details : details := [] in
    (* 1. short moving-average alignment *)
    let '(score, details) :=
      if has_col stock_data "MA20" && has_col stock_data "MA60" then
        let a := ma_alignment_score latest in
        ((score + (fz a / Fin 6) * Fin 6)%F,
         details ++ [("ma_alignment_score", vint a)])
      else (score, details) in
    (* 2. slope of the moving averages *)
    let '(score, details) :=
      if (20 <=? n)%nat then
        match ma_trend_block stock_data latest with
        | Some t => ((score + (fz t / Fin 6) * Fin 6)%F,
                     details ++ [("ma_trend_score", vint t)])
        | None => (score, details ++ [("ma_trend_score", vint 0)])
        end
      else (score, details) in
    (* 3. position above the 52-week low *)
    let '(score, details) :=
      if has_col stock_data "52W_Low" && (Low_52W latest >? Fin 0)%F then
        let price_to_low_ratio := (Fin (Close latest) / Low_52W latest)%F in
        let l := long_trend_points price_to_low_ratio in
        ((score + (fz l / Fin 6) * Fin 6)%F,
         details ++ [("price_to_52w_low", VNum (pyround 2 price_to_low_ratio));
                     ("long_trend_score", vint l)])
      else (score, details) in
    (* 4. volume confirmation *)
    let '(score, details) :=
      if (20 <=? n)%nat then
        let vol := map (fun r : row => Volume r) (rows stock_data) in
        let recent_5d_volume := mean (tail 5 vol) in
        let avg_volume_20 := mean (tail 20 vol) in
        let avg_volume_60 := mean (tail (Nat.min 60 n) vol) in
        let volume_ratio_20d :=
          if (avg_volume_20 >? Fin 0)%F then (recent_5d_volume / avg_volume_20)%F else Fin 0 in
        let volume_ratio_60d :=
          if (avg_volume_60 >? Fin 0)%F then (recent_5d_volume / avg_volume_60)%F else Fin 0 in
        let v := volume_points volume_ratio_20d volume_ratio_60d in
        ((score + fz v)%F,
         details ++ [("recent_5d_volume", VNum (pyint recent_5d_volume));
                     ("avg_volume_20d", VNum (pyint avg_volume_20));
                     ("avg_volume_60d", VNum (pyint avg_volume_60));
                     ("volume_ratio_20d", VNum (pyround 2 volume_ratio_20d));
                     ("volume_ratio_60d", VNum (pyround 2 volume_ratio_60d));
                     ("volume_score", vint v)])
      else (score, details) in
    (pyround 1 score, details)
  end.

(** *** calculate_pattern_score *)

Definition pattern_result : Type := bool * details.

Definition truthy_details (d : details) : bool :=
  match d with [] => false | _ => true end.

Definition calculate_pattern_score (vcp_result pivot_result breakout_result : pattern_result)
  : pyfloat * details :=
  let w_vcp := Fin 8 in
  let w_pivot := Fin 7 in
  let w_breakout := Fin 5 in
  let score := Fin 0 in
  let details := [] in
  let '(vcp_found, vcp_data) := vcp_result in
  let score := if vcp_found then (score + w_vcp)%F else score in
  let details := details ++ [("vcp_found", VBool vcp_found)] in
  let details :=
    if truthy_details vcp_data then details ++ [("vcp_data", VDict vcp_data)] else details in
  let '(pivot_found, pivot_data) := pivot_result in
  let score := if pivot_found then (score + w_pivot)%F else score in
  let details := details ++ [("pivot_found", VBool pivot_found)] in
  let details :=
    if truthy_details pivot_data then details ++ [("pivot_data", VDict pivot_data)] else details in
  let '(breakout_found, breakout_data) := breakout_result in
  let score := if breakout_found then (score + w_breakout)%F else score in
  let details := details ++ [("breakout_found", VBool breakout_found)] in
  let details :=
    if truthy_details breakout_data
    then details ++ [("breakout_data", VDict breakout_data)] else details in
  (pyround 1 score, details).

(** *** calculate_rs_score *)

(** One half of the relative-strength score: the return spread scaled
    to [[0, 1]] by [full] and weighted 12.5 points. *)
Definition rs_half (rs full : pyfloat) : pyfloat :=
  (pymin (pymax (rs / full) (Fin 0)) (Fin 1) * Fin 12.5)%F.

Definition calculate_rs_score (stock_data market_data : DataFrame) : pyfloat * details :=
  match last (rows stock_data), last (rows market_data) with
  | Some stock_latest, Some market_latest =>
    let score := Fin 0 in
    let details := [] in
    let '(score, details) :=
      if has_col stock_data "Return_13W" && has_col market_data "Return_13W" then
        let stock_return_13w := Return_13W stock_latest in
        let market_return_13w := Return_13W market_latest in
        if negb (isnan stock_return_13w) && negb (isnan market_return_13w) then
          let rs_13w := (stock_return_13w - market_return_13w)%F in
          let rs_13w_score := rs_half rs_13w (Fin 0.2) in
          ((score + rs_13w_score)%F,
           details ++ [("stock_return_13w", VNum (pyround 2 (stock_return_13w * Fin 100)%F));
                       ("market_return_13w", VNum (pyround 2 (market_return_13w * Fin 100)%F));
                       ("rs_13w", VNum (pyround 2 (rs_13w * Fin 100)%F));
                       ("rs_13w_score", VNum (pyround 1 rs_13w_score))])
        else (score, details)
      else (score, details) in
    let '(score, details) :=
      if has_col stock_data "Return_26W" && has_col market_data "Return_26W" then
        let stock_return_26w := Return_26W stock_latest in
        let market_return_26w := Return_26W market_latest in
        if negb (isnan stock_return_26w) && negb (isnan market_return_26w) then
          let rs_26w := (stock_return_26w - market_return_26w)%F in
          let rs_26w_score := rs_half rs_26w (Fin 0.3) in
          ((score + rs_26w_score)%F,
           details ++ [("stock_return_26w", VNum (pyround 2 (stock_return_26w * Fin 100)%F));
                       ("market_return_26w", VNum (pyround 2 (market_return_26w * Fin 100)%F));
                       ("rs_26w", VNum (pyround 2 (rs_26w * Fin 100)%F));
                       ("rs_26w_score", VNum (pyround 1 rs_26w_score))])
        else (score, details)
      else (score, details) in
    (pyround 1 score, details)
  | _, _ => (Fin 0, [])
  end.

(** *** calculate_investor_score *)

(** The investor-flow dictionary as its producer builds it: a string
    under ['data_source'] and numbers under every other key. *)
Record investor_dict : Type := {
  data_source : option string;
  fields : gmap string pyfloat
}.

(** [not investor_data] for a dictionary: it has no key at all. *)
Definition investor_dict_empty (d : investor_dict) : bool :=
  match data_source d with
  | Some _ => false
  | None => bool_decide (fields d = ∅)
  end.

(** [investor_data.get(key, 0)] *)
Definition iget (d : investor_dict) (key : string) : pyfloat :=
  default (Fin 0) (fields d !! key).

Definition foreign_points (foreign_net foreign_ratio : pyfloat) : pyfloat :=
  if (foreign_net >? Fin 0)%F then
    if (foreign_ratio >=? Fin 5)%F then Fin 4
    else if (foreign_ratio >=? Fin 2)%F then Fin 3
    else if (foreign_ratio >=? Fin 1)%F then Fin 2
    else if (foreign_ratio >? Fin 0)%F then Fin 1
    else Fin 0
  else Fin 0.

Definition institution_points (institution_net institution_ratio : pyfloat) : pyfloat :=
  if (institution_net >? Fin 0)%F then
    if (institution_ratio >=? Fin 3)%F then Fin 4
    else if (institution_ratio >=? Fin 1.5)%F then Fin 3
    else if (institution_ratio >=? Fin 0.5)%F then Fin 2
    else if (institution_ratio >? Fin 0)%F then Fin 1
    else Fin 0
  else Fin 0.

Definition consecutive_points (net_buy_days foreign_buy_days institution_buy_days : pyfloat)
  : pyfloat :=
  let consecutive_score :=
    if (net_buy_days >=? Fin 15)%F then Fin 2.0
    else if (net_buy_days >=? Fin 10)%F then Fin 1.5
    else if (net_buy_days >=? Fin 5)%F then Fin 1.0
    else if (net_buy_days >=? Fin 3)%F then Fin 0.5
    else Fin 0 in
  if (foreign_buy_days >=? Fin 3)%F && (institution_buy_days >=? Fin 3)%F
  then pymin (consecutive_score + Fin 0.5)%F (Fin 2.0)
  else consecutive_score.

Definition short_points (short_ratio : pyfloat) : pyfloat :=
  if (short_ratio <=? Fin 1)%F then Fin 2
  else if (short_ratio <=? Fin 3)%F then Fin 1.5
  else if (short_ratio <=? Fin 5)%F then Fin 1
  else if (short_ratio <=? Fin 10)%F then Fin 0.5
  else Fin 0.

Definition calculate_investor_score (investor_data : option investor_dict) (max_points : pyfloat)
  : pyfloat * details :=
  match investor_data with
  | None => (Fin 0, [])
  | Some d =>
    if investor_dict_empty d then (Fin 0, [])
    else
      let data_source := default "unknown" (data_source d) in
      if String.eqb data_source "default" then
        (Fin 0,
         [("foreign_net_buy", vint 0); ("foreign_ratio", vint 0);
          ("institution_net_buy", vint 0); ("institution_ratio", vint 0);
          ("net_buy_days", vint 0); ("short_selling_volume", vint 0);
          ("short_selling_ratio", vint 0); ("short_selling_balance", vint 0);
          ("short_selling_days", vint 0); ("data_source", VStr data_source);
          ("message", VStr "투자자 데이터 수집 실패")])
      else
        let score := Fin 0 in
        (* 1. foreign net buying *)
        let foreign_net := iget d "foreign_net_buy" in
        let foreign_ratio := iget d "foreign_ratio" in
        let score := (score + foreign_points foreign_net foreign_ratio)%F in
        (* 2. institution net buying *)
        let institution_net := iget d "institution_net_buy" in
        let institution_ratio := iget d "institution_ratio" in
        let score := (score + institution_points institution_net institution_ratio)%F in
        (* 3. consecutive net-buy days *)
        let net_buy_days := iget d "net_buy_days" in
        let foreign_buy_days := iget d "foreign_buy_days" in
        let institution_buy_days := iget d "institution_buy_days" in
        let consecutive_score :=
          consecutive_points net_buy_days foreign_buy_days institution_buy_days in
        let score := (score + consecutive_score)%F in
        (* 4. short selling: the lower the ratio the better *)
        let short_ratio := iget d "short_selling_ratio" in
        let short_volume := iget d "short_selling_volume" in
        let short_balance := iget d "short_selling_balance" in
        let short_days := iget d "short_selling_days" in
        let score := (score + short_points short_ratio)%F in
        let investor_score := pymin (pyround 1 score) max_points in
        (investor_score,
         [("foreign_net_buy", VNum foreign_net);
          ("foreign_ratio", VNum (pyround 2 foreign_ratio));
          ("institution_net_buy", VNum institution_net);
          ("institution_ratio", VNum (pyround 2 institution_ratio));
          ("net_buy_days", VNum net_buy_days);
          ("foreign_buy_days", VNum foreign_buy_days);
          ("institution_buy_days", VNum institution_buy_days);
          ("consecutive_score", VNum consecutive_score);
          ("short_selling_volume", VNum short_volume);
          ("short_selling_ratio", VNum (pyround 2 short_ratio));
          ("short_selling_balance", VNum short_balance);
          ("short_selling_days", VNum short_days);
          ("data_source", VStr data_source)])
  end.

(** *** calculate_fundamental_score *)

Definition lower_ascii (c : ascii) : ascii :=
  let n := nat_of_ascii c in
  if (65 <=? n)%nat && (n <=? 90)%nat then ascii_of_nat (n + 32) else c.

Fixpoint lower (s : string) : string :=
  match s with
  | EmptyString => EmptyString
  | String c r => String (lower_ascii c) (lower r)
  end.

Section Fundamental.

(** Python's [float(s)] on a string: [None] stands for the ValueError. *)
Variable float_of_str : string -> option pyfloat.

Definition null_word (s : string) : bool :=
  existsb (String.eqb (lower s)) ["nan"; "none"; "null"].

(** The local helper [safe_number(value, default=0.0)]. *)
Definition safe_number (value : pyval) : pyfloat :=
  match value with
  | VNone => Fin 0
  | VStr s =>
      if String.eqb s "" || null_word s then Fin 0
      else default (Fin 0) (float_of_str s)
  | VNum x => if isnan x then Fin 0 else x
  | VBool b => if b then Fin 1 else Fin 0
  | VDict _ | VOther => Fin 0
  end.

(** [safe_number(financial_data.get(key, 0))] *)
Definition fnum (financial_data : gmap string pyval) (key : string) : pyfloat :=
  safe_number (default (vint 0) (financial_data !! key)).

Definition has_key (financial_data : gmap string pyval) (key : string) : bool :=
  bool_decide (is_Some (financial_data !! key)).

(** Four descending thresholds, then a linear ramp above zero. *)
Definition ramp_tier (x t1 p1 t2 p2 t3 p3 slope : pyfloat) : pyfloat :=
  if (x >=? t1)%F then p1
  else if (x >=? t2)%F then p2
  else if (x >=? t3)%F then p3
  else if (x >? Fin 0)%F then (x * slope)%F
  else Fin 0.

(** Two descending thresholds, then a linear ramp above zero. *)
Definition ramp_tier2 (x t1 p1 t2 p2 slope : pyfloat) : pyfloat :=
  if (x >=? t1)%F then p1
  else if (x >=? t2)%F then p2
  else if (x >? Fin 0)%F then (x * slope)%F
  else Fin 0.

(** Valuation multiple [x] against the bands (0, b1], (b1, b2],
    (b2, b3] and above. *)
Definition band_tier (x b1 p1 b2 p2 b3 p3 p4 : pyfloat) : pyfloat :=
  if (Fin 0 <? x)%F && (x <=? b1)%F then p1
  else if (b1 <? x)%F && (x <=? b2)%F then p2
  else if (b2 <? x)%F && (x <=? b3)%F then p3
  else if (x >? b3)%F then p4
  else Fin 0.

Definition debt_points (debt_ratio : pyfloat) : pyfloat :=
  if (debt_ratio <=? Fin 30)%F then Fin 2.0
  else if (debt_ratio <=? Fin 50)%F then Fin 1.5
  else if (debt_ratio <=? Fin 100)%F then Fin 1.0
  else if (debt_ratio <=? Fin 200)%F then Fin 0.5
  else Fin 0.

(** [sum(scores.values())]: starts from 0 and adds in insertion order. *)
Definition sum_values (scores : list (string * pyfloat)) : pyfloat :=
  fold_left (fun acc kv => (acc + snd kv)%F) scores (Fin 0).

(** Branch for records tagged ['f_data_fundamental']. *)
Definition scores_f_data_fundamental (fd : gmap string pyval) : list (string * pyfloat) :=
  let roe := fnum fd "roe" in
  let per := fnum fd "per" in
  let pbr := fnum fd "pbr" in
  let roe_score := ramp_tier roe (Fin 15) (Fin 12) (Fin 10) (Fin 8) (Fin 5) (Fin 4) (Fin 0.8) in
  let per_score := band_tier per (Fin 10) (Fin 9) (Fin 15) (Fin 6) (Fin 25) (Fin 3) (Fin 1) in
  let pbr_score := band_tier pbr (Fin 1.0) (Fin 9) (Fin 1.5) (Fin 6) (Fin 3.0) (Fin 3) (Fin 1) in
  [("roe", pymin roe_score (Fin 12)); ("per", per_score); ("pbr", pbr_score)].

(** Branch for records tagged ['f_data_financial']. *)
Definition scores_f_data_financial (fd : gmap string pyval) : list (string * pyfloat) :=
  let roe := fnum fd "roe" in
  let debt_ratio := fnum fd "debt_ratio" in
  let operating_margin := fnum fd "operating_margin" in
  let revenue_yoy := fnum fd "revenue_yoy" in
  let operating_profit_yoy := fnum fd "operating_profit_yoy" in
  let roe_score := ramp_tier roe (Fin 15) (Fin 8) (Fin 10) (Fin 6) (Fin 5) (Fin 4) (Fin 0.8) in
  let op_margin_score :=
    ramp_tier operating_margin (Fin 10) (Fin 7) (Fin 5) (Fin 5) (Fin 2) (Fin 3) (Fin 1.5) in
  let revenue_growth_score :=
    ramp_tier revenue_yoy (Fin 20) (Fin 7) (Fin 10) (Fin 5) (Fin 5) (Fin 3) (Fin 0.6) in
  let op_growth_score :=
    ramp_tier operating_profit_yoy (Fin 25) (Fin 6) (Fin 15) (Fin 4) (Fin 5) (Fin 2) (Fin 0.4) in
  [("roe", pymin roe_score (Fin 8));
   ("operating_margin", pymin op_margin_score (Fin 7));
   ("revenue_growth", pymin revenue_growth_score (Fin 7));
   ("operating_profit_growth", pymin op_growth_score (Fin 6));
   ("debt_ratio", debt_points debt_ratio)].

(** Other sources carrying both ['roe'] and ['debt_ratio']. *)
Definition scores_full (fd : gmap string pyval) : list (string * pyfloat) :=
  let roe := fnum fd "roe" in
  let debt_ratio := fnum fd "debt_ratio" in
  let operating_margin := fnum fd "operating_margin" in
  let sales_yoy := fnum fd "sales_yoy" in
  let op_income_yoy := fnum fd "op_income_yoy" in
  let sales_qoq := fnum fd "sales_qoq" in
  let op_income_qoq := fnum fd "op_income_qoq" in
  let roe_score := ramp_tier roe (Fin 15) (Fin 8) (Fin 10) (Fin 6) (Fin 5) (Fin 4) (Fin 0.8) in
  let op_margin_score :=
    ramp_tier operating_margin (Fin 10) (Fin 7) (Fin 5) (Fin 5) (Fin 2) (Fin 3) (Fin 1.5) in
  let sales_yoy_score :=
    ramp_tier sales_yoy (Fin 20) (Fin 5) (Fin 10) (Fin 4) (Fin 5) (Fin 3) (Fin 0.6) in
  let sales_qoq_score := ramp_tier2 sales_qoq (Fin 10) (Fin 2) (Fin 5) (Fin 1.5) (Fin 0.3) in
  let op_yoy_score :=
    ramp_tier op_income_yoy (Fin 25) (Fin 4) (Fin 15) (Fin 3) (Fin 5) (Fin 2) (Fin 0.4) in
  let op_qoq_score := ramp_tier2 op_income_qoq (Fin 15) (Fin 2) (Fin 5) (Fin 1) (Fin 0.2) in
  [("roe", pymin roe_score (Fin 8));
   ("operating_margin", pymin op_margin_score (Fin 7));
   ("revenue_growth", pymin (sales_yoy_score + sales_qoq_score)%F (Fin 7));
   ("operating_profit_growth", pymin (op_yoy_score + op_qoq_score)%F (Fin 6));
   ("debt_ratio", debt_points debt_ratio)].

(** Other sources carrying only valuation multiples. *)
Definition scores_valuation (per pbr dividend_yield : pyfloat) : list (string * pyfloat) :=
  let per_score := band_tier per (Fin 10) (Fin 12) (Fin 15) (Fin 8) (Fin 25) (Fin 4) (Fin 1) in
  let pbr_score := band_tier pbr (Fin 1.0) (Fin 12) (Fin 1.5) (Fin 8) (Fin 3.0) (Fin 4) (Fin 1) in
  let div_score := ramp_tier2 dividend_yield (Fin 4) (Fin 6) (Fin 2) (Fin 4) (Fin 2.0) in
  [("per", per_score); ("pbr", pbr_score); ("dividend_yield", div_score)].

Definition num_items (scores : list (string * pyfloat)) : list (string * pyval) :=
  map (fun kv => (fst kv, VNum (snd kv))) scores.

(** [value == s] for a string literal [s]. *)
Definition is_str (value : pyval) (s : string) : bool :=
  match value with VStr t => String.eqb t s | _ => false end.

(** The total and the [scores] dictionary of a non-empty record. *)
Definition fundamental_total (fd : gmap string pyval) (data_source : pyval)
  : pyfloat * list (string * pyval) :=
  if is_str data_source "f_data_fundamental" then
    let scores := scores_f_data_fundamental fd in (sum_values scores, num_items scores)
  else if is_str data_source "f_data_financial" then
    let scores := scores_f_data_financial fd in (sum_values scores, num_items scores)
  else
      if has_key fd "roe" && has_key fd "debt_ratio" then
        let scores := scores_full fd in (sum_values scores, num_items scores)
      else if has_key fd "per" || has_key fd "pbr" then
        let per := fnum fd "per" in
        let pbr := fnum fd "pbr" in
        let dividend_yield := fnum fd "dividend_yield" in
        if feq per (Fin 0) && feq pbr (Fin 0) && feq dividend_yield (Fin 0) then
          (Fin 5,
           [("per", vint 0); ("pbr", vint 0); ("dividend_yield", vint 0);
            ("message", VStr "가치평가 지표 데이터 부족")])
        else
          let scores := scores_valuation per pbr dividend_yield in
          (sum_values scores, num_items scores)
      else
        (* the source repeats the valuation test in a second, unreachable
           [elif]; what remains is the record with none of the keys *)
        (Fin 3, [("message", VStr "재무 데이터 부족")]).

(** [scores.get(key, 0)] *)
Fixpoint sget (scores : list (string * pyval)) (key : string) : pyval :=
  match scores with
  | [] => vint 0
  | (k, v) :: rest => if String.eqb k key then v else sget rest key
  end.

Definition calculate_fundamental_score (financial_data : option (gmap string pyval))
  : pyfloat * details :=
  let no_data :=
    (Fin 0,
     [("profitability",
       VDict [("roe", vint 0); ("operating_margin", vint 0); ("net_margin", vint 0)]);
      ("growth",
       VDict [("revenue_growth", vint 0); ("operating_profit_growth", vint 0);
              ("net_income_growth", vint 0)]);
      ("stability", VDict [("debt_ratio", vint 0)]);
      ("valuation", VDict [("per", vint 0); ("pbr", vint 0); ("dividend_yield", vint 0)]);
      ("data_source", VStr "none");
      ("message", VStr "재무 데이터 없음")]) in
  match financial_data with
  | None => no_data
  | Some fd =>
    if bool_decide (fd = ∅) then no_data
    else
      let data_source :=
        default (default (VStr "unknown") (fd !! "data_source")) (fd !! "source") in
      let '(total_score, scores) := fundamental_total fd data_source in
      let final_score := pymin (pyround 1 total_score) (Fin 30) in
      let get2 k1 k2 :=
        safe_number (default (default (vint 0) (fd !! k2)) (fd !! k1)) in
      (final_score,
       [("profitability",
         VDict [("roe", sget scores "roe");
                ("operating_margin", sget scores "operating_margin");
                ("net_margin", sget scores "net_margin")]);
        ("growth",
         VDict [("revenue_growth", sget scores "revenue_growth");
                ("operating_profit_growth", sget scores "operating_profit_growth");
                ("net_income_growth", sget scores "net_income_growth");
                ("revenue_yoy", VNum (get2 "revenue_yoy" "sales_yoy"));
                ("operating_profit_yoy", VNum (get2 "operating_profit_yoy" "op_income_yoy"));
                ("net_income_yoy", VNum (fnum fd "net_income_yoy"))]);
        ("stability", VDict [("debt_ratio", sget scores "debt_ratio")]);
        ("valuation",
         VDict [("per", sget scores "per"); ("pbr", sget scores "pbr");
                ("dividend_yield", sget scores "dividend_yield")]);
        ("data_source", data_source);
        ("scores_detail", VDict scores)])
  end.

End Fundamental.

(** *** calculate_total_score *)

(** The raw total (at most 112) normalised to a 100-point scale, on
    exact numbers; [Binary64.calculate_total_score] below is the same
    function on doubles. *)
Definition calculate_total_score
  (trend_score pattern_score rs_score fundamental_score investor_score : pyfloat)
  : pyfloat :=
  let raw_total :=
    (trend_score + pattern_score + rs_score + fundamental_score + investor_score)%F in
  pymin (pyround 1 ((raw_total / Fin 112) * Fin 100)%F) (Fin 100).

End ScoreCalculator.

(** ** The composite score on IEEE doubles *)

(** [calculate_total_score] once more, on binary64 values with the
    rounding of every operation, for statements about the value it
    returns.  The operations are those of the standard library's
    specification of IEEE 754 arithmetic. *)
Module Binary64.

Definition binary64 : Type := spec_float.

Definition prec : Z := 53.
Definition emax : Z := 1024.

Definition add : binary64 -> binary64 -> binary64 := SFadd prec emax.
Definition mul : binary64 -> binary64 -> binary64 := SFmul prec emax.
Definition div : binary64 -> binary64 -> binary64 := SFdiv prec emax.
Definition ltb : binary64 -> binary64 -> bool := SFltb.
Definition leb : binary64 -> binary64 -> bool := SFleb.


(** The double of an integer. *)
Definition of_Z (z : Z) : binary64 := binary_normalize prec emax z 0 false.

(** The double nearest to [n/d], for [n >= 0], with the given sign. *)
Definition nearest (negative : bool) (n : Z) (d : positive) : binary64 :=
  match n with
  | Zpos _ =>
      let '(m, e, l) := SFdiv_core_binary prec emax n 0 (Zpos d) 0 in
      binary_round_aux prec emax negative m e l
  | _ => S754_zero negative
  end.

(** The double a decimal literal denotes, such as [22.4] for
    [decimal 224 10]. *)
Definition decimal (n : Z) (d : positive) : binary64 := nearest (n <? 0)%Z (Z.abs n) d.

(** The absolute value of a finite double, exactly. *)
Definition magnitude (x : binary64) : Q :=
  match x with
  | S754_finite _ m e =>
      match e with
      | Zneg p => Zpos m # (2 ^ p)
      | _ => inject_Z (Zpos m * 2 ^ e)
      end
  | _ => 0
  end.

(** [round(x, ndigits)] on a Python [float], for [ndigits >= 0]: the
    exact value of [x] is rounded to [ndigits] decimals, ties to even,
    and the result is the double nearest to that decimal.  NaN, the
    infinities and the zeros are returned as they are. *)
Definition py_round (ndigits : nat) (x : binary64) : binary64 :=
  match x with
  | S754_finite s _ _ =>
      let p := Z.to_pos (10 ^ Z.of_nat ndigits) in
      nearest s (round_half_even (magnitude x * inject_Z (Zpos p))) p
  | _ => x
  end.

(** [np.rint]: the nearest integer, ties to even. *)
Definition rint (x : binary64) : binary64 :=
  match x with
  | S754_finite s _ (Zneg _) =>
      match round_half_even (magnitude x) with
      | Z0 => S754_zero s
      | n => binary_normalize prec emax (if s then Z.opp n else n) 0 s
      end
  | _ => x
  end.

(** [round(x, decimals)] on a numpy [float64], for [decimals >= 0]:
    numpy multiplies by the power of ten, rounds to an integer and
    divides, each step in double arithmetic. *)
Definition np_round (decimals : nat) (x : binary64) : binary64 :=
  let f := of_Z (10 ^ Z.of_nat decimals) in
  div (rint (mul x f)) f.

(** A number as the calculators hand it on: a Python [float] or a
    numpy [float64].  Both hold a double; they differ in [round].  An
    [int] (the calculators return the int 0 on some paths) is read as
    the [float] of the same value: Python converts it exactly when it
    meets a float, and sums of ints below 2^53 and their quotient by
    112 come out the same in both arithmetics. *)
Inductive scalar : Type :=
| Builtin (x : binary64)
| Numpy (x : binary64).

Definition number (numpy : bool) (x : binary64) : scalar :=
  if numpy then Numpy x else Builtin x.

Definition value (a : scalar) : binary64 :=
  match a with Builtin x | Numpy x => x end.

Definition is_numpy (a : scalar) : bool :=
  match a with Numpy _ => true | Builtin _ => false end.

(** An arithmetic operation: the result is numpy's as soon as one
    operand is. *)
Definition binary (op : binary64 -> binary64 -> binary64) (a b : scalar) : scalar :=
  if is_numpy a || is_numpy b then Numpy (op (value a) (value b))
  else Builtin (op (value a) (value b)).

(** [round(a, ndigits)] calls the [__round__] of the operand's type. *)
Definition round_ndigits (ndigits : nat) (a : scalar) : scalar :=
  match a with
  | Builtin x => Builtin (py_round ndigits x)
  | Numpy x => Numpy (np_round ndigits x)
  end.

(** Python's built-in [min(a, b)]. *)
Definition pymin (a b : scalar) : scalar :=
  if ltb (value b) (value a) then b else a.

Definition calculate_total_score
  (trend_score pattern_score rs_score fundamental_score investor_score : scalar)
  : scalar :=
  let raw_total :=
    binary add (binary add (binary add (binary add trend_score pattern_score) rs_score)
                  fundamental_score) investor_score in
  pymin (round_ndigits 1 (binary mul (binary div raw_total (Builtin (of_Z 112)))
                            (Builtin (of_Z 100))))
    (Builtin (of_Z 100)).

End Binary64.

(** ** stock_data.py: calculate_indicators *)

Module StockData.

(** The rows a rolling window of size [w] sees at position [i]; with
    [min_periods=1] a shorter prefix is used as it is. *)
Definition window {A} (w i : nat) (l : list A) : list A :=
  skipn (i + 1 - w) (firstn (i + 1) l).

Definition rolling {A B} (w : nat) (f : list A -> B) (l : list A) : list B :=
  map (fun i => f (window w i l)) (seq 0 (length l)).

(** [s.rolling(window=w, min_periods=1).mean()] *)
Definition rolling_mean (w : nat) (l : list Q) : list pyfloat := rolling w mean l.
Definition rolling_max (w : nat) (l : list Q) : list pyfloat := rolling w Qmaximum l.
Definition rolling_min (w : nat) (l : list Q) : list pyfloat := rolling w Qminimum l.

Section Std.

(** The square root of a non-negative number, as the float unit
    computes it. *)
Variable Qsqrt : Q -> Q.

(** Sample variance (ddof = 1) of at least two observations. *)
Definition sample_var (l : list Q) : Q :=
  let n := inject_Z (Z.of_nat (length l)) in
  let m := Qsum l / n in
  Qred (Qsum (map (fun x => (x - m) * (x - m)) l) / (n - 1)).

(** One value of [rolling(...).std()]: NaN below [min_periods]
    observations and for a single observation. *)
Definition std_of (min_periods : nat) (l : list Q) : pyfloat :=
  let nobs := length l in
  if (Nat.max min_periods 1 <=? nobs)%nat && (2 <=? nobs)%nat
  then Fin (Qsqrt (sample_var l)) else NaN.

Definition rolling_std (w min_periods : nat) (l : list Q) : list pyfloat :=
  rolling w (std_of min_periods) l.

End Std.

(** [s.pct_change(periods=k)]: NaN on the first [k] rows. *)
Definition pct_change (k : nat) (l : list Q) : list pyfloat :=
  map (fun i =>
         if (k <=? i)%nat then
           match nth_error l i, nth_error l (i - k) with
           | Some cur, Some past => ((Fin cur / Fin past) - Fin 1)%F
           | _, _ => NaN
           end
         else NaN)
      (seq 0 (length l)).

(** [s.diff()]: NaN on the first row. *)
Definition diff (l : list Q) : list pyfloat :=
  map (fun i =>
         if (1 <=? i)%nat then
           match nth_error l i, nth_error l (i - 1) with
           | Some cur, Some past => (Fin cur - Fin past)%F
           | _, _ => NaN
           end
         else NaN)
      (seq 0 (length l)).

(** [delta.where(delta > 0, 0)] and [-delta.where(delta < 0, 0)]: an
    entry failing the test, NaN included, is replaced by 0. *)
Definition gain_of (delta : pyfloat) : Q :=
  match delta with
  | Fin d => if Qltb 0 d then d else 0
  | _ => 0
  end.

Definition loss_of (delta : pyfloat) : Q :=
  match delta with
  | Fin d => if Qltb d 0 then Qred (- d) else 0
  | _ => 0
  end.

(** [s.ewm(span=span, adjust=False).mean()] *)
Fixpoint ewm_from (alpha prev : Q) (l : list Q) : list Q :=
  match l with
  | [] => []
  | x :: r =>
      let y := Qred ((1 - alpha) * prev + alpha * x) in
      y :: ewm_from alpha y r
  end.

Definition ewm (span : nat) (l : list Q) : list Q :=
  let alpha := 2 / (inject_Z (Z.of_nat span) + 1) in
  match l with
  | [] => []
  | x :: r => x :: ewm_from alpha x r
  end.

Definition rsi_of (gain loss : pyfloat) : pyfloat :=
  let rs := (gain / loss)%F in
  (Fin 100 - (Fin 100 / (Fin 1 + rs)))%F.

Definition indicator_columns : list string :=
  ["MA20"; "MA60"; "MA120"; "BB_Middle"; "Upper_Band"; "Lower_Band";
   "Volume_MA5"; "Volume_MA20"; "52W_High"; "52W_Low";
   "Return_1D"; "Return_13W"; "Return_26W"; "RSI";
   "MACD"; "MACD_Signal"; "MACD_Histogram"].

Definition nthf (l : list pyfloat) (i : nat) : pyfloat := nth i l NaN.

(** The derived columns, each computed over the whole series. *)
Record series : Type := {
  s_ma20 : list pyfloat;
  s_ma60 : list pyfloat;
  s_ma120 : list pyfloat;
  s_bb_std : list pyfloat;
  s_volume_ma5 : list pyfloat;
  s_volume_ma20 : list pyfloat;
  s_high_52w : list pyfloat;
  s_low_52w : list pyfloat;
  s_return_1d : list pyfloat;
  s_return_13w : list pyfloat;
  s_return_26w : list pyfloat;
  s_gain : list pyfloat;
  s_loss : list pyfloat;
  s_macd : list Q;
  s_macd_signal : list Q
}.

Definition compute_series (Qsqrt : Q -> Q) (df : list bar) : series :=
  let close := map Close df in
  let volume := map Volume df in
  let delta := diff close in
  let exp1 := ewm 12 close in
  let exp2 := ewm 26 close in
  let macd := map (fun p => Qred (fst p - snd p)) (combine exp1 exp2) in
  {| s_ma20 := rolling_mean 20 close;
     s_ma60 := rolling_mean 60 close;
     s_ma120 := rolling_mean 120 close;
     s_bb_std := rolling_std Qsqrt 20 1 close;
     s_volume_ma5 := rolling_mean 5 volume;
     s_volume_ma20 := rolling_mean 20 volume;
     s_high_52w := rolling_max 252 (map High df);
     s_low_52w := rolling_min 252 (map Low df);
     s_return_1d := pct_change 1 close;
     s_return_13w := pct_change 65 close;
     s_return_26w := pct_change 130 close;
     s_gain := rolling_mean 14 (map gain_of delta);
     s_loss := rolling_mean 14 (map loss_of delta);
     s_macd := macd;
     s_macd_signal := ewm 9 macd |}.

(** Row [i] of the enriched frame: the price point with the derived
    columns aligned on it. *)
Definition enriched_row (c : series) (i : nat) (b : bar) : row :=
  {| price := b;
     MA20 := nthf (s_ma20 c) i;
     MA60 := nthf (s_ma60 c) i;
     MA120 := nthf (s_ma120 c) i;
     BB_Middle := nthf (s_ma20 c) i;
     Upper_Band := (nthf (s_ma20 c) i + nthf (s_bb_std c) i * Fin 2)%F;
     Lower_Band := (nthf (s_ma20 c) i - nthf (s_bb_std c) i * Fin 2)%F;
     Volume_MA5 := nthf (s_volume_ma5 c) i;
     Volume_MA20 := nthf (s_volume_ma20 c) i;
     High_52W := nthf (s_high_52w c) i;
     Low_52W := nthf (s_low_52w c) i;
     Return_1D := nthf (s_return_1d c) i;
     Return_13W := nthf (s_return_13w c) i;
     Return_26W := nthf (s_return_26w c) i;
     RSI := rsi_of (nthf (s_gain c) i) (nthf (s_loss c) i);
     MACD := Fin (nth i (s_macd c) 0);
     MACD_Signal := Fin (nth i (s_macd_signal c) 0);
     MACD_Histogram := Fin (Qred (nth i (s_macd c) 0 - nth i (s_macd_signal c) 0)) |}.

Definition calculate_indicators (Qsqrt : Q -> Q) (df : list bar) : DataFrame :=
  match df with
  | [] => {| columns := []; rows := [] |}
  | _ =>
    let c := compute_series Qsqrt df in
    {| columns := indicator_columns; rows := imap (enriched_row c) df |}
  end.

(** *** _normalize_price_data: filling the gaps *)

(** [s.ffill()] on a column with gaps: a missing cell takes the last
    value before it, if there is one. *)
Fixpoint ffill_from (prev : option Q) (s : list (option Q)) : list (option Q) :=
  match s with
  | [] => []
  | Some x :: r => Some x :: ffill_from (Some x) r
  | None :: r => prev :: ffill_from prev r
  end.

Definition ffill (s : list (option Q)) : list (option Q) := ffill_from None s.

(** [s.bfill()]: a missing cell takes the next value after it. *)
Definition bfill (s : list (option Q)) : list (option Q) := reverse (ffill (reverse s)).

(** One column through [df.ffill().bfill()]. *)
Definition fill_gaps (s : list (option Q)) : list (option Q) := bfill (ffill s).

End StockData.

(** ** pattern_analyzer.py *)

Module PatternAnalyzer.

Import StockData.

Definition not_found : outcome (bool * details) := Returned (false, []).

Section Vcp.

Variable Qsqrt : Q -> Q.

(** [detect_vcp(df, window=60, std_threshold=0.8, min_periods=20)] *)
Definition detect_vcp (df : DataFrame) (window : nat) (std_threshold : pyfloat)
  (min_periods : nat) : outcome (bool * details) :=
  if empty df || (len df <? window)%nat then not_found
  else
    let recent_df := tail window (rows df) in
    let range := map (fun r : row => Qred (High r - Low r)) recent_df in
    (* pandas refuses a [min_periods] above the window of 20 *)
    if (20 <? min_periods)%nat then Raised "ValueError"
    else
      let volatility := rolling_std Qsqrt 20 min_periods range in
      if (length recent_df <? 50)%nat then not_found
      else
        let recent_volatility := nanmean (slice_neg 20 0 volatility) in
        let previous_volatility := nanmean (slice_neg 50 20 volatility) in
        let vcp_found := (recent_volatility <? previous_volatility * std_threshold)%F in
        let ma_aligned :=
          if has_col df "MA20" && has_col df "MA60" && has_col df "MA120" then
            match last (rows df) with
            | Some latest_values =>
                (Fin (Close latest_values) >? MA20 latest_values)%F &&
                (MA20 latest_values >? MA60 latest_values)%F &&
                (MA60 latest_values >? MA120 latest_values)%F
            | None => false
            end
          else false in
        let vcp_found := vcp_found && ma_aligned in
        Returned
          (vcp_found,
           [("recent_volatility", VNum recent_volatility);
            ("previous_volatility", VNum previous_volatility);
            ("volatility_ratio",
             VNum (if (previous_volatility >? Fin 0)%F
                   then (recent_volatility / previous_volatility)%F else Fin 0));
            ("ma_aligned", VBool ma_aligned)]).

End Vcp.

(** The three conditions of a pocket pivot on the last two rows. *)
Definition volume_surge (df : DataFrame) (latest : row) (volume_factor : pyfloat) : bool :=
  if has_col df "Volume_MA20"
  then (Fin (Volume latest) >? Volume_MA20 latest * volume_factor)%F
  else false.

Definition price_up (latest prev : row) : bool :=
  (Fin (Close latest) >? Fin (Close prev) * Fin 1.03)%F.

Definition above_ma (df : DataFrame) (latest : row) : bool :=
  if has_col df "MA20" && has_col df "MA60"
  then (Fin (Close latest) >? MA20 latest)%F && (MA20 latest >? MA60 latest)%F
  else false.

(** [detect_pocket_pivot(df, window=50, min_range=10, volume_factor=1.5)] *)
Definition detect_pocket_pivot (df : DataFrame) (window min_range : nat)
  (volume_factor : pyfloat) : outcome (bool * details) :=
  if empty df || (len df <? window)%nat then not_found
  else
    let recent_df := tail window (rows df) in
    match iloc_neg 1 recent_df, iloc_neg 2 recent_df with
    | Some latest, Some prev =>
        let volume_surge := volume_surge df latest volume_factor in
        let price_up := price_up latest prev in
        let above_ma := above_ma df latest in
        let pivot_found := volume_surge && price_up && above_ma in
        Returned
          (pivot_found,
           [("volume_ratio",
             VNum (if has_col df "Volume_MA20" && (Volume_MA20 latest >? Fin 0)%F
                   then (Fin (Volume latest) / Volume_MA20 latest)%F else Fin 0));
            ("price_change_pct",
             VNum (((Fin (Close latest) / Fin (Close prev)) - Fin 1) * Fin 100)%F);
            ("above_ma", VBool above_ma)])
    | _, _ => Raised "IndexError"
    end.

(** [detect_breakout(df, window=60, consolidation_days=20, breakout_pct=3.0)] *)
Definition detect_breakout (df : DataFrame) (window consolidation_days : nat)
  (breakout_pct : pyfloat) : outcome (bool * details) :=
  if empty df || (len df <? window)%nat then not_found
  else
    let recent_df := tail window (rows df) in
    if (length recent_df <? consolidation_days + 5)%nat then not_found
    else
      let resistance :=
        Qmaximum (slice_neg (consolidation_days + 5) 5
                            (map (fun r : row => High r) recent_df)) in
      match iloc_neg 1 recent_df with
      | Some latest =>
          let breakout_price := (resistance * (Fin 1 + breakout_pct / Fin 100))%F in
          let close_breakout := (Fin (Close latest) >? resistance)%F in
          let volume_surge := volume_surge df latest (Fin 1.3) in
          let breakout_found := close_breakout && volume_surge in
          Returned
            (breakout_found,
             [("resistance_level", VNum resistance);
              ("breakout_level", VNum breakout_price);
              ("price_to_resistance_ratio",
               VNum (if (resistance >? Fin 0)%F
                     then (Fin (Close latest) / resistance)%F else Fin 0));
              ("volume_surge", VBool volume_surge)])
      | None => Raised "IndexError"
      end.

End PatternAnalyzer.

(** ** financial_data.py: the fundamentals resolver *)

Module FinancialData.

Abbreviation pydict := (gmap string pyval).

(** [if d:] for a value that is a dictionary or [None]. *)
Definition truthy (d : option pydict) : bool :=
  match d with
  | Some m => negb (bool_decide (m = ∅))
  | None => false
  end.

Fixpoint zeros (n : nat) : string :=
  match n with
  | O => ""
  | S k => String "0" (zeros k)
  end.

(** [s.zfill(width)]: zeros go after a leading sign. *)
Definition zfill (width : nat) (s : string) : string :=
  let n := String.length s in
  if (width <=? n)%nat then s
  else
    let pad := zeros (width - n) in
    match s with
    | String c r =>
        if Ascii.eqb c "+" || Ascii.eqb c "-" then String c (pad ++ r)%string
        else (pad ++ s)%string
    | EmptyString => pad
    end.

Definition vq (a : Q) : pyval := VNum (Fin a).

(** The sector table of [_generate_default_financial_data]:
    roe, operating_margin, debt_ratio, sales_yoy, op_income_yoy, per,
    pbr, dividend_yield. *)
Record sector_default : Type := {
  d_roe : Q; d_operating_margin : Q; d_debt_ratio : Q;
  d_sales_yoy : Q; d_op_income_yoy : Q;
  d_per : Q; d_pbr : Q; d_dividend_yield : Q
}.

Definition sector_defaults (sector : string) : sector_default :=
  if String.eqb sector "tech" then
    {| d_roe := 8.0; d_operating_margin := 12.0; d_debt_ratio := 40.0;
       d_sales_yoy := 15.0; d_op_income_yoy := 12.0;
       d_per := 25.0; d_pbr := 3.0; d_dividend_yield := 1.0 |}
  else if String.eqb sector "manufacturing" then
    {| d_roe := 6.0; d_operating_margin := 8.0; d_debt_ratio := 60.0;
       d_sales_yoy := 8.0; d_op_income_yoy := 6.0;
       d_per := 15.0; d_pbr := 1.5; d_dividend_yield := 2.5 |}
  else if String.eqb sector "service" then
    {| d_roe := 7.0; d_operating_margin := 10.0; d_debt_ratio := 50.0;
       d_sales_yoy := 10.0; d_op_income_yoy := 8.0;
       d_per := 18.0; d_pbr := 2.0; d_dividend_yield := 2.0 |}
  else
    {| d_roe := 5.0; d_operating_margin := 8.0; d_debt_ratio := 50.0;
       d_sales_yoy := 8.0; d_op_income_yoy := 5.0;
       d_per := 20.0; d_pbr := 2.0; d_dividend_yield := 1.5 |}.

Definition estimate_sector (code_int : Z) : string :=
  if (140000 <=? code_int)%Z && (code_int <=? 150000)%Z then "tech"
  else if (200000 <=? code_int)%Z && (code_int <=? 300000)%Z then "tech"
  else if (5000 <=? code_int)%Z && (code_int <=? 10000)%Z then "manufacturing"
  else if (30000 <=? code_int)%Z && (code_int <=? 40000)%Z then "tech"
  else if (50000 <=? code_int)%Z && (code_int <=? 70000)%Z then "manufacturing"
  else "default".

Definition qint (a : Q) : pyval := VNum (Fin (inject_Z (Qtrunc a))).

Definition quarter_label (month : Z) : string :=
  let q := ((month - 1) / 3 + 1)%Z in
  if (q =? 1)%Z then "Q1" else if (q =? 2)%Z then "Q2"
  else if (q =? 3)%Z then "Q3" else "Q4".

Definition minimal_default : pydict :=
  list_to_map
    [("roe", vq 5.0); ("operating_margin", vq 8.0); ("debt_ratio", vq 50.0);
     ("sales_yoy", vq 5.0); ("op_income_yoy", vq 5.0);
     ("per", vq 20.0); ("pbr", vq 2.0); ("dividend_yield", vq 1.0);
     ("source", VStr "minimal_default"); ("note", VStr "최소 기본값")].

(** How [_save_to_financial_cache] can end.  [open(cache_file, 'w')]
    may fail, which leaves the file as it was.  Once it is open the
    file is empty, and a [json.dump] that fails then leaves a text cut
    short, before the closing brace of the document. *)
Inductive file_write : Type :=
| Written
| OpenFails
| DumpFails.

Section Resolver.

(** The clock. *)
Variable now : Z.
Variable current_year : Z.
Variable current_month : Z.
Variable today : string.

(** Python's [int(s)] on a string: [None] stands for the ValueError. *)
Variable int_of_str : string -> option Z.

(** Configuration. *)
Variable DART_FSS_AVAILABLE : bool.
Variable api_key_set : bool.

(** The pre-loaded snapshot [self.f_data_cache]. *)
Variable f_data_cache : gmap string pydict.

(** The conversion of a quarterly-financials entry to the standard
    layout inside [get_f_data_financial], without its tag:
    [Returned (Some r)] when the latest quarter carries figures,
    [Returned None] when the entry has no usable quarter, [Raised] when
    the figures are malformed. *)
Variable standardise_quarterly : string -> pydict -> outcome (option pydict).

(** The lower tiers, each a lookup outside this module. *)
Variable _get_from_specified_json_files : string -> outcome (option pydict).
Variable _get_from_financial_data_folder : string -> outcome (option pydict).
Variable get_dart_fss_financial_data : string -> outcome (option pydict).
Variable get_market_fundamental_data : string -> outcome (option pydict).
Variable _get_from_dart_api : string -> outcome (option pydict).

(** How writing a cache file ends. *)
Variable cache_write : file_write.

Definition get_f_data_fundamental (code : string) : option pydict :=
  let normalized_code := zfill 6 code in
  let fundamental_key := ("fundamental_" ++ normalized_code)%string in
  match f_data_cache !! fundamental_key with
  | Some entry => Some (<["data_source" := VStr "f_data_fundamental"]> entry)
  | None => None
  end.

Definition get_f_data_financial (code : string) : option pydict :=
  let normalized_code := zfill 6 code in
  let financial_key := ("financial_" ++ normalized_code)%string in
  match f_data_cache !! financial_key with
  | Some entry =>
      match standardise_quarterly normalized_code entry with
      | Returned (Some result) => Some (<["data_source" := VStr "f_data_financial"]> result)
      | Returned None => Some (<["data_source" := VStr "f_data_financial"]> entry)
      | Raised _ => None
      end
  | None => None
  end.

Definition _generate_default_financial_data (code : string) : pydict :=
  let formatted_code := zfill 6 code in
  match int_of_str formatted_code with
  | None => minimal_default
  | Some code_int =>
    let estimated_sector := estimate_sector code_int in
    let defaults := sector_defaults estimated_sector in
    let sales := 100000000000 in
    let om := d_operating_margin defaults in
    let roe := d_roe defaults in
    let dr := d_debt_ratio defaults in
    list_to_map
      [("roe", vq roe);
       ("operating_margin", vq om);
       ("net_margin", vq (Qred (om * 0.7)));
       ("debt_ratio", vq dr);
       ("sales_yoy", vq (d_sales_yoy defaults));
       ("op_income_yoy", vq (d_op_income_yoy defaults));
       ("net_income_yoy", vq (Qred (d_op_income_yoy defaults * 1.2)));
       ("sales_qoq", vq (Qred (d_sales_yoy defaults / 4)));
       ("op_income_qoq", vq (Qred (d_op_income_yoy defaults / 4)));
       ("net_income_qoq", vq (Qred (d_op_income_yoy defaults * 1.2 / 4)));
       ("per", vq (d_per defaults));
       ("pbr", vq (d_pbr defaults));
       ("dividend_yield", vq (d_dividend_yield defaults));
       ("sales", vq sales);
       ("operating_income", qint (sales * om / 100));
       ("net_income", qint (sales * om * 0.7 / 100));
       ("equity", qint (sales / roe * 100));
       ("debt", qint (sales / roe * 100 * dr / 100));
       ("assets", qint (sales / roe * 100 * (1 + dr / 100)));
       ("eps", qint (sales * om * 0.7 / 100 / 10000000));
       ("bps", qint (sales / roe * 100 / 10000000));
       ("dps", qint (sales * om * 0.7 / 100 / 10000000 * d_dividend_yield defaults / 100));
       ("year", vint current_year);
       ("quarter", VStr (quarter_label current_month));
       ("company_name", VStr ("종목" ++ code));
       ("data_source", VStr ("추정값_" ++ estimated_sector));
       ("source", VStr ("estimated_" ++ estimated_sector));
       ("last_update", VStr today);
       ("note", VStr "실제 데이터 부족으로 업종별 평균값 기반 추정")]
  end.

(** The cache files under [financial_cache_dir] that hold a JSON
    document, one per code; the stamp ['cached_at'] is kept as a number
    of seconds.  A file that is cut short has no entry here: on it
    [json.load] raises and [_get_from_financial_cache] returns [None],
    as it does when there is no file. *)
Abbreviation cache_store := (gmap string pydict).

Definition seven_days : Z := (7 * 86400)%Z.

Definition _get_from_financial_cache (store : cache_store) (code : string) : option pydict :=
  match store !! code with
  | Some data =>
      match data !! "cached_at" with
      | Some (VNum (Fin t)) =>
          if Qltb (inject_Z now - t) (inject_Z seven_days) then Some data else None
      | _ => None
      end
  | None => None
  end.

Definition _save_to_financial_cache (store : cache_store) (code : string) (data : pydict)
  : cache_store :=
  match cache_write with
  | Written => <[code := <["cached_at" := vint now]> data]> store
  | OpenFails => store
  | DumpFails => delete code store
  end.

(** [value > 0] on a dictionary value; comparing a non-number raises. *)
Definition positive (v : pyval) : outcome bool :=
  match v with
  | VNum x => Returned (x >? Fin 0)%F
  | VBool b => Returned b
  | _ => Raised "TypeError"
  end.

(** [any(pykrx_data.get(key, 0) > 0 for key in keys)] *)
Fixpoint has_meaningful_data (pykrx_data : pydict) (keys : list string) : outcome bool :=
  match keys with
  | [] => Returned false
  | key :: rest =>
      match positive (default (vint 0) (pykrx_data !! key)) with
      | Returned true => Returned true
      | Returned false => has_meaningful_data pykrx_data rest
      | Raised e => Raised e
      end
  end.

Definition pykrx_keys : list string :=
  ["per"; "pbr"; "eps"; "bps"; "roe"; "operating_margin"; "dividend_yield"].

(** One guarded attempt of the chain: the tier's answer when it is a
    non-empty record, [None] when it is empty, missing or raised. *)
Definition attempt (r : outcome (option pydict)) : option pydict :=
  match r with
  | Returned d => if truthy d then d else None
  | Raised _ => None
  end.

(** Method 1: the f_data snapshot, quarterly financials first. *)
Definition method_f_data (formatted_code : string) : option pydict :=
  let f_financial_data := get_f_data_financial formatted_code in
  if truthy f_financial_data then f_financial_data
  else
    let f_fundamental_data := get_f_data_fundamental formatted_code in
    if truthy f_fundamental_data then f_fundamental_data else None.

(** Method 4: market multiples, accepted only with a positive figure. *)
Definition method_pykrx (formatted_code : string) : option pydict :=
  match get_market_fundamental_data formatted_code with
  | Returned pykrx_data =>
      if truthy pykrx_data then
        match pykrx_data with
        | Some d =>
            match has_meaningful_data d pykrx_keys with
            | Returned true => Some d
            | _ => None
            end
        | None => None
        end
      else None
  | Raised _ => None
  end.

(** [x if x is not None else y()] *)
Definition or_else (x : option pydict) (y : option pydict) : option pydict :=
  match x with Some _ => x | None => y end.

(** The fallback chain of [get_financial_statement], after the cache
    check. *)
Definition resolve_chain (formatted_code : string) : option pydict :=
  let financial_data := method_f_data formatted_code in
  let financial_data :=
    or_else financial_data (attempt (_get_from_specified_json_files formatted_code)) in
  let financial_data :=
    or_else financial_data (attempt (_get_from_financial_data_folder formatted_code)) in
  let financial_data :=
    or_else financial_data
      (if DART_FSS_AVAILABLE then attempt (get_dart_fss_financial_data formatted_code)
       else None) in
  let financial_data := or_else financial_data (method_pykrx formatted_code) in
  let financial_data :=
    or_else financial_data
      (if api_key_set then attempt (_get_from_dart_api formatted_code) else None) in
  or_else financial_data (Some (_generate_default_financial_data formatted_code)).

(** [get_financial_statement(code, force_update=False)]: the record
    returned and the cache files afterwards. *)
Definition get_financial_statement (store : cache_store) (code : string) (force_update : bool)
  : option pydict * cache_store :=
  let formatted_code := zfill 6 code in
  let cached_data :=
    if force_update then None else _get_from_financial_cache store formatted_code in
  if truthy cached_data then (cached_data, store)
  else
    let financial_data := resolve_chain formatted_code in
    if truthy financial_data then
      match financial_data with
      | Some data => (financial_data, _save_to_financial_cache store formatted_code data)
      | None => (None, store)
      end
    else (None, store).

(** The tiers in the order the chain consults them, each reduced to
    the record it contributes, if any. *)
Definition tier_attempts (formatted_code : string) : list (option pydict) :=
  [ method_f_data formatted_code;
    attempt (_get_from_specified_json_files formatted_code);
    attempt (_get_from_financial_data_folder formatted_code);
    (if DART_FSS_AVAILABLE then attempt (get_dart_fss_financial_data formatted_code)
     else None);
    method_pykrx formatted_code;
    (if api_key_set then attempt (_get_from_dart_api formatted_code) else None);
    Some (_generate_default_financial_data formatted_code) ].

End Resolver.

(** "attempting each in strict priority order until one yields a usable
    result": the first record in the list. *)
Fixpoint first_usable (attempts : list (option pydict)) : option pydict :=
  match attempts with
  | [] => None
  | Some r :: _ => Some r
  | None :: rest => first_usable rest
  end.

(** The tag under which downstream code reads the originating tier. *)
Definition tag (r : pydict) : option pyval := r !! "data_source".

Definition tier1_tag (t : option pyval) : Prop :=
  t = Some (VStr "f_data_financial") \/ t = Some (VStr "f_data_fundamental").

(** *** The snapshot entries of _load_f_data *)

(** One entry of the fundamentals file as [_load_f_data] files it under
    ["fundamental_" ++ normalized_ticker]; [stock] is the instrument's
    JSON object. *)
Definition fundamental_entry (market normalized_ticker : string) (stock : pydict) : pydict :=
  list_to_map
    [("ticker", VStr normalized_ticker);
     ("name", default (VStr "") (stock !! "종목명"));
     ("market", VStr market);
     ("bps", default (vint 0) (stock !! "BPS"));
     ("per", default (vint 0) (stock !! "PER"));
     ("eps", default (vint 0) (stock !! "EPS"));
     ("pbr", default (vint 0) (stock !! "PBR"));
     ("roe", default (vint 0) (stock !! "ROE"));
     ("source", VStr "fundamental_data_202506")].


(** *** _parse_dart_financial_data *)





Section Dart.

(** Python's [int(s)] on a string: [None] stands for the ValueError. *)
Variable int_of_str : string -> option Z.





End Dart.

(** *** get_market_fundamental_data *)

Section Market.

(** Python's [float(s)] on a string: [None] stands for the ValueError. *)
Variable float_of_str : string -> option pyfloat.

(** The local helper [safe_float(value, default=0.0)]. *)
Definition safe_float (value : pyval) : pyfloat :=
  match value with
  | VNum x => if isnan x then Fin 0 else x
  | VStr s =>
      if String.eqb s "" || String.eqb s "-" then Fin 0
      else default (Fin 0) (float_of_str s)
  | VBool b => if b then Fin 1 else Fin 0
  | VNone | VDict _ | VOther => Fin 0
  end.

(** The initial value of the local [result_data]; [date] is
    [used_date or today.strftime('%Y%m%d')]. *)
Definition initial_result_data (date : string) : pydict :=
  list_to_map
    [("per", vq 0); ("pbr", vq 0); ("eps", vq 0); ("bps", vq 0);
     ("dividend_yield", vq 0); ("dps", vq 0); ("market_cap", vq 0);
     ("date", VStr date); ("source", VStr "default")].

(** The record of the outer [except] branch; [now_date] is the date
    the clock shows there. *)
Definition error_default (now_date : string) : pydict :=
  list_to_map
    [("per", vq 0); ("pbr", vq 0); ("eps", vq 0); ("bps", vq 0);
     ("dividend_yield", vq 0); ("dps", vq 0); ("market_cap", vq 0);
     ("date", VStr now_date); ("source", VStr "error_default")].

(** [result_data] at the end of the branch for an instrument the
    fundamentals table lists: [row] is its row there, [market_row] its
    row of the capitalisation table, if any. *)
Definition result_data (date : string) (row : pydict) (market_row : option pydict) : pydict :=
  let result_data := initial_result_data date in
  let column key := safe_float (default (vint 0) (row !! key)) in
  let per := column "PER" in
  let pbr := column "PBR" in
  let eps := column "EPS" in
  let bps := column "BPS" in
  let dividend_yield := column "DIV" in
  let result_data :=
    <["source" := VStr "pykrx_fundamental"]>
      (<["dps" := VNum (column "DPS")]>
         (<["dividend_yield" := VNum dividend_yield]>
            (<["bps" := VNum bps]>
               (<["eps" := VNum eps]>
                  (<["pbr" := VNum pbr]>
                     (<["per" := VNum per]> result_data)))))) in
  let result_data :=
    match market_row with
    | Some market_row =>
        <["market_cap" := VNum (safe_float (default (vint 0) (market_row !! "시가총액")))]>
          result_data
    | None => result_data
    end in
  (* estimated return on equity *)
  let roe :=
    if (bps >? Fin 0)%F && (eps >? Fin 0)%F then Some ((eps / bps) * Fin 100)%F
    else None in
  let result_data :=
    match roe with
    | Some estimated_roe => <["roe" := VNum estimated_roe]> result_data
    | None => result_data
    end in
  (* estimated operating margin, at most 50 *)
  let result_data :=
    if (eps >? Fin 0)%F && (bps >? Fin 0)%F then
      match roe with
      | Some r =>
          if (r >? Fin 0)%F
          then <["operating_margin" := VNum (pymin (r * Fin 1.5)%F (Fin 50))]> result_data
          else result_data
      | None => result_data
      end
    else result_data in
  (* estimated debt ratio *)
  let result_data :=
    match roe with
    | Some r =>
        if (pbr >? Fin 0)%F && (r >? Fin 0)%F then
          let estimated_debt_ratio :=
            if (pbr <=? Fin 1.0)%F then 80%Z
            else if (pbr <=? Fin 2.0)%F then 50%Z
            else 30%Z in
          <["debt_ratio" := vint estimated_debt_ratio]> result_data
        else result_data
    | None => result_data
    end in
  (* estimated growth *)
  if (dividend_yield >? Fin 0)%F then
    let estimated_growth :=
      if (dividend_yield >=? Fin 3)%F then 5%Z
      else if (dividend_yield >=? Fin 1)%F then 10%Z
      else 15%Z in
    <["op_income_yoy" := vint estimated_growth]>
      (<["sales_yoy" := vint estimated_growth]> result_data)
  else result_data.

(** [get_market_fundamental_data] from what its look-ups found: the
    instrument's row of the last fundamentals table fetched and its row
    of the capitalisation table, if any.  The helper [safe_float] is
    defined inside the branch for a fundamentals row, which makes the
    name local to the whole function; the branch for the
    capitalisation row alone calls it unbound, and the
    UnboundLocalError ends in the outer [except]. *)
Definition get_market_fundamental_data (date now_date : string)
  (row market_row : option pydict) : pydict :=
  match row with
  | Some row => result_data date row market_row
  | None =>
      match market_row with
      | Some _ => error_default now_date
      | None => initial_result_data date
      end
  end.

End Market.

End FinancialData.

(** ** screener.py: collecting the results in run_screening *)

Module Screener.

(** How one submitted task ends, seen from the collecting loop:
    [future.result] hands over a result record, hands over [None]
    ([process_single_stock] gave up on the instrument), or raises. *)
Inductive completion (R : Type) : Type :=
| Result (r : R)
| NoResult
| Failure.
Arguments Result {R} r.
Arguments NoResult {R}.
Arguments Failure {R}.

Record counters (R : Type) : Type := {
  all_results : list R;
  processed_count : nat;
  success_count : nat;
  error_count : nat;
  aborted : bool
}.
Arguments all_results {R} c.
Arguments processed_count {R} c.
Arguments success_count {R} c.
Arguments error_count {R} c.
Arguments aborted {R} c.

Definition start {R} : counters R :=
  {| all_results := []; processed_count := 0; success_count := 0;
     error_count := 0; aborted := false |}.

(** [error_count > total_stocks * 0.5] *)
Definition too_many_errors (error_count total_stocks : nat) : bool :=
  (Fin (inject_Z (Z.of_nat error_count))
     >? Fin (inject_Z (Z.of_nat total_stocks)) * Fin 0.5)%F.

(** One turn of the loop over [as_completed(futures)]; the progress
    lines are taken to be printed without error. *)
Definition collect_one {R} (total_stocks : nat) (st : counters R) (c : completion R)
  : counters R :=
  match c with
  | Result r =>
      {| all_results := all_results st ++ [r];
         processed_count := processed_count st + 1;
         success_count := success_count st + 1;
         error_count := error_count st;
         aborted := false |}
  | NoResult =>
      {| all_results := all_results st;
         processed_count := processed_count st + 1;
         success_count := success_count st;
         error_count := error_count st + 1;
         aborted := false |}
  | Failure =>
      let error_count := (error_count st + 1)%nat in
      {| all_results := all_results st;
         processed_count := processed_count st + 1;
         success_count := success_count st;
         error_count := error_count;
         aborted := too_many_errors error_count total_stocks |}
  end.

(** The loop, in the order the futures complete; it stops at [break]. *)
Fixpoint collect {R} (total_stocks : nat) (st : counters R) (futures : list (completion R))
  : counters R :=
  match futures with
  | [] => st
  | c :: rest =>
      let st' := collect_one total_stocks st c in
      if aborted st' then st' else collect total_stocks st' rest
  end.

(** The collection phase of [run_screening]: one future per stock. *)
Definition run_collection {R} (futures : list (completion R)) : counters R :=
  collect (length futures) start futures.

(** Counting the tasks that failed: a task fails when it raises or
    when it hands over [None]. *)
Definition is_raised {R} (c : completion R) : bool :=
  match c with Failure => true | _ => false end.

Definition is_failed {R} (c : completion R) : bool :=
  match c with Result _ => false | _ => true end.

Fixpoint count {A} (p : A -> bool) (l : list A) : nat :=
  match l with
  | [] => 0
  | a :: r => (if p a then 1 else 0) + count p r
  end.

Definition raised {R} (futures : list (completion R)) : nat := count is_raised futures.
Definition failed {R} (futures : list (completion R)) : nat := count is_failed futures.

(** With [e] errors counted, the most tasks that can still raise
    before the loop must stop. *)
Definition allowed (total_stocks e : nat) : nat := Nat.max 1 (total_stocks / 2 + 1 - e).

(** *** process_single_stock *)

(** The scalar entries of the record [process_single_stock] returns.
    Its nested ['details'] entry, a JSON-safe copy of what the
    calculators report beside their scores, is not represented. *)
Record screening_result : Type := {
  code : string;
  name : string;
  market : string;
  sector : string;
  current_price : pyfloat;
  price_change : pyfloat;
  price_change_pct : pyfloat;
  volume : pyfloat;
  high_52w : pyfloat;
  low_52w : pyfloat;
  position_52w : pyfloat;
  total_score : pyfloat;
  trend_score : pyfloat;
  pattern_score : pyfloat;
  rs_score : pyfloat;
  fundamental_score : pyfloat;
  investor_score : pyfloat;
  vcp : bool;
  pivot : bool;
  breakout : bool;
  last_update : string
}.

Section ProcessSingleStock.

Variable Qsqrt : Q -> Q.
Variable float_of_str : string -> option pyfloat.

(** [stock_collector.get_stock_price(code, period='1y', use_cache=False)]:
    [None] or a price frame, possibly empty. *)
Variable get_stock_price : string -> option (list bar).

(** [financial_collector.get_financial_statement(code)], passed
    through [make_json_safe] when it is not empty. *)
Variable get_financial_statement : string -> outcome (option (gmap string pyval)).

(** [stock_collector.get_investor_data(code)] *)
Variable get_investor_data : string -> outcome (option ScoreCalculator.investor_dict).

(** The clock, formatted. *)
Variable now : string.

(** Step 3: the three detectors at their default parameters; when one
    raises, all three results are reset. *)
Definition detect_patterns (stock_data : DataFrame)
  : ScoreCalculator.pattern_result * ScoreCalculator.pattern_result
    * ScoreCalculator.pattern_result :=
  match PatternAnalyzer.detect_vcp Qsqrt stock_data 60 (Fin 0.8) 20,
        PatternAnalyzer.detect_pocket_pivot stock_data 50 10 (Fin 1.5),
        PatternAnalyzer.detect_breakout stock_data 60 20 (Fin 3.0) with
  | Returned vcp_result, Returned pivot_result, Returned breakout_result =>
      (vcp_result, pivot_result, breakout_result)
  | _, _, _ => ((false, []), (false, []), (false, []))
  end.

(** Where the latest price stands between the 52-week low and high, in
    percent; 50 when the two do not differ. *)
Definition position_in_range (latest_price high_52w low_52w : pyfloat) : pyfloat :=
  if (high_52w >? low_52w)%F
  then (((latest_price - low_52w) / (high_52w - low_52w)) * Fin 100)%F
  else Fin 50.

Definition process_single_stock (stock_code stock_name market : string)
  (market_data : gmap string DataFrame) (sector : option string) : option screening_result :=
  (* 1. the price series *)
  match get_stock_price stock_code with
  | None | Some [] => None
  | Some prices =>
    (* 2. indicators *)
    let stock_data := StockData.calculate_indicators Qsqrt prices in
    (* 3. patterns *)
    let '(vcp_result, pivot_result, breakout_result) := detect_patterns stock_data in
    (* 4. scores *)
    let trend_score := fst (ScoreCalculator.calculate_trend_score stock_data) in
    let pattern_score :=
      fst (ScoreCalculator.calculate_pattern_score vcp_result pivot_result breakout_result) in
    let rs_score :=
      match market_data !! market with
      | None => Fin 0
      | Some market_df => fst (ScoreCalculator.calculate_rs_score stock_data market_df)
      end in
    match get_financial_statement stock_code with
    | Raised _ => None
    | Returned financial_data =>
      let fundamental_score :=
        fst (ScoreCalculator.calculate_fundamental_score float_of_str financial_data) in
      match get_investor_data stock_code with
      | Raised _ => None
      | Returned investor_data =>
        let investor_score :=
          fst (ScoreCalculator.calculate_investor_score investor_data (Fin 12)) in
        let total_score :=
          ScoreCalculator.calculate_total_score
            trend_score pattern_score rs_score fundamental_score investor_score in
        (* 5. the record *)
        let latest := last (rows stock_data) in
        let latest_price :=
          match latest with Some l => Fin (Close l) | None => Fin 0 end in
        let latest_volume :=
          match latest with Some l => Fin (Volume l) | None => Fin 0 end in
        let '(price_change, price_change_pct) :=
          if (2 <=? len stock_data)%nat then
            match iloc_neg 2 (rows stock_data) with
            | Some prev =>
                let prev_price := Fin (Close prev) in
                let price_change := (latest_price - prev_price)%F in
                (price_change,
                 if (prev_price >? Fin 0)%F
                 then ((price_change / prev_price) * Fin 100)%F else Fin 0)
            | None => (Fin 0, Fin 0)
            end
          else (Fin 0, Fin 0) in
        let high_52w :=
          match latest with
          | Some l => if has_col stock_data "52W_High" then High_52W l else latest_price
          | None => latest_price
          end in
        let low_52w :=
          match latest with
          | Some l => if has_col stock_data "52W_Low" then Low_52W l else latest_price
          | None => latest_price
          end in
        let position_52w := position_in_range latest_price high_52w low_52w in
        Some
          {| code := stock_code;
             name := stock_name;
             market := market;
             sector :=
               match sector with
               | Some s => if String.eqb s "" then "기타" else s
               | None => "기타"
               end;
             current_price := pyround 0 latest_price;
             price_change := pyround 0 price_change;
             price_change_pct := pyround 2 price_change_pct;
             volume := pyint latest_volume;
             high_52w := pyround 0 high_52w;
             low_52w := pyround 0 low_52w;
             position_52w := pyround 1 position_52w;
             total_score := pyround 1 total_score;
             trend_score := pyround 1 trend_score;
             pattern_score := pyround 1 pattern_score;
             rs_score := pyround 1 rs_score;
             fundamental_score := pyround 1 fundamental_score;
             investor_score := pyround 1 investor_score;
             vcp := fst vcp_result;
             pivot := fst pivot_result;
             breakout := fst breakout_result;
             last_update := now |}
    end
    end
  end.

(** One row of the universe [all_stocks]; [Sector] is [None] when the
    table has no such column. *)
Record stock_row : Type := {
  Code : string;
  Name : string;
  Market : string;
  Sector : option string
}.

(** What [future.result] hands over for a task submitted by
    [run_screening]: every path of [process_single_stock] lies inside
    [try: ... except Exception: return None], so the future holds the
    record or [None] and does not raise. *)
Definition future_result (market_data : gmap string DataFrame) (row : stock_row)
  : completion screening_result :=
  match process_single_stock (Code row) (Name row) (Market row) market_data
          (Some (default "기타" (Sector row))) with
  | Some result => Result result
  | None => NoResult
  end.

End ProcessSingleStock.

End Screener.

(** ** The composite score in the words of the specification *)

Module SpecWords.

(** "clamped to 100" *)
Definition clamp_100 (x : pyfloat) : pyfloat :=
  if (x >? Fin 100)%F then Fin 100 else x.

(** "sum of the five sub-scores (max 112 raw points) rescaled to 0-100:
    round(raw/112 x 100, 1), clamped to 100" *)
Definition composite (trend pattern relative_strength fundamental investor_flow : pyfloat)
  : pyfloat :=
  let raw := (trend + pattern + relative_strength + fundamental + investor_flow)%F in
  clamp_100 (pyround 1 (raw / Fin 112 * Fin 100)%F).

(** The same on doubles. *)
Definition clamp_100_binary64 (x : Binary64.scalar) : Binary64.scalar :=
  if Binary64.ltb (Binary64.of_Z 100) (Binary64.value x)
  then Binary64.Builtin (Binary64.of_Z 100) else x.

Definition composite_binary64
  (trend pattern relative_strength fundamental investor_flow : Binary64.scalar)
  : Binary64.scalar :=
  let sum := fold_left (Binary64.binary Binary64.add)
               [pattern; relative_strength; fundamental; investor_flow] trend in
  let rescaled :=
    Binary64.binary Binary64.mul
      (Binary64.binary Binary64.div sum (Binary64.Builtin (Binary64.of_Z 112)))
      (Binary64.Builtin (Binary64.of_Z 100)) in
  clamp_100_binary64 (Binary64.round_ndigits 1 rescaled).

End SpecWords.

(** ** Predicates used in the statements *)

(** Two returns that are the same infinity: their difference is NaN. *)
Definition same_infinity (x y : pyfloat) : Prop :=
  (x = PInf /\ y = PInf) \/ (x = NInf /\ y = NInf).

(** On the latest rows, neither the 13-week nor the 26-week returns of
    instrument and benchmark are the same infinity (an infinite return
    needs a zero close at the start of the look-back). *)
Definition spread_defined (stock_data market_data : DataFrame) : Prop :=
  forall stock_latest market_latest,
    last (rows stock_data) = Some stock_latest ->
    last (rows market_data) = Some market_latest ->
    ~ same_infinity (Return_13W stock_latest) (Return_13W market_latest) /\
    ~ same_infinity (Return_26W stock_latest) (Return_26W market_latest).

(** [d[key]] in a returned dictionary. *)
Fixpoint dget (d : details) (key : string) : option pyval :=
  match d with
  | [] => None
  | (k, v) :: rest => if String.eqb k key then Some v else dget rest key
  end.

(** The series is empty or shorter than the detector's window. *)
Definition too_short (df : DataFrame) (window : nat) : Prop :=
  rows df = [] \/ (len df < window)%nat.

(** An indicator cell that holds a number. *)
Definition emits (x : pyfloat) : Prop := is_fin x = true.

(** The investor-flow record [d] with the number [v] under [key]. *)
Definition with_field (d : ScoreCalculator.investor_dict) (key : string) (v : pyfloat)
  : ScoreCalculator.investor_dict :=
  {| ScoreCalculator.data_source := ScoreCalculator.data_source d;
     ScoreCalculator.fields := <[key := v]> (ScoreCalculator.fields d) |}.

(** One of the five figures of the fundamentals row is positive. *)
Definition has_positive_figure (float_of_str : string -> option pyfloat)
  (row : option (gmap string pyval)) : bool :=
  match row with
  | Some row =>
      existsb
        (fun key =>
           (FinancialData.safe_float float_of_str (default (vint 0) (row !! key)) >? Fin 0)%F)
        ["PER"; "PBR"; "EPS"; "BPS"; "DIV"]
  | None => false
  end.

(** ** Concrete inputs *)

Module Examples.

(** The square root to eight decimals, standing for the float unit's. *)
Definition Qsqrt8 (x : Q) : Q :=
  Qred (inject_Z (Z.sqrt (Qfloor (x * inject_Z (10 ^ 16)))) / inject_Z (10 ^ 8)).

Definition flat_bar (close volume : Q) : bar :=
  {| Open := close; High := close; Low := close; Close := close; Volume := volume |}.

(** A series of [n] periods with constant close 10000. *)
Definition flat_series (n : nat) : list bar := repeat (flat_bar 10000 500) n.

Definition flat_frame (n : nat) : DataFrame :=
  StockData.calculate_indicators Qsqrt8 (flat_series n).

(** Sixty-six periods: a close of 0, then sixty-five closes of 100. *)
Definition zero_start_series : list bar :=
  flat_bar 0 500 :: repeat (flat_bar 100 500) 65.

Definition zero_start_frame : DataFrame :=
  StockData.calculate_indicators Qsqrt8 zero_start_series.

(** An investor-flow record from the trading-value source: nothing
    bought, and a short-selling ratio of 15 percent. *)
Definition heavy_short : ScoreCalculator.investor_dict :=
  {| ScoreCalculator.data_source := Some "거래대금";
     ScoreCalculator.fields := {[ "short_selling_ratio" := Fin 15 ]} |}.

(** Institutions are net buyers, foreign investors are not. *)
Definition institutions_buying : ScoreCalculator.investor_dict :=
  {| ScoreCalculator.data_source := Some "거래대금";
     ScoreCalculator.fields :=
       {[ "foreign_net_buy" := Fin 0; "institution_net_buy" := Fin 5;
          "institution_ratio" := Fin 4 ]} |}.

(** An investor-flow record with no activity and no short-selling data. *)
Definition no_activity : ScoreCalculator.investor_dict :=
  {| ScoreCalculator.data_source := Some "거래대금";
     ScoreCalculator.fields := ∅ |}.

(** A record that carries a name and nothing that is scored. *)
Definition name_only : gmap string pyval := {[ "company_name" := VStr "종목000001" ]}.

Definition no_float : string -> option pyfloat := fun _ => None.

(** Fifty periods: forty-nine at close 100 on a volume of 1000, then
    a close of 103, exactly 3 percent higher, on a volume of 2000. *)
Definition pivot_series : list bar :=
  repeat (flat_bar 100 1000) 49 ++ [flat_bar 103 2000].

Definition pivot_frame : DataFrame :=
  StockData.calculate_indicators Qsqrt8 pivot_series.

(** A snapshot that knows one symbol, by its fundamentals only. *)
Definition snapshot : gmap string (gmap string pyval) :=
  {[ "fundamental_005930" :=
       list_to_map
         [("ticker", VStr "005930"); ("market", VStr "KOSPI");
          ("per", VNum (Fin 12.5)); ("pbr", VNum (Fin 1.2)); ("roe", VNum (Fin 9.8));
          ("source", VStr "fundamental_data_202506")] ]}.

Definition nothing : string -> outcome (option (gmap string pyval)) :=
  fun _ => Returned None.

Definition no_quarterly : string -> gmap string pyval -> outcome (option (gmap string pyval)) :=
  fun _ _ => Returned None.

(** [int(s)] on strings of decimal digits; any other string is taken
    to raise. *)
Fixpoint digits_value (acc : Z) (s : string) : option Z :=
  match s with
  | EmptyString => Some acc
  | String c r =>
      let n := nat_of_ascii c in
      if (48 <=? n)%nat && (n <=? 57)%nat
      then digits_value (acc * 10 + Z.of_nat (n - 48))%Z r
      else None
  end.

Definition decimal (s : string) : option Z :=
  match s with
  | EmptyString => None
  | _ => digits_value 0 s
  end.

(** [get_financial_statement] at time [now] with snapshot [f_data];
    below the snapshot only the sector defaults can answer. *)
Definition resolve (now : Z) (f_data : gmap string (gmap string pyval))
  (store : gmap string (gmap string pyval)) (code : string) (force_update : bool) :=
  FinancialData.get_financial_statement now 2025 6 "2025-06-05" decimal
    true true f_data no_quarterly nothing nothing nothing nothing nothing FinancialData.Written
    store code force_update.

(** The cache files left by a run, one day earlier, that had no
    snapshot to consult. *)
Definition day_before : Z := 1700000000 - 86400.
Definition store_after_first_run : gmap string (gmap string pyval) :=
  snd (resolve day_before ∅ ∅ "5930" false).

(** The value under [key] in the record a resolution returned. *)
Definition returned_field (res : option (gmap string pyval) * gmap string (gmap string pyval))
  (key : string) : option pyval :=
  match fst res with
  | Some r => r !! key
  | None => None
  end.

(** A universe of 100: sixty tasks hand over [None], forty succeed. *)
Definition sixty_none : list (Screener.completion unit) :=
  repeat Screener.NoResult 60 ++ repeat (Screener.Result tt) 40.

(** A one-row frame whose latest row carries the given 13-week and
    26-week returns. *)
Definition returns_row (return_13w return_26w : pyfloat) : row :=
  {| price := flat_bar 100 500;
     MA20 := Fin 100; MA60 := Fin 100; MA120 := Fin 100;
     BB_Middle := Fin 100; Upper_Band := Fin 100; Lower_Band := Fin 100;
     Volume_MA5 := Fin 500; Volume_MA20 := Fin 500;
     High_52W := Fin 100; Low_52W := Fin 100;
     Return_1D := Fin 0; Return_13W := return_13w; Return_26W := return_26w;
     RSI := Fin 50; MACD := Fin 0; MACD_Signal := Fin 0; MACD_Histogram := Fin 0 |}.

Definition returns_frame (return_13w return_26w : pyfloat) : DataFrame :=
  {| columns := StockData.indicator_columns; rows := [returns_row return_13w return_26w] |}.


(** Sixty periods of a rising close above its moving averages, the
    daily range alternating between 10 and 2 for the first forty
    periods and staying at 2 after. *)
Definition contracting_row (i : nat) : row :=
  let c := inject_Z (100 + Z.of_nat i) in
  let w := if (i <? 40)%nat then (if Nat.even i then 5 else 1) else 1 in
  {| price := {| Open := c; High := c + w; Low := c - w; Close := c; Volume := 1000 |};
     MA20 := Fin (c - 10); MA60 := Fin (c - 30); MA120 := Fin (c - 60);
     BB_Middle := Fin (c - 10); Upper_Band := Fin c; Lower_Band := Fin (c - 20);
     Volume_MA5 := Fin 1000; Volume_MA20 := Fin 1000;
     High_52W := Fin (c + 5); Low_52W := Fin 99;
     Return_1D := NaN; Return_13W := NaN; Return_26W := NaN;
     RSI := Fin 100; MACD := Fin 0; MACD_Signal := Fin 0; MACD_Histogram := Fin 0 |}.

Definition contracting_frame : DataFrame :=
  {| columns := StockData.indicator_columns; rows := map contracting_row (seq 0 60) |}.

(** Sixty-five periods: sixty-four at close 100 on a volume of 1000,
    then a close of 105 on a volume of 3000. *)
Definition breakout_series : list bar :=
  repeat (flat_bar 100 1000) 64 ++ [flat_bar 105 3000].

Definition breakout_frame : DataFrame :=
  StockData.calculate_indicators Qsqrt8 breakout_series.

(** Collaborators of [process_single_stock]: a price source that
    delivers the same fifty periods for every code, a resolver and an
    investor source that deliver nothing. *)
Definition fifty_periods : string -> option (list bar) := fun _ => Some pivot_series.

Definition no_statement : string -> outcome (option (gmap string pyval)) :=
  fun _ => Returned None.

Definition no_investor_data : string -> outcome (option ScoreCalculator.investor_dict) :=
  fun _ => Returned None.


(** A volume column with gaps at both ends and in the middle. *)
(** A universe of one hundred instruments, codes 000000 to 000099. *)
Definition code_of (n : nat) : string :=
  String "0" (String "0" (String "0" (String "0"
    (String (ascii_of_nat (48 + n / 10)) (String (ascii_of_nat (48 + n mod 10)) ""))))).

Definition universe : list Screener.stock_row :=
  map (fun n => {| Screener.Code := code_of n; Screener.Name := ("종목" ++ code_of n)%string;
                   Screener.Market := "KOSPI"; Screener.Sector := None |})
    (seq 0 100).

(** A price source without data for the sixty codes below 000060; the
    others have one period. *)
Definition sixty_without_prices (code : string) : option (list bar) :=
  match code with
  | String _ (String _ (String _ (String _ (String d _)))) =>
      if (nat_of_ascii d <? 48 + 6)%nat then None else Some [flat_bar 100 500]
  | _ => None
  end.

(** The instrument's row of the capitalisation table. *)
Definition capitalisation_row : gmap string pyval :=
  {[ "시가총액" := vint 350000000000000 ]}.

Definition gappy_column : list (option Q) :=
  [None; Some 100; None; None; Some 130; None].

End Examples.

(** * Properties *)

(** ** Arithmetic of the float model *)

Lemma Qltb_lt (a b : Q) : Qltb a b = true <-> a < b.
Proof.
  unfold Qltb. rewrite negb_true_iff.
  split; intros H.
  - apply Qnot_le_lt. intros Hle. apply Qle_bool_iff in Hle. congruence.
  - destruct (Qle_bool b a) eqn:E; [|reflexivity].
    apply Qle_bool_iff in E. exfalso. apply (Qlt_not_le _ _ H E).
Qed.

Lemma Qltb_ge (a b : Q) : Qltb a b = false <-> b <= a.
Proof.
  unfold Qltb. rewrite negb_false_iff. apply Qle_bool_iff.
Qed.

Lemma Qle_bool_false (a b : Q) : Qle_bool a b = false <-> b < a.
Proof.
  rewrite <- Qltb_lt. unfold Qltb. rewrite negb_true_iff. reflexivity.
Qed.

Lemma round_half_even_lower (x : Q) (k : Z) :
  inject_Z k <= x -> (k <= round_half_even x)%Z.
Proof.
  intros H. unfold round_half_even.
  assert (Hf : (k <= Qfloor x)%Z) by (apply Qfloor_resp_le in H; rewrite Qfloor_Z in H; exact H).
  repeat match goal with |- context [if ?c then _ else _] => destruct c end; lia.
Qed.

Lemma round_half_even_upper (x : Q) (k : Z) :
  x <= inject_Z k -> (round_half_even x <= k)%Z.
Proof.
  intros H. unfold round_half_even.
  assert (Hf : (Qfloor x <= k)%Z) by (apply Qfloor_resp_le in H; rewrite Qfloor_Z in H; exact H).
  destruct (Qltb (x - inject_Z (Qfloor x)) (1 # 2)) eqn:E1; [exact Hf|].
  apply Qltb_ge in E1.
  assert (Hlt : (Qfloor x < k)%Z).
  { destruct (Z.eq_dec (Qfloor x) k) as [e|ne]; [|lia].
    exfalso. rewrite e in E1. lra. }
  repeat match goal with |- context [if ?c then _ else _] => destruct c end; lia.
Qed.

Lemma pow10_pos (n : nat) : 0 < inject_Z (pow10 n).
Proof.
  unfold pow10. change 0 with (inject_Z 0). rewrite <- Zlt_Qlt.
  apply Z.pow_pos_nonneg; lia.
Qed.

Lemma Qdiv_le_l (a p x : Q) : 0 < p -> (a / p <= x <-> a <= x * p).
Proof.
  intros Hp. rewrite <- (Qmult_le_r _ _ p Hp).
  assert (E : a / p * p == a) by (field; lra).
  rewrite E. reflexivity.
Qed.

Lemma Qdiv_le_r (a p x : Q) : 0 < p -> (x <= a / p <-> x * p <= a).
Proof.
  intros Hp. rewrite <- (Qmult_le_r _ _ p Hp).
  assert (E : a / p * p == a) by (field; lra).
  rewrite E. reflexivity.
Qed.

(** Rounding to [n] decimals stays between two bounds that have at most
    [n] decimals themselves. *)
Lemma Qround_nd_between (n : nat) (x : Q) (l h : Z) :
  inject_Z l / inject_Z (pow10 n) <= x ->
  x <= inject_Z h / inject_Z (pow10 n) ->
  inject_Z l / inject_Z (pow10 n) <= Qround_nd n x /\
  Qround_nd n x <= inject_Z h / inject_Z (pow10 n).
Proof.
  intros Hl Hh. unfold Qround_nd. rewrite Qred_correct.
  pose proof (pow10_pos n) as Hp.
  set (p := inject_Z (pow10 n)) in *.
  apply Qdiv_le_l in Hl; [|exact Hp]. apply Qdiv_le_r in Hh; [|exact Hp].
  apply round_half_even_lower in Hl. apply round_half_even_upper in Hh.
  rewrite Zle_Qle in Hl, Hh.
  set (r := inject_Z (round_half_even (x * p))) in *.
  assert (E : forall a, a / p <= r / p <-> a <= r).
  { intros a. rewrite Qdiv_le_l by exact Hp.
    assert (E : r / p * p == r) by (field; lra). rewrite E. reflexivity. }
  assert (E' : forall a, r / p <= a / p <-> r <= a).
  { intros a. rewrite Qdiv_le_r by exact Hp.
    assert (E0 : r / p * p == r) by (field; lra). rewrite E0. reflexivity. }
  split; [apply E|apply E']; assumption.
Qed.

Lemma within_weaken (lo hi lo' hi' : Q) (x : pyfloat) :
  lo' <= lo -> hi <= hi' -> within lo hi x -> within lo' hi' x.
Proof.
  intros H1 H2. destruct x; simpl; try tauto. intros [Ha Hb]. split; lra.
Qed.

Lemma within_pyround (n : nat) (l h : Z) (lo hi : Q) (x : pyfloat) :
  lo == inject_Z l / inject_Z (pow10 n) ->
  hi == inject_Z h / inject_Z (pow10 n) ->
  within lo hi x -> within lo hi (pyround n x).
Proof.
  intros El Eh. destruct x; simpl; try tauto. intros [Ha Hb].
  rewrite El, Eh in *. apply Qround_nd_between; assumption.
Qed.

Lemma within_fadd (a b c d : Q) (x y : pyfloat) :
  within a b x -> within c d y -> within (a + c) (b + d) (x + y)%F.
Proof.
  destruct x, y; simpl; try tauto. intros [? ?] [? ?].
  rewrite Qred_correct. split; lra.
Qed.

Lemma within_pymin (lo hi m : Q) (x : pyfloat) :
  lo <= m -> within lo hi x -> within lo (Qmin hi m) (pymin x (Fin m)).
Proof.
  intros Hm. destruct x; simpl; try tauto. intros [Ha Hb].
  unfold pymin. simpl. destruct (Qltb m q) eqn:E.
  - apply Qltb_lt in E. simpl. split; [exact Hm|].
    apply Q.min_glb; lra.
  - apply Qltb_ge in E. simpl. split; [exact Ha|].
    apply Q.min_glb; lra.
Qed.

(** ** The composite score *)

Import ScoreCalculator.

#[local] Arguments flt : simpl never.
#[local] Arguments fle : simpl never.
#[local] Arguments fgt : simpl never.
#[local] Arguments fge : simpl never.
#[local] Arguments feq : simpl never.

Lemma calculate_total_score_composite (t p r f i : pyfloat) :
  calculate_total_score t p r f i = SpecWords.composite t p r f i.
Proof. reflexivity. Qed.


(** The same function on doubles.  Where the exact composite is a
    decimal tie the double next to it decides: for
    (0, 12, 22.4, 20.2, 0) the doubles give 48.749999999999993 and so
    48.7, the rationals 48.75 and so 48.8; for
    (13.8, 17.4, 10.1, 17.5, 12.6) the doubles give 63.7, the rationals
    63.75 and so 63.8. *)
Lemma composite_at_a_tie :
  (Binary64.value
     (Binary64.calculate_total_score
        (Binary64.Builtin (Binary64.of_Z 0)) (Binary64.Builtin (Binary64.of_Z 12))
        (Binary64.Builtin (Binary64.decimal 224 10)) (Binary64.Builtin (Binary64.decimal 202 10))
        (Binary64.Builtin (Binary64.of_Z 0)))
   = Binary64.decimal 487 10 /\
   calculate_total_score (Fin 0) (Fin 12) (Fin 22.4) (Fin 20.2) (Fin 0) = Fin (Qred 48.8)) /\
  (Binary64.value
     (Binary64.calculate_total_score
        (Binary64.Builtin (Binary64.decimal 138 10)) (Binary64.Builtin (Binary64.decimal 174 10))
        (Binary64.Builtin (Binary64.decimal 101 10)) (Binary64.Builtin (Binary64.decimal 175 10))
        (Binary64.Builtin (Binary64.decimal 126 10)))
   = Binary64.decimal 637 10 /\
   calculate_total_score (Fin 13.8) (Fin 17.4) (Fin 10.1) (Fin 17.5) (Fin 12.6)
   = Fin (Qred 63.8)).
Proof. repeat split; vm_compute; reflexivity. Qed.

(** C1. On doubles, whether Python floats or numpy floats,
    calculate_total_score returns the sum of the five sub-scores
    divided by 112, times 100, rounded to one decimal and capped at
    100, which is the composite of the specification and is never above
    100; all sub-scores at their maximum give 100.0 and all at zero
    give 0.0. *)
Theorem calculate_total_score_correct :
  (forall trend pattern rs fundamental investor : Binary64.scalar,
     Binary64.calculate_total_score trend pattern rs fundamental investor
     = Binary64.pymin
         (Binary64.round_ndigits 1
            (Binary64.binary Binary64.mul
               (Binary64.binary Binary64.div
                  (Binary64.binary Binary64.add
                     (Binary64.binary Binary64.add
                        (Binary64.binary Binary64.add
                           (Binary64.binary Binary64.add trend pattern) rs)
                        fundamental)
                     investor)
                  (Binary64.Builtin (Binary64.of_Z 112)))
               (Binary64.Builtin (Binary64.of_Z 100))))
         (Binary64.Builtin (Binary64.decimal 1000 10))
     /\ Binary64.calculate_total_score trend pattern rs fundamental investor
        = SpecWords.composite_binary64 trend pattern rs fundamental investor
     /\ Binary64.ltb (Binary64.of_Z 100)
          (Binary64.value
             (Binary64.calculate_total_score trend pattern rs fundamental investor))
        = false) /\
  (forall numpy1 numpy2 numpy3 numpy4 numpy5 : bool,
     Binary64.value
       (Binary64.calculate_total_score
          (Binary64.number numpy1 (Binary64.of_Z 25)) (Binary64.number numpy2 (Binary64.of_Z 20))
          (Binary64.number numpy3 (Binary64.of_Z 25)) (Binary64.number numpy4 (Binary64.of_Z 30))
          (Binary64.number numpy5 (Binary64.of_Z 12)))
     = Binary64.decimal 1000 10
     /\ Binary64.value
          (Binary64.calculate_total_score
             (Binary64.number numpy1 (Binary64.of_Z 0)) (Binary64.number numpy2 (Binary64.of_Z 0))
             (Binary64.number numpy3 (Binary64.of_Z 0)) (Binary64.number numpy4 (Binary64.of_Z 0))
             (Binary64.number numpy5 (Binary64.of_Z 0)))
        = Binary64.decimal 0 10).
Proof.
  split.
  - intros. split; [reflexivity|]. split; [reflexivity|].
    unfold Binary64.calculate_total_score, Binary64.pymin.
    match goal with
    | |- context [if ?c then _ else _] => destruct c eqn:E
    end.
    + vm_compute. reflexivity.
    + exact E.
  - intros [] [] [] [] []; split; vm_compute; reflexivity.
Qed.

(** ** Ranges of the sub-scores *)

Lemma ma_alignment_score_range (latest : row) :
  (0 <= ma_alignment_score latest <= 6)%Z.
Proof.
  unfold ma_alignment_score.
  repeat match goal with |- context [if ?c then _ else _] => destruct c end; lia.
Qed.

Lemma slope_points_range (s : option pyfloat) (z : Z) :
  slope_points s = Some z -> (0 <= z <= 2)%Z.
Proof.
  destruct s as [v|]; simpl; [|discriminate].
  destruct (v >? Fin 0)%F; intros [= <-]; lia.
Qed.

Lemma guarded_slope_range (c : bool) (s : option pyfloat) (z : Z) :
  (if c then slope_points s else Some 0%Z) = Some z -> (0 <= z <= 2)%Z.
Proof.
  destruct c; [apply slope_points_range|intros [= <-]; lia].
Qed.

Lemma ma_trend_block_range (df : DataFrame) (latest : row) (t : Z) :
  ma_trend_block df latest = Some t -> (0 <= t <= 6)%Z.
Proof.
  unfold ma_trend_block.
  set (p20 := if has_col df "MA20" then _ else _).
  set (p60 := if has_col df "MA60" && _ then _ else _).
  set (p120 := if has_col df "MA120" && _ then _ else _).
  pose proof (guarded_slope_range _ _ : forall z, p20 = Some z -> _) as H20.
  pose proof (guarded_slope_range _ _ : forall z, p60 = Some z -> _) as H60.
  pose proof (guarded_slope_range _ _ : forall z, p120 = Some z -> _) as H120.
  destruct p20 as [a|], p60 as [b|], p120 as [c|]; try discriminate.
  intros [= <-].
  specialize (H20 a eq_refl). specialize (H60 b eq_refl). specialize (H120 c eq_refl). lia.
Qed.

Lemma long_trend_points_range (x : pyfloat) : (0 <= long_trend_points x <= 6)%Z.
Proof.
  unfold long_trend_points.
  repeat match goal with |- context [if ?c then _ else _] => destruct c end; lia.
Qed.

Lemma volume_points_range (x y : pyfloat) : (0 <= volume_points x y <= 7)%Z.
Proof.
  unfold volume_points, volume_tier.
  repeat match goal with |- context [if ?c then _ else _] => destruct c end; lia.
Qed.

Lemma within_fz (lo hi z : Z) :
  (lo <= z <= hi)%Z -> within (inject_Z lo) (inject_Z hi) (fz z).
Proof. intros [H1 H2]. simpl. rewrite <- !Zle_Qle. split; assumption. Qed.

(** [n / 6 * 6] gives [n] back. *)
Lemma within_sixths (lo hi z : Z) :
  (lo <= z <= hi)%Z -> within (inject_Z lo) (inject_Z hi) (fz z / Fin 6 * Fin 6)%F.
Proof.
  intros [H1 H2]. simpl. repeat rewrite Qred_correct.
  assert (E : inject_Z z / 6 * 6 == inject_Z z) by field.
  rewrite E. rewrite <- !Zle_Qle. split; assumption.
Qed.

Ltac fin_cases H x :=
  destruct x; simpl in H; try contradiction.

Lemma calculate_trend_score_range (stock_data : DataFrame) :
  within 0 25 (fst (calculate_trend_score stock_data)).
Proof.
  unfold calculate_trend_score.
  destruct (last (rows stock_data)) as [latest|]; [|simpl; lra].
  pose proof (within_sixths 0 6 _ (ma_alignment_score_range latest)) as H1.
  pose proof (within_sixths 0 6 _ (long_trend_points_range
    (Fin (Close latest) / Low_52W latest)%F)) as H3.
  set (c1 := (fz (ma_alignment_score latest) / Fin 6 * Fin 6)%F) in *.
  set (c3 := (fz (long_trend_points _) / Fin 6 * Fin 6)%F) in *.
  match goal with |- context [fz (volume_points ?a ?b)] =>
    pose proof (within_fz 0 7 _ (volume_points_range a b)) as H4;
    set (c4 := fz (volume_points a b)) in * end.
  assert (H2 : forall t, ma_trend_block stock_data latest = Some t ->
                 within 0 6 (fz t / Fin 6 * Fin 6)%F).
  { intros t Ht. apply (within_sixths 0 6). eapply ma_trend_block_range; eauto. }
  destruct (ma_trend_block stock_data latest) as [t|].
  - specialize (H2 t eq_refl). set (c2 := (fz t / Fin 6 * Fin 6)%F) in *.
    clearbody c1 c2 c3 c4.
    fin_cases H1 c1; fin_cases H2 c2; fin_cases H3 c3; fin_cases H4 c4.
    unfold inject_Z in *.
    repeat match goal with |- context [if ?c then _ else _] => destruct c end;
      cbn [fst]; apply (within_pyround 1 0 250); try reflexivity;
      cbn [within fadd]; repeat rewrite Qred_correct; lra.
  - clear H2. clearbody c1 c3 c4.
    fin_cases H1 c1; fin_cases H3 c3; fin_cases H4 c4.
    unfold inject_Z in *.
    repeat match goal with |- context [if ?c then _ else _] => destruct c end;
      cbn [fst]; apply (within_pyround 1 0 250); try reflexivity;
      cbn [within fadd]; repeat rewrite Qred_correct; lra.
Qed.

Lemma calculate_pattern_score_range (vcp_result pivot_result breakout_result : pattern_result) :
  within 0 20 (fst (calculate_pattern_score vcp_result pivot_result breakout_result)).
Proof.
  destruct vcp_result as [[|] d1], pivot_result as [[|] d2], breakout_result as [[|] d3];
    unfold calculate_pattern_score;
    repeat match goal with |- context [if ?c then _ else _] => destruct c end;
    cbn [fst]; apply (within_pyround 1 0 200); try reflexivity;
    cbn [within fadd]; repeat rewrite Qred_correct; lra.
Qed.

Lemma rs_half_range (rs : pyfloat) (full : Q) :
  0 < full -> isnan rs = false -> within 0 12.5 (rs_half rs (Fin full)).
Proof.
  intros Hf Hn. unfold rs_half.
  assert (Hz : Qzero full = false).
  { unfold Qzero. destruct (Qeq_bool full 0) eqn:E; [|reflexivity].
    apply Qeq_bool_iff in E. lra. }
  assert (Hneg : Qltb full 0 = false) by (apply Qltb_ge; lra).
  destruct rs as [a| | |]; try discriminate; cbn [fdiv]; rewrite ?Hz, ?Hneg.
  - unfold pymax, pymin, fgt, flt.
    set (v := Qred (a / full)).
    destruct (Qltb v 0) eqn:E1.
    + change (Qltb 1 0) with false. cbn [fmul within]. rewrite Qred_correct. lra.
    + apply Qltb_ge in E1. destruct (Qltb 1 v) eqn:E2.
      * cbn [fmul within]. rewrite Qred_correct. lra.
      * apply Qltb_ge in E2. cbn [fmul within]. rewrite Qred_correct. lra.
  - vm_compute. split; discriminate.
  - vm_compute. split; discriminate.
Qed.

Lemma fsub_not_nan (x y : pyfloat) :
  isnan x = false -> isnan y = false -> ~ same_infinity x y -> isnan (x - y)%F = false.
Proof.
  unfold same_infinity.
  destruct x, y; simpl; try discriminate; try reflexivity; intros _ _ H; exfalso; apply H; auto.
Qed.

Lemma calculate_rs_score_range (stock_data market_data : DataFrame) :
  spread_defined stock_data market_data ->
  within 0 25 (fst (calculate_rs_score stock_data market_data)).
Proof.
  intros Hm. unfold calculate_rs_score.
  destruct (last (rows stock_data)) as [sl|] eqn:Esl; [|simpl; lra].
  destruct (last (rows market_data)) as [ml|] eqn:Eml; [|simpl; lra].
  destruct (Hm sl ml Esl Eml) as [H13 H26].
  assert (A : negb (isnan (Return_13W sl)) && negb (isnan (Return_13W ml)) = true ->
              within 0 12.5 (rs_half (Return_13W sl - Return_13W ml)%F (Fin 0.2))).
  { intros H. apply andb_prop in H as [Ha Hb]. apply negb_true_iff in Ha, Hb.
    apply rs_half_range; [lra|]. apply fsub_not_nan; assumption. }
  assert (B : negb (isnan (Return_26W sl)) && negb (isnan (Return_26W ml)) = true ->
              within 0 12.5 (rs_half (Return_26W sl - Return_26W ml)%F (Fin 0.3))).
  { intros H. apply andb_prop in H as [Ha Hb]. apply negb_true_iff in Ha, Hb.
    apply rs_half_range; [lra|]. apply fsub_not_nan; assumption. }
  set (h13 := rs_half _ (Fin 0.2)) in *. set (h26 := rs_half _ (Fin 0.3)) in *.
  clearbody h13 h26.
  destruct (has_col stock_data "Return_13W" && has_col market_data "Return_13W");
  destruct (has_col stock_data "Return_26W" && has_col market_data "Return_26W");
  destruct (negb (isnan (Return_13W sl)) && negb (isnan (Return_13W ml)));
  destruct (negb (isnan (Return_26W sl)) && negb (isnan (Return_26W ml)));
  try specialize (A eq_refl); try specialize (B eq_refl);
  try (destruct h13; simpl in A; try contradiction);
  try (destruct h26; simpl in B; try contradiction);
  cbn [fst]; apply (within_pyround 1 0 250); try reflexivity;
  cbn [within fadd]; repeat rewrite Qred_correct; lra.
Qed.

(** When both returns are the same infinity the spread is NaN and so is
    the score. *)
Lemma calculate_rs_score_nan (stock_latest market_latest : row) :
  Return_13W stock_latest = PInf -> Return_13W market_latest = PInf ->
  fst (calculate_rs_score
         {| columns := ["Return_13W"]; rows := [stock_latest] |}
         {| columns := ["Return_13W"]; rows := [market_latest] |}) = NaN.
Proof.
  intros Hs Hm. unfold calculate_rs_score. cbn [rows last has_col columns existsb].
  rewrite Hs, Hm. vm_compute. reflexivity.
Qed.

Lemma foreign_points_range (a b : pyfloat) : within 0 4 (foreign_points a b).
Proof.
  unfold foreign_points.
  repeat match goal with |- context [if ?c then _ else _] => destruct c end;
    simpl; lra.
Qed.

Lemma institution_points_range (a b : pyfloat) : within 0 4 (institution_points a b).
Proof.
  unfold institution_points.
  repeat match goal with |- context [if ?c then _ else _] => destruct c end;
    simpl; lra.
Qed.

Lemma consecutive_points_range (a b c : pyfloat) : within 0 2 (consecutive_points a b c).
Proof.
  unfold consecutive_points.
  repeat match goal with |- context [if ?c then _ else _] => destruct c end;
    vm_compute; split; discriminate.
Qed.

Lemma short_points_range (a : pyfloat) : within 0 2 (short_points a).
Proof.
  unfold short_points.
  repeat match goal with |- context [if ?c then _ else _] => destruct c end;
    simpl; lra.
Qed.

Lemma calculate_investor_score_range (investor_data : option investor_dict) :
  within 0 12 (fst (calculate_investor_score investor_data (Fin 12))).
Proof.
  unfold calculate_investor_score.
  destruct investor_data as [d|]; [|simpl; lra].
  destruct (investor_dict_empty d); [simpl; lra|].
  destruct (String.eqb _ "default"); [simpl; lra|].
  cbn [fst].
  pose proof (foreign_points_range (iget d "foreign_net_buy") (iget d "foreign_ratio")) as H1.
  pose proof (institution_points_range (iget d "institution_net_buy")
                (iget d "institution_ratio")) as H2.
  pose proof (consecutive_points_range (iget d "net_buy_days") (iget d "foreign_buy_days")
                (iget d "institution_buy_days")) as H3.
  pose proof (short_points_range (iget d "short_selling_ratio")) as H4.
  set (c1 := foreign_points _ _) in *. set (c2 := institution_points _ _) in *.
  set (c3 := consecutive_points _ _ _) in *. set (c4 := short_points _) in *.
  clearbody c1 c2 c3 c4.
  fin_cases H1 c1; fin_cases H2 c2; fin_cases H3 c3; fin_cases H4 c4.
  eapply within_weaken; [| |apply within_pymin with (lo := 0) (hi := 12)].
  - lra.
  - apply Q.le_min_l.
  - lra.
  - apply (within_pyround 1 0 120); try reflexivity.
    cbn [within fadd]. repeat rewrite Qred_correct. lra.
Qed.

(** *** The fundamental score *)

Lemma fge_fin_false (a t : Q) : (Fin a >=? Fin t)%F = false -> a < t.
Proof. unfold fge, fle. apply Qle_bool_false. Qed.

Lemma fgt_fin_true (a t : Q) : (Fin a >? Fin t)%F = true -> t < a.
Proof. unfold fgt, flt. apply Qltb_lt. Qed.

Lemma ramp_value_range (x : pyfloat) (t sl M : Q) :
  0 <= sl -> t * sl <= M ->
  (x >=? Fin t)%F = false -> (x >? Fin 0)%F = true ->
  within 0 M (x * Fin sl)%F.
Proof.
  intros Hs Ht E3 E0. destruct x as [a| | |]; try discriminate.
  apply fge_fin_false in E3. apply fgt_fin_true in E0.
  cbn [fmul within]. rewrite Qred_correct. split.
  - apply Qmult_le_0_compat; lra.
  - apply Qle_trans with (t * sl); [|exact Ht].
    apply Qmult_le_compat_r; lra.
Qed.

Lemma ramp_tier_range (x : pyfloat) (t1 p1 t2 p2 t3 p3 sl M : Q) :
  0 <= p1 <= M -> 0 <= p2 <= M -> 0 <= p3 <= M -> 0 <= sl -> t3 * sl <= M -> 0 <= M ->
  within 0 M (ramp_tier x (Fin t1) (Fin p1) (Fin t2) (Fin p2) (Fin t3) (Fin p3) (Fin sl)).
Proof.
  intros H1 H2 H3 Hs Ht HM. unfold ramp_tier.
  destruct (x >=? Fin t1)%F; [simpl; lra|].
  destruct (x >=? Fin t2)%F; [simpl; lra|].
  destruct (x >=? Fin t3)%F eqn:E3; [simpl; lra|].
  destruct (x >? Fin 0)%F eqn:E0; [|simpl; lra].
  eapply ramp_value_range; eassumption.
Qed.

Lemma ramp_tier2_range (x : pyfloat) (t1 p1 t2 p2 sl M : Q) :
  0 <= p1 <= M -> 0 <= p2 <= M -> 0 <= sl -> t2 * sl <= M -> 0 <= M ->
  within 0 M (ramp_tier2 x (Fin t1) (Fin p1) (Fin t2) (Fin p2) (Fin sl)).
Proof.
  intros H1 H2 Hs Ht HM. unfold ramp_tier2.
  destruct (x >=? Fin t1)%F; [simpl; lra|].
  destruct (x >=? Fin t2)%F eqn:E3; [simpl; lra|].
  destruct (x >? Fin 0)%F eqn:E0; [|simpl; lra].
  eapply ramp_value_range; eassumption.
Qed.

Lemma band_tier_range (x : pyfloat) (b1 p1 b2 p2 b3 p3 p4 M : Q) :
  0 <= p1 <= M -> 0 <= p2 <= M -> 0 <= p3 <= M -> 0 <= p4 <= M ->
  within 0 M (band_tier x (Fin b1) (Fin p1) (Fin b2) (Fin p2) (Fin b3) (Fin p3) (Fin p4)).
Proof.
  intros H1 H2 H3 H4. unfold band_tier.
  repeat match goal with |- context [if ?c then _ else _] => destruct c end;
    simpl; lra.
Qed.

Lemma debt_points_range (x : pyfloat) : within 0 2 (debt_points x).
Proof.
  unfold debt_points.
  repeat match goal with |- context [if ?c then _ else _] => destruct c end;
    vm_compute; split; discriminate.
Qed.

(** [min(x, m)] of a score already within [[0, m]]. *)
Lemma within_capped (m : Q) (x : pyfloat) :
  0 <= m -> within 0 m x -> within 0 m (pymin x (Fin m)).
Proof.
  intros Hm H. eapply within_weaken; [| |apply within_pymin with (lo := 0) (hi := m)];
    try lra; try exact H. apply Q.le_min_l.
Qed.

Ltac split_nums := repeat split; vm_compute; try discriminate; try reflexivity.

Section FundamentalRange.

Variable float_of_str : string -> option pyfloat.

Lemma scores_f_data_fundamental_range (fd : gmap string pyval) :
  within 0 30 (sum_values (scores_f_data_fundamental float_of_str fd)).
Proof.
  unfold scores_f_data_fundamental, sum_values. cbn [fold_left snd].
  set (roe := fnum float_of_str fd "roe"). set (per := fnum float_of_str fd "per").
  set (pbr := fnum float_of_str fd "pbr").
  assert (H1 : within 0 12
            (pymin (ramp_tier roe (Fin 15) (Fin 12) (Fin 10) (Fin 8) (Fin 5) (Fin 4) (Fin 0.8))
                   (Fin 12))).
  { apply within_capped; [lra|]. apply ramp_tier_range; split_nums. }
  pose proof (band_tier_range per 10 9 15 6 25 3 1 9) as H2.
  pose proof (band_tier_range pbr 1.0 9 1.5 6 3.0 3 1 9) as H3.
  set (c1 := pymin _ _) in *. set (c2 := band_tier per _ _ _ _ _ _ _) in *.
  set (c3 := band_tier pbr _ _ _ _ _ _ _) in *.
  assert (H2' : within 0 9 c2) by (apply H2; split_nums).
  assert (H3' : within 0 9 c3) by (apply H3; split_nums).
  clearbody c1 c2 c3. clear H2 H3.
  fin_cases H1 c1; fin_cases H2' c2; fin_cases H3' c3.
  cbn [within fadd]. repeat rewrite Qred_correct. lra.
Qed.

Lemma roe8_range (roe : pyfloat) :
  within 0 8 (pymin (ramp_tier roe (Fin 15) (Fin 8) (Fin 10) (Fin 6) (Fin 5) (Fin 4) (Fin 0.8))
                    (Fin 8)).
Proof. apply within_capped; [lra|]. apply ramp_tier_range; split_nums. Qed.

Lemma op_margin7_range (m : pyfloat) :
  within 0 7 (pymin (ramp_tier m (Fin 10) (Fin 7) (Fin 5) (Fin 5) (Fin 2) (Fin 3) (Fin 1.5))
                    (Fin 7)).
Proof. apply within_capped; [lra|]. apply ramp_tier_range; split_nums. Qed.

Lemma scores_f_data_financial_range (fd : gmap string pyval) :
  within 0 30 (sum_values (scores_f_data_financial float_of_str fd)).
Proof.
  unfold scores_f_data_financial, sum_values. cbn [fold_left snd].
  pose proof (roe8_range (fnum float_of_str fd "roe")) as H1.
  pose proof (op_margin7_range (fnum float_of_str fd "operating_margin")) as H2.
  assert (H3 : within 0 7
            (pymin (ramp_tier (fnum float_of_str fd "revenue_yoy")
                      (Fin 20) (Fin 7) (Fin 10) (Fin 5) (Fin 5) (Fin 3) (Fin 0.6)) (Fin 7))).
  { apply within_capped; [lra|]. apply ramp_tier_range; split_nums. }
  assert (H4 : within 0 6
            (pymin (ramp_tier (fnum float_of_str fd "operating_profit_yoy")
                      (Fin 25) (Fin 6) (Fin 15) (Fin 4) (Fin 5) (Fin 2) (Fin 0.4)) (Fin 6))).
  { apply within_capped; [lra|]. apply ramp_tier_range; split_nums. }
  pose proof (debt_points_range (fnum float_of_str fd "debt_ratio")) as H5.
  set (c1 := pymin _ (Fin 8)) in *.
  set (c2 := pymin (ramp_tier (fnum float_of_str fd "operating_margin") _ _ _ _ _ _ _) _) in *.
  set (c3 := pymin (ramp_tier (fnum float_of_str fd "revenue_yoy") _ _ _ _ _ _ _) _) in *.
  set (c4 := pymin _ (Fin 6)) in *. set (c5 := debt_points _) in *.
  clearbody c1 c2 c3 c4 c5.
  fin_cases H1 c1; fin_cases H2 c2; fin_cases H3 c3; fin_cases H4 c4; fin_cases H5 c5.
  cbn [within fadd]. repeat rewrite Qred_correct. lra.
Qed.

Lemma scores_full_range (fd : gmap string pyval) :
  within 0 30 (sum_values (scores_full float_of_str fd)).
Proof.
  unfold scores_full, sum_values. cbn [fold_left snd].
  pose proof (roe8_range (fnum float_of_str fd "roe")) as H1.
  pose proof (op_margin7_range (fnum float_of_str fd "operating_margin")) as H2.
  assert (Hy : within 0 5
            (ramp_tier (fnum float_of_str fd "sales_yoy")
               (Fin 20) (Fin 5) (Fin 10) (Fin 4) (Fin 5) (Fin 3) (Fin 0.6))).
  { apply ramp_tier_range; split_nums. }
  assert (Hq : within 0 2
            (ramp_tier2 (fnum float_of_str fd "sales_qoq")
               (Fin 10) (Fin 2) (Fin 5) (Fin 1.5) (Fin 0.3))).
  { apply ramp_tier2_range; split_nums. }
  assert (Hoy : within 0 4
            (ramp_tier (fnum float_of_str fd "op_income_yoy")
               (Fin 25) (Fin 4) (Fin 15) (Fin 3) (Fin 5) (Fin 2) (Fin 0.4))).
  { apply ramp_tier_range; split_nums. }
  assert (Hoq : within 0 2
            (ramp_tier2 (fnum float_of_str fd "op_income_qoq")
               (Fin 15) (Fin 2) (Fin 5) (Fin 1) (Fin 0.2))).
  { apply ramp_tier2_range; split_nums. }
  pose proof (debt_points_range (fnum float_of_str fd "debt_ratio")) as H5.
  pose proof (within_pymin 0 7 7 _ ltac:(lra) (within_fadd _ _ _ _ _ _ Hy Hq)) as H3.
  pose proof (within_pymin 0 6 6 _ ltac:(lra) (within_fadd _ _ _ _ _ _ Hoy Hoq)) as H4.
  clear Hy Hq Hoy Hoq.
  set (c1 := pymin _ (Fin 8)) in *.
  set (c2 := pymin (ramp_tier (fnum float_of_str fd "operating_margin") _ _ _ _ _ _ _) _) in *.
  set (c3 := pymin (fadd _ _) (Fin 7)) in *.
  set (c4 := pymin (fadd _ _) (Fin 6)) in *. set (c5 := debt_points _) in *.
  clearbody c1 c2 c3 c4 c5.
  fin_cases H1 c1; fin_cases H2 c2; fin_cases H3 c3; fin_cases H4 c4; fin_cases H5 c5.
  assert (E7 : Qmin 7 7 == 7) by (apply Q.min_l; lra).
  assert (E6 : Qmin 6 6 == 6) by (apply Q.min_l; lra).
  rewrite E7 in H3. rewrite E6 in H4.
  cbn [within fadd]. repeat rewrite Qred_correct. lra.
Qed.

Lemma scores_valuation_range (per pbr dividend_yield : pyfloat) :
  within 0 30 (sum_values (scores_valuation per pbr dividend_yield)).
Proof.
  unfold scores_valuation, sum_values. cbn [fold_left snd].
  pose proof (band_tier_range per 10 12 15 8 25 4 1 12) as H1.
  pose proof (band_tier_range pbr 1.0 12 1.5 8 3.0 4 1 12) as H2.
  assert (H3 : within 0 6 (ramp_tier2 dividend_yield (Fin 4) (Fin 6) (Fin 2) (Fin 4) (Fin 2.0))).
  { apply ramp_tier2_range; split_nums. }
  set (c1 := band_tier per _ _ _ _ _ _ _) in *.
  set (c2 := band_tier pbr _ _ _ _ _ _ _) in *.
  set (c3 := ramp_tier2 _ _ _ _ _ _) in *.
  assert (H1' : within 0 12 c1) by (apply H1; split_nums).
  assert (H2' : within 0 12 c2) by (apply H2; split_nums).
  clearbody c1 c2 c3. clear H1 H2.
  fin_cases H1' c1; fin_cases H2' c2; fin_cases H3 c3.
  cbn [within fadd]. repeat rewrite Qred_correct. lra.
Qed.

Lemma fundamental_total_range (fd : gmap string pyval) (data_source : pyval) :
  within 0 30 (fst (fundamental_total float_of_str fd data_source)).
Proof.
  unfold fundamental_total.
  repeat match goal with |- context [if ?c then _ else _] => destruct c end; cbn [fst];
    auto using scores_f_data_fundamental_range, scores_f_data_financial_range,
      scores_full_range, scores_valuation_range;
    simpl; lra.
Qed.

Lemma calculate_fundamental_score_range (financial_data : option (gmap string pyval)) :
  within 0 30 (fst (calculate_fundamental_score float_of_str financial_data)).
Proof.
  unfold calculate_fundamental_score.
  destruct financial_data as [fd|]; [|simpl; lra].
  destruct (bool_decide (fd = ∅)); [simpl; lra|].
  match goal with |- context [fundamental_total float_of_str fd ?ds] =>
    pose proof (fundamental_total_range fd ds) as H;
    destruct (fundamental_total float_of_str fd ds) as [total scores] end.
  cbn [fst] in *. apply within_capped; [lra|].
  apply (within_pyround 1 0 300); try reflexivity. exact H.
Qed.

End FundamentalRange.

(** Every sub-score lies between zero and its stated maximum (trend in
    [0, 25], pattern in [0, 20], relative strength in [0, 25],
    fundamental in [0, 30], investor flow in [0, 12]), the
    relative-strength score whenever the returns of instrument and
    benchmark are not the same infinity. *)
Lemma sub_scores_bounded
  (float_of_str : string -> option pyfloat)
  (stock_data market_data : DataFrame)
  (vcp_result pivot_result breakout_result : pattern_result)
  (financial_data : option (gmap string pyval))
  (investor_data : option investor_dict) :
  spread_defined stock_data market_data ->
  within 0 25 (fst (calculate_trend_score stock_data)) /\
  within 0 20 (fst (calculate_pattern_score vcp_result pivot_result breakout_result)) /\
  within 0 25 (fst (calculate_rs_score stock_data market_data)) /\
  within 0 30 (fst (calculate_fundamental_score float_of_str financial_data)) /\
  within 0 12 (fst (calculate_investor_score investor_data (Fin 12))).
Proof.
  intros Hm. split; [|split; [|split; [|split]]].
  - apply (calculate_trend_score_range stock_data).
  - apply (calculate_pattern_score_range vcp_result pivot_result breakout_result).
  - apply (calculate_rs_score_range stock_data market_data Hm).
  - apply (calculate_fundamental_score_range float_of_str financial_data).
  - apply (calculate_investor_score_range investor_data).
Qed.

(** The ranges at concrete inputs: the indicator frame of a flat
    series as both instrument and benchmark, no pattern, no
    fundamentals, an investor record without activity. *)
Lemma sub_scores_bounded_witness :
  spread_defined (Examples.flat_frame 70) (Examples.flat_frame 70) /\
  (within 0 25 (fst (calculate_trend_score (Examples.flat_frame 70))) /\
   within 0 20 (fst (calculate_pattern_score (false, []) (false, []) (false, []))) /\
   within 0 25 (fst (calculate_rs_score (Examples.flat_frame 70) (Examples.flat_frame 70))) /\
   within 0 30 (fst (calculate_fundamental_score Examples.no_float None)) /\
   within 0 12 (fst (calculate_investor_score (Some Examples.no_activity) (Fin 12)))).
Proof.
  assert (H : spread_defined (Examples.flat_frame 70) (Examples.flat_frame 70)).
  { intros s m. vm_compute. intros [= <-] [= <-].
    split; intros [[E _]|[E _]]; discriminate E. }
  split; [exact H|].
  apply (sub_scores_bounded Examples.no_float (Examples.flat_frame 70) (Examples.flat_frame 70)
           (false, []) (false, []) (false, []) None (Some Examples.no_activity) H).
Defined.

(** C9. The relative-strength score leaves its range of 0 to 25:
    when instrument and benchmark both closed at 0 thirteen weeks ago,
    both returns are +inf; they pass the test for NaN, their spread
    inf - inf is NaN, [min] and [max] hand it on, and the score is
    NaN. *)
Theorem rs_score_of_infinite_returns :
  (exists latest,
     last (rows Examples.zero_start_frame) = Some latest /\ Return_13W latest = PInf) /\
  fst (calculate_rs_score Examples.zero_start_frame Examples.zero_start_frame) = NaN /\
  ~ within 0 25 (fst (calculate_rs_score Examples.zero_start_frame Examples.zero_start_frame)).
Proof.
  split; [|split].
  - eexists. split; vm_compute; reflexivity.
  - vm_compute. reflexivity.
  - vm_compute. intros H. exact H.
Qed.

Lemma fge_false_mono (x : pyfloat) (a b : Q) :
  a <= b -> (x >=? Fin a)%F = false -> (x >=? Fin b)%F = false.
Proof.
  intros Hab. unfold fge, fle. destruct x as [q| | |]; try discriminate; try reflexivity.
  rewrite !Qle_bool_false. lra.
Qed.

(** C10, as the code has it: with a data source that is present and is
    not the placeholder, a short-selling ratio of at most 1 (an absent
    key reads as 0) earns the two short-interest points, so the score is
    at least 2.0; without any buying it is exactly 2.0. *)
Theorem investor_score_low_short_ratio (d : investor_dict) (s : string) :
  data_source d = Some s -> s <> "default" ->
  (iget d "short_selling_ratio" <=? Fin 1)%F = true ->
  within 2 12 (fst (calculate_investor_score (Some d) (Fin 12))) /\
  ((iget d "foreign_net_buy" >? Fin 0)%F = false ->
   (iget d "institution_net_buy" >? Fin 0)%F = false ->
   (iget d "net_buy_days" >=? Fin 3)%F = false ->
   (iget d "foreign_buy_days" >=? Fin 3)%F = false ->
   fst (calculate_investor_score (Some d) (Fin 12)) = Fin 2).
Proof.
  intros Hs Hne Hshort. unfold calculate_investor_score.
  assert (He : investor_dict_empty d = false) by (unfold investor_dict_empty; rewrite Hs; reflexivity).
  rewrite He, Hs. change (default "unknown" (Some s)) with s.
  apply String.eqb_neq in Hne. rewrite Hne. cbn [fst].
  assert (H4 : short_points (iget d "short_selling_ratio") = Fin 2).
  { unfold short_points. rewrite Hshort. reflexivity. }
  rewrite H4. split.
  - pose proof (foreign_points_range (iget d "foreign_net_buy") (iget d "foreign_ratio")) as H1.
    pose proof (institution_points_range (iget d "institution_net_buy")
                  (iget d "institution_ratio")) as H2.
    pose proof (consecutive_points_range (iget d "net_buy_days") (iget d "foreign_buy_days")
                  (iget d "institution_buy_days")) as H3.
    set (c1 := foreign_points _ _) in *. set (c2 := institution_points _ _) in *.
    set (c3 := consecutive_points _ _ _) in *.
    clearbody c1 c2 c3.
    fin_cases H1 c1; fin_cases H2 c2; fin_cases H3 c3.
    cbn [fadd].
    set (x := Qred (Qred (Qred (Qred (0 + q) + q0) + q1) + 2)).
    assert (Hx : within 2 12 (Fin x)).
    { subst x. cbn [within]. repeat rewrite Qred_correct. lra. }
    eapply within_weaken; [| |apply within_pymin with (lo := 2) (hi := 12)].
    + lra.
    + apply Q.le_min_l.
    + lra.
    + apply (within_pyround 1 20 120); [reflexivity|reflexivity|exact Hx].
  - intros F I N B.
    unfold foreign_points, institution_points, consecutive_points.
    rewrite F, I, B, N.
    rewrite (fge_false_mono _ 3 5), (fge_false_mono _ 3 10), (fge_false_mono _ 3 15)
      by (try exact N; lra).
    vm_compute. reflexivity.
Qed.

(** C10 at a concrete record: no activity, no short-selling data. *)
Lemma investor_score_low_short_ratio_witness :
  within 2 12 (fst (calculate_investor_score (Some Examples.no_activity) (Fin 12))) /\
  fst (calculate_investor_score (Some Examples.no_activity) (Fin 12)) = Fin 2.
Proof.
  assert (Hs : data_source Examples.no_activity = Some "거래대금") by reflexivity.
  assert (Hne : "거래대금" <> "default") by (apply String.eqb_neq; reflexivity).
  assert (Hr : (iget Examples.no_activity "short_selling_ratio" <=? Fin 1)%F = true)
    by (vm_compute; reflexivity).
  destruct (investor_score_low_short_ratio Examples.no_activity "거래대금" Hs Hne Hr)
    as [H1 H2].
  split; [exact H1|].
  apply H2; vm_compute; reflexivity.
Defined.

(** C10, as stated, fails: a record from a real source with a
    short-selling ratio of 15 percent and no buying scores 0.0. *)
Lemma investor_score_heavy_short :
  data_source Examples.heavy_short = Some "거래대금" /\
  String.eqb "거래대금" "default" = false /\
  fst (calculate_investor_score (Some Examples.heavy_short) (Fin 12)) = Fin 0 /\
  (fst (calculate_investor_score (Some Examples.heavy_short) (Fin 12)) >=? Fin 2)%F = false.
Proof. repeat split; vm_compute; reflexivity. Qed.

(** *** The fundamental score without data *)

(** C5, as the code has it: without any record (None or an empty
    dictionary) the score is 0.0 and the details carry the tag
    ['none'] with a message; the positive floor of 3.0, with its own
    message, goes to a non-empty record that has none of the scored
    keys. *)
Theorem fundamental_score_without_data (float_of_str : string -> option pyfloat) :
  (forall financial_data : option (gmap string pyval),
     financial_data = None \/ financial_data = Some ∅ ->
     fst (calculate_fundamental_score float_of_str financial_data) = Fin 0 /\
     dget (snd (calculate_fundamental_score float_of_str financial_data)) "data_source"
       = Some (VStr "none") /\
     dget (snd (calculate_fundamental_score float_of_str financial_data)) "message"
       = Some (VStr "재무 데이터 없음")) /\
  (forall fd : gmap string pyval,
     fd <> ∅ ->
     fd !! "source" = None -> fd !! "data_source" = None ->
     fd !! "roe" = None -> fd !! "per" = None -> fd !! "pbr" = None ->
     fst (calculate_fundamental_score float_of_str (Some fd)) = Fin 3 /\
     dget (snd (calculate_fundamental_score float_of_str (Some fd))) "scores_detail"
       = Some (VDict [("message", VStr "재무 데이터 부족")])).
Proof.
  split.
  - intros fd [-> | ->]; repeat split; reflexivity.
  - intros fd Hne Hs Hd Hroe Hper Hpbr.
    unfold calculate_fundamental_score.
    rewrite bool_decide_eq_false_2 by exact Hne.
    rewrite Hs, Hd. change (default (default (VStr "unknown") None) None) with (VStr "unknown").
    unfold fundamental_total, has_key. cbn [is_str String.eqb Ascii.eqb].
    rewrite Hroe, Hper, Hpbr.
    rewrite !bool_decide_eq_false_2 by (intros [? ?]; discriminate).
    cbn. split; reflexivity.
Qed.

(** C5 at concrete inputs: no record at all, and a record that only
    names the company. *)
Lemma fundamental_score_without_data_witness :
  fst (calculate_fundamental_score Examples.no_float None) = Fin 0 /\
  fst (calculate_fundamental_score Examples.no_float (Some Examples.name_only)) = Fin 3.
Proof.
  destruct (fundamental_score_without_data Examples.no_float) as [H1 H2].
  split.
  - apply (H1 None). left. reflexivity.
  - apply (H2 Examples.name_only); vm_compute; try reflexivity.
    intros H. discriminate H.
Defined.

(** C5, as stated, fails: without a record the score is zero, not a
    positive floor. *)
Lemma fundamental_score_none_is_zero :
  fst (calculate_fundamental_score Examples.no_float None) = Fin 0 /\
  (fst (calculate_fundamental_score Examples.no_float None) >? Fin 0)%F = false /\
  (fst (calculate_fundamental_score Examples.no_float (Some ∅)) >? Fin 0)%F = false.
Proof. repeat split; vm_compute; reflexivity. Qed.

(** ** calculate_indicators *)

Import StockData.

Lemma nth_map_seq {B} (g : nat -> B) (n i : nat) (d : B) :
  (i < n)%nat -> nth i (map g (seq 0 n)) d = g i.
Proof.
  intros H.
  rewrite (nth_indep _ d (g O)) by (rewrite length_map, length_seq; exact H).
  rewrite map_nth, seq_nth by exact H. reflexivity.
Qed.

Lemma nthf_rolling {A} (w : nat) (f : list A -> pyfloat) (l : list A) (i : nat) :
  (i < length l)%nat -> nthf (rolling w f l) i = f (window w i l).
Proof.
  intros H. unfold nthf, rolling.
  apply (nth_map_seq (fun i => f (window w i l))). exact H.
Qed.

Lemma window_nonempty {A} (w i : nat) (l : list A) :
  (1 <= w)%nat -> (i < length l)%nat -> window w i l <> [].
Proof.
  intros Hw Hi E. apply (f_equal (@length A)) in E.
  unfold window in E. rewrite length_skipn, length_firstn in E. simpl in E. lia.
Qed.

Lemma mean_emits (l : list Q) : l <> [] -> emits (mean l).
Proof. destruct l; [congruence|reflexivity]. Qed.

Lemma Qmaximum_emits (l : list Q) : l <> [] -> emits (Qmaximum l).
Proof. destruct l; [congruence|reflexivity]. Qed.

Lemma Qminimum_emits (l : list Q) : l <> [] -> emits (Qminimum l).
Proof. destruct l; [congruence|reflexivity]. Qed.

Lemma rolling_mean_emits (w : nat) (l : list Q) (i : nat) :
  (1 <= w)%nat -> (i < length l)%nat -> emits (nthf (rolling_mean w l) i).
Proof.
  intros Hw Hi. unfold rolling_mean. rewrite nthf_rolling by exact Hi.
  apply mean_emits, window_nonempty; assumption.
Qed.

Lemma pct_change_early (k : nat) (l : list Q) (i : nat) :
  (i < k)%nat -> nthf (pct_change k l) i = NaN.
Proof.
  intros H. unfold nthf, pct_change.
  destruct (Nat.lt_ge_cases i (length l)) as [Hi|Hi].
  - rewrite (nth_map_seq (fun i => if (k <=? i)%nat then _ else _)) by exact Hi.
    destruct (k <=? i)%nat eqn:E; [apply Nat.leb_le in E; lia|reflexivity].
  - apply nth_overflow. rewrite length_map, length_seq. exact Hi.
Qed.

(** The rows of the enriched frame, one per input row. *)
Lemma calculate_indicators_rows (Qsqrt : Q -> Q) (df : list bar) :
  rows (calculate_indicators Qsqrt df) = imap (enriched_row (compute_series Qsqrt df)) df.
Proof. destruct df; reflexivity. Qed.

Lemma calculate_indicators_len (Qsqrt : Q -> Q) (df : list bar) :
  len (calculate_indicators Qsqrt df) = length df.
Proof. unfold len. rewrite calculate_indicators_rows. apply length_imap. Qed.

Lemma calculate_indicators_lookup (Qsqrt : Q -> Q) (df : list bar) (i : nat) (r : row) :
  rows (calculate_indicators Qsqrt df) !! i = Some r ->
  exists b, df !! i = Some b /\ r = enriched_row (compute_series Qsqrt df) i b.
Proof.
  rewrite calculate_indicators_rows, list_lookup_imap.
  destruct (df !! i) as [b|]; [|discriminate].
  intros [= <-]. exists b. split; reflexivity.
Qed.

(** On the first row the differences are missing, so average gain and
    average loss are both zero and the RSI is [100 - 100/(1 + 0/0)]. *)
Lemma first_row_rsi (Qsqrt : Q -> Q) (b : bar) (rest : list bar) :
  RSI (enriched_row (compute_series Qsqrt (b :: rest)) 0 b) = NaN.
Proof.
  unfold enriched_row, compute_series. cbn [RSI s_gain s_loss].
  unfold rolling_mean. rewrite !nthf_rolling by (rewrite length_map; unfold diff;
    rewrite length_map, length_seq; simpl; lia).
  unfold diff. cbn [map length seq window Nat.add Nat.sub firstn skipn Nat.leb gain_of loss_of].
  vm_compute. reflexivity.
Qed.

Lemma first_row_bands (Qsqrt : Q -> Q) (b : bar) (rest : list bar) :
  Upper_Band (enriched_row (compute_series Qsqrt (b :: rest)) 0 b) = NaN /\
  Lower_Band (enriched_row (compute_series Qsqrt (b :: rest)) 0 b) = NaN.
Proof.
  unfold enriched_row, compute_series. cbn [Upper_Band Lower_Band s_bb_std s_ma20].
  unfold rolling_std. rewrite nthf_rolling by (rewrite length_map; simpl; lia).
  cbn [map window Nat.add Nat.sub firstn skipn].
  unfold std_of. cbn [length Nat.max Nat.leb andb].
  destruct (nthf _ 0); split; reflexivity.
Qed.

(** C8, as the code has it: the enriched frame has as many rows as the
    input; the rolling means, the 52-week extremes and the MACD family
    hold a number on every row, the first included; the returns are
    NaN until their look-back is available and, on the first row, so
    are the RSI and both band edges. *)
Theorem calculate_indicators_aligned (Qsqrt : Q -> Q) (df : list bar) :
  df <> [] ->
  len (calculate_indicators Qsqrt df) = length df /\
  (forall i r, rows (calculate_indicators Qsqrt df) !! i = Some r ->
     df !! i = Some (price r) /\
     emits (MA20 r) /\ emits (MA60 r) /\ emits (MA120 r) /\ emits (BB_Middle r) /\
     emits (Volume_MA5 r) /\ emits (Volume_MA20 r) /\
     emits (High_52W r) /\ emits (Low_52W r) /\
     emits (MACD r) /\ emits (MACD_Signal r) /\ emits (MACD_Histogram r) /\
     ((i < 1)%nat -> Return_1D r = NaN) /\
     ((i < 65)%nat -> Return_13W r = NaN) /\
     ((i < 130)%nat -> Return_26W r = NaN) /\
     (i = 0%nat -> RSI r = NaN /\ Upper_Band r = NaN /\ Lower_Band r = NaN)).
Proof.
  intros Hne. split; [apply calculate_indicators_len|].
  intros i r Hr. apply calculate_indicators_lookup in Hr as (b & Hb & ->).
  assert (Hi : (i < length df)%nat) by (apply lookup_lt_Some in Hb; exact Hb).
  assert (Hc : (i < length (map Close df))%nat) by (rewrite length_map; exact Hi).
  assert (Hv : (i < length (map Volume df))%nat) by (rewrite length_map; exact Hi).
  unfold enriched_row, compute_series.
  cbn [price MA20 MA60 MA120 BB_Middle Volume_MA5 Volume_MA20 High_52W Low_52W
       MACD MACD_Signal MACD_Histogram Return_1D Return_13W Return_26W
       s_ma20 s_ma60 s_ma120 s_volume_ma5 s_volume_ma20 s_high_52w s_low_52w
       s_return_1d s_return_13w s_return_26w].
  split; [exact Hb|].
  repeat match goal with
         | |- emits (nthf (rolling_mean _ _) _) /\ _ =>
             split; [apply rolling_mean_emits; [lia|assumption]|]
         end.
  split.
  { unfold rolling_max. rewrite nthf_rolling by (rewrite length_map; exact Hi).
    apply Qmaximum_emits, window_nonempty; [lia|rewrite length_map; exact Hi]. }
  split.
  { unfold rolling_min. rewrite nthf_rolling by (rewrite length_map; exact Hi).
    apply Qminimum_emits, window_nonempty; [lia|rewrite length_map; exact Hi]. }
  split; [reflexivity|]. split; [reflexivity|]. split; [reflexivity|].
  split; [apply pct_change_early|]. split; [apply pct_change_early|].
  split; [apply pct_change_early|].
  intros ->. destruct df as [|b0 rest]; [congruence|].
  injection Hb as <-.
  split; [apply first_row_rsi|apply first_row_bands].
Qed.

(** C8 at a concrete series: one period. *)
Lemma calculate_indicators_aligned_witness :
  Examples.flat_series 1 <> [] /\
  len (calculate_indicators Examples.Qsqrt8 (Examples.flat_series 1)) = 1%nat.
Proof.
  assert (H : Examples.flat_series 1 <> []) by (vm_compute; discriminate).
  split; [exact H|].
  exact (proj1 (calculate_indicators_aligned Examples.Qsqrt8 (Examples.flat_series 1) H)).
Defined.

(** C8, as stated, fails: with one period of history the one-day
    return, the RSI and the upper band hold no value. *)
Lemma single_period_missing_values :
  exists r, rows (calculate_indicators Examples.Qsqrt8 (Examples.flat_series 1)) = [r] /\
    Return_1D r = NaN /\ RSI r = NaN /\ Upper_Band r = NaN /\
    is_fin (Return_1D r) = false.
Proof. eexists. repeat split; vm_compute; reflexivity. Qed.

(** *** A flat series *)

Lemma map_constant {A B} (f : A -> B) (c : B) (l : list A) :
  Forall (fun a => f a = c) l -> map f l = repeat c (length l).
Proof.
  induction 1 as [|a l Ha _ IH]; [reflexivity|].
  simpl. rewrite Ha, IH. reflexivity.
Qed.

Lemma dget_app_l (d1 d2 : details) (key : string) (v : pyval) :
  dget d1 key = Some v -> dget (d1 ++ d2) key = Some v.
Proof.
  induction d1 as [|[k w] d1 IH]; [discriminate|].
  simpl. destruct (String.eqb k key); [trivial|exact IH].
Qed.

(** The alignment component reported by [calculate_trend_score] is
    the one computed on the latest row. *)
Lemma trend_details_alignment (stock_data : DataFrame) (latest : row) :
  last (rows stock_data) = Some latest ->
  has_col stock_data "MA20" = true -> has_col stock_data "MA60" = true ->
  dget (snd (calculate_trend_score stock_data)) "ma_alignment_score"
  = Some (vint (ma_alignment_score latest)).
Proof.
  intros Hl H20 H60. unfold calculate_trend_score. rewrite Hl, H20, H60.
  cbn [andb].
  repeat match goal with
         | |- context [if ?c then _ else _] => destruct c
         | |- context [match ?c with Some _ => _ | None => _ end] => destruct c
         end;
    cbn [snd]; repeat first [reflexivity | apply dget_app_l].
Qed.

(** C4, as the code has it: on 130 periods of constant close 10000 the
    three moving averages of the latest row are 10000, the alignment
    component of the trend score is 0, and the RSI is NaN: average gain
    and average loss are both zero, and the code divides one by the
    other. *)
Theorem flat_series_indicators (Qsqrt : Q -> Q) (df : list bar) :
  length df = 130%nat ->
  Forall (fun b : bar => Close b = 10000) df ->
  exists latest,
    last (rows (calculate_indicators Qsqrt df)) = Some latest /\
    MA20 latest = Fin 10000 /\ MA60 latest = Fin 10000 /\ MA120 latest = Fin 10000 /\
    RSI latest = NaN /\
    ma_alignment_score latest = 0%Z /\
    dget (snd (calculate_trend_score (calculate_indicators Qsqrt df))) "ma_alignment_score"
    = Some (vint 0).
Proof.
  intros Hlen Hflat.
  assert (Hclose : map Close df = repeat 10000 130).
  { rewrite <- Hlen. apply map_constant. exact Hflat. }
  destruct (df !! 129%nat) as [b|] eqn:Hb;
    [|apply lookup_ge_None in Hb; lia].
  assert (Hcb : Close b = 10000).
  { rewrite Forall_forall in Hflat. apply Hflat.
    eapply list_elem_of_lookup_2. exact Hb. }
  set (latest := enriched_row (compute_series Qsqrt df) 129 b).
  assert (Hlast : last (rows (calculate_indicators Qsqrt df)) = Some latest).
  { rewrite calculate_indicators_rows, last_lookup, length_imap, Hlen.
    cbn [pred]. rewrite list_lookup_imap, Hb. reflexivity. }
  assert (E20 : MA20 latest = Fin 10000).
  { subst latest. unfold enriched_row, compute_series. cbn [MA20 s_ma20].
    rewrite Hclose. vm_compute. reflexivity. }
  assert (E60 : MA60 latest = Fin 10000).
  { subst latest. unfold enriched_row, compute_series. cbn [MA60 s_ma60].
    rewrite Hclose. vm_compute. reflexivity. }
  assert (E120 : MA120 latest = Fin 10000).
  { subst latest. unfold enriched_row, compute_series. cbn [MA120 s_ma120].
    rewrite Hclose. vm_compute. reflexivity. }
  assert (Ersi : RSI latest = NaN).
  { subst latest. unfold enriched_row, compute_series. cbn [RSI s_gain s_loss].
    rewrite Hclose. vm_compute. reflexivity. }
  assert (Ea : ma_alignment_score latest = 0%Z).
  { unfold ma_alignment_score. rewrite E20, E60.
    change (Close latest) with (Close b). rewrite Hcb. vm_compute. reflexivity. }
  exists latest. repeat split; try assumption.
  rewrite (trend_details_alignment _ latest Hlast), Ea; try reflexivity.
  - destruct df; [discriminate Hlen|reflexivity].
  - destruct df; [discriminate Hlen|reflexivity].
Qed.

(** C4 at the series whose every column is constant. *)
Lemma flat_series_indicators_witness :
  length (Examples.flat_series 130) = 130%nat /\
  exists latest,
    last (rows (calculate_indicators Examples.Qsqrt8 (Examples.flat_series 130)))
    = Some latest /\
    MA20 latest = Fin 10000 /\ MA60 latest = Fin 10000 /\ MA120 latest = Fin 10000 /\
    RSI latest = NaN /\
    ma_alignment_score latest = 0%Z /\
    dget (snd (calculate_trend_score
                 (calculate_indicators Examples.Qsqrt8 (Examples.flat_series 130))))
         "ma_alignment_score"
    = Some (vint 0).
Proof.
  assert (Hlen : length (Examples.flat_series 130) = 130%nat) by reflexivity.
  split; [exact Hlen|].
  apply (flat_series_indicators Examples.Qsqrt8 (Examples.flat_series 130) Hlen).
  apply Forall_forall. intros b Hb. apply list_elem_of_In, repeat_spec in Hb.
  rewrite Hb. reflexivity.
Defined.

(** C4, as stated, fails on the RSI: on the flat series it is NaN, not
    a number near 50. *)
Lemma flat_series_rsi_undefined :
  exists latest,
    last (rows (calculate_indicators Examples.Qsqrt8 (Examples.flat_series 130)))
    = Some latest /\
    RSI latest = NaN /\
    ~ within 49 51 (RSI latest).
Proof.
  eexists. split; [vm_compute; reflexivity|].
  split; [vm_compute; reflexivity|].
  vm_compute. intros H. exact H.
Qed.

(** ** The pattern detectors *)

Import PatternAnalyzer.

Lemma too_short_guard (df : DataFrame) (window : nat) :
  too_short df window -> empty df || (len df <? window)%nat = true.
Proof.
  intros [H|H].
  - unfold empty. rewrite H. reflexivity.
  - apply Nat.ltb_lt in H. rewrite H. apply orb_true_r.
Qed.

(** C7. On a series that is empty or shorter than its window no
    detector raises: each returns "not found" with an empty evidence
    mapping, whatever its other parameters. *)
Theorem detectors_short_series
  (Qsqrt : Q -> Q) (df : DataFrame)
  (vcp_window : nat) (std_threshold : pyfloat) (min_periods : nat)
  (pivot_window min_range : nat) (volume_factor : pyfloat)
  (breakout_window consolidation_days : nat) (breakout_pct : pyfloat) :
  too_short df vcp_window -> too_short df pivot_window -> too_short df breakout_window ->
  detect_vcp Qsqrt df vcp_window std_threshold min_periods = Returned (false, []) /\
  detect_pocket_pivot df pivot_window min_range volume_factor = Returned (false, []) /\
  detect_breakout df breakout_window consolidation_days breakout_pct = Returned (false, []).
Proof.
  intros Hv Hp Hb.
  unfold detect_vcp, detect_pocket_pivot, detect_breakout.
  rewrite (too_short_guard _ _ Hv), (too_short_guard _ _ Hp), (too_short_guard _ _ Hb).
  repeat split; reflexivity.
Qed.

(** C7 at the default parameters, on the indicator frame of a
    ten-period series and on the empty frame. *)
Lemma detectors_short_series_witness :
  (too_short (Examples.flat_frame 10) 60 /\ too_short (Examples.flat_frame 10) 50) /\
  (detect_vcp Examples.Qsqrt8 (Examples.flat_frame 10) 60 (Fin 0.8) 20 = Returned (false, []) /\
   detect_pocket_pivot (Examples.flat_frame 10) 50 10 (Fin 1.5) = Returned (false, []) /\
   detect_breakout (Examples.flat_frame 10) 60 20 (Fin 3.0) = Returned (false, [])).
Proof.
  assert (H60 : too_short (Examples.flat_frame 10) 60) by (right; vm_compute; lia).
  assert (H50 : too_short (Examples.flat_frame 10) 50) by (right; vm_compute; lia).
  split; [split; assumption|].
  apply (detectors_short_series Examples.Qsqrt8 (Examples.flat_frame 10)
           60 (Fin 0.8) 20 50 10 (Fin 1.5) 60 20 (Fin 3.0) H60 H50 H60).
Defined.

(** The inner minima: the contraction detector wants 50 rows in its
    window, the breakout detector its consolidation span plus five. *)
Lemma detect_vcp_below_fifty (Qsqrt : Q -> Q) (df : DataFrame) (window : nat)
  (std_threshold : pyfloat) (min_periods : nat) :
  (min_periods <= 20)%nat -> (length (tail window (rows df)) < 50)%nat ->
  detect_vcp Qsqrt df window std_threshold min_periods = Returned (false, []).
Proof.
  intros Hm Hl. unfold detect_vcp.
  destruct (empty df || (len df <? window)%nat); [reflexivity|].
  destruct (20 <? min_periods)%nat eqn:E; [apply Nat.ltb_lt in E; lia|].
  apply Nat.ltb_lt in Hl. rewrite Hl. reflexivity.
Qed.

Lemma detect_breakout_below_span (df : DataFrame) (window consolidation_days : nat)
  (breakout_pct : pyfloat) :
  (length (tail window (rows df)) < consolidation_days + 5)%nat ->
  detect_breakout df window consolidation_days breakout_pct = Returned (false, []).
Proof.
  intros Hl. unfold detect_breakout.
  destruct (empty df || (len df <? window)%nat); [reflexivity|].
  apply Nat.ltb_lt in Hl. rewrite Hl. reflexivity.
Qed.

(** What makes [detect_pocket_pivot] fire on a series long enough: the
    three conditions, each a strict comparison. *)
Lemma detect_pocket_pivot_fires (df : DataFrame) (window min_range : nat)
  (volume_factor : pyfloat) (latest prev : row) :
  empty df || (len df <? window)%nat = false ->
  iloc_neg 1 (tail window (rows df)) = Some latest ->
  iloc_neg 2 (tail window (rows df)) = Some prev ->
  exists evidence,
    detect_pocket_pivot df window min_range volume_factor
    = Returned (volume_surge df latest volume_factor && price_up latest prev
                && above_ma df latest, evidence).
Proof.
  intros Hg Hl Hp. unfold detect_pocket_pivot. rewrite Hg, Hl, Hp.
  eexists. reflexivity.
Qed.

Lemma price_up_strict (latest prev : row) :
  price_up latest prev = true <-> Close prev * 1.03 < Close latest.
Proof.
  unfold price_up, fgt, flt. cbn [fmul]. rewrite Qltb_lt, Qred_correct. reflexivity.
Qed.

(** C6 at the boundary: the last close is exactly 3 percent above the
    previous one, the volume is more than 1.5 times its 20-period
    average and close > MA20 > MA60, yet the detector does not fire. *)
Theorem detect_pocket_pivot_at_three_percent :
  exists latest prev evidence,
    iloc_neg 1 (rows Examples.pivot_frame) = Some latest /\
    iloc_neg 2 (rows Examples.pivot_frame) = Some prev /\
    (Fin (Volume latest) >? Volume_MA20 latest * Fin 1.5)%F = true /\
    Close latest == Close prev * 1.03 /\
    (Fin (Close latest) >? MA20 latest)%F = true /\
    (MA20 latest >? MA60 latest)%F = true /\
    detect_pocket_pivot Examples.pivot_frame 50 10 (Fin 1.5) = Returned (false, evidence).
Proof.
  do 3 eexists.
  split; [vm_compute; reflexivity|].
  split; [vm_compute; reflexivity|].
  split; [vm_compute; reflexivity|].
  split; [vm_compute; reflexivity|].
  split; [vm_compute; reflexivity|].
  split; [vm_compute; reflexivity|].
  vm_compute. reflexivity.
Qed.

(** ** The fundamentals resolver *)

Import FinancialData.

Section ResolverProperties.

Variable now : Z.
Variable current_year : Z.
Variable current_month : Z.
Variable today : string.
Variable int_of_str : string -> option Z.
Variable DART_FSS_AVAILABLE : bool.
Variable api_key_set : bool.
Variable f_data_cache : gmap string (gmap string pyval).
Variable standardise_quarterly : string -> gmap string pyval -> outcome (option (gmap string pyval)).
Variable _get_from_specified_json_files : string -> outcome (option (gmap string pyval)).
Variable _get_from_financial_data_folder : string -> outcome (option (gmap string pyval)).
Variable get_dart_fss_financial_data : string -> outcome (option (gmap string pyval)).
Variable get_market_fundamental_data : string -> outcome (option (gmap string pyval)).
Variable _get_from_dart_api : string -> outcome (option (gmap string pyval)).
Variable cache_write : file_write.

#[local] Abbreviation chain :=
  (resolve_chain current_year current_month today int_of_str DART_FSS_AVAILABLE api_key_set
      f_data_cache standardise_quarterly _get_from_specified_json_files
      _get_from_financial_data_folder get_dart_fss_financial_data
      get_market_fundamental_data _get_from_dart_api).

#[local] Abbreviation attempts :=
  (tier_attempts current_year current_month today int_of_str DART_FSS_AVAILABLE api_key_set
      f_data_cache standardise_quarterly _get_from_specified_json_files
      _get_from_financial_data_folder get_dart_fss_financial_data
      get_market_fundamental_data _get_from_dart_api).

#[local] Abbreviation statement :=
  (get_financial_statement now current_year current_month today int_of_str
      DART_FSS_AVAILABLE api_key_set f_data_cache standardise_quarterly
      _get_from_specified_json_files _get_from_financial_data_folder
      get_dart_fss_financial_data get_market_fundamental_data _get_from_dart_api
      cache_write).

#[local] Abbreviation snapshot_tier := (method_f_data f_data_cache standardise_quarterly).
#[local] Abbreviation default_tier :=
  (_generate_default_financial_data current_year current_month today int_of_str).

Lemma truthy_insert (k : string) (v : pyval) (m : gmap string pyval) :
  truthy (Some (<[k := v]> m)) = true.
Proof.
  unfold truthy. rewrite bool_decide_eq_false_2 by apply insert_non_empty. reflexivity.
Qed.

Lemma truthy_None : truthy None = false.
Proof. reflexivity. Qed.

Lemma truthy_Some (d : option (gmap string pyval)) :
  truthy d = true -> exists m, d = Some m /\ m <> ∅.
Proof.
  destruct d as [m|]; [|discriminate]. unfold truthy.
  intros H. apply negb_true_iff, bool_decide_eq_false in H. eauto.
Qed.

(** A record obtained from the snapshot carries one of its two tags. *)
Lemma method_f_data_tag (formatted_code : string) (r : gmap string pyval) :
  snapshot_tier formatted_code = Some r -> tier1_tag (tag r).
Proof.
  unfold method_f_data, get_f_data_financial, get_f_data_fundamental, tag.
  destruct (f_data_cache !! ("financial_" ++ zfill 6 formatted_code)%string) as [e1|].
  - destruct (standardise_quarterly (zfill 6 formatted_code) e1) as [[q|]|exn].
    + rewrite truthy_insert. intros [= <-]. left. apply lookup_insert_eq.
    + rewrite truthy_insert. intros [= <-]. left. apply lookup_insert_eq.
    + rewrite truthy_None.
      destruct (f_data_cache !! ("fundamental_" ++ zfill 6 formatted_code)%string) as [e2|];
        [|discriminate].
      rewrite truthy_insert. intros [= <-]. right. apply lookup_insert_eq.
  - rewrite truthy_None.
    destruct (f_data_cache !! ("fundamental_" ++ zfill 6 formatted_code)%string) as [e2|];
      [|discriminate].
    rewrite truthy_insert. intros [= <-]. right. apply lookup_insert_eq.
Qed.

(** The snapshot answers whenever it lists the symbol's fundamentals. *)
Lemma method_f_data_fundamental_present (formatted_code : string) :
  is_Some (f_data_cache !! ("fundamental_" ++ zfill 6 formatted_code)%string) ->
  is_Some (snapshot_tier formatted_code).
Proof.
  intros [e2 He2].
  unfold method_f_data, get_f_data_financial, get_f_data_fundamental.
  rewrite He2.
  destruct (f_data_cache !! ("financial_" ++ zfill 6 formatted_code)%string) as [e1|].
  - destruct (standardise_quarterly (zfill 6 formatted_code) e1) as [[q|]|exn];
      rewrite ?truthy_None, ?truthy_insert; eauto.
  - rewrite truthy_None, truthy_insert. eauto.
Qed.

(** With fundamentals only, the record is the snapshot entry under the
    fundamentals tag. *)
Lemma method_f_data_fundamental_only (formatted_code : string) (entry : gmap string pyval) :
  f_data_cache !! ("financial_" ++ zfill 6 formatted_code)%string = None ->
  f_data_cache !! ("fundamental_" ++ zfill 6 formatted_code)%string = Some entry ->
  snapshot_tier formatted_code = Some (<["data_source" := VStr "f_data_fundamental"]> entry).
Proof.
  intros H1 H2.
  unfold method_f_data, get_f_data_financial, get_f_data_fundamental.
  rewrite H1, H2, truthy_None, truthy_insert. reflexivity.
Qed.

Lemma estimate_sector_cases (code_int : Z) :
  estimate_sector code_int = "tech" \/ estimate_sector code_int = "manufacturing" \/
  estimate_sector code_int = "default".
Proof.
  unfold estimate_sector.
  repeat match goal with |- context [if ?c then _ else _] => destruct c end; auto.
Qed.

(** The sector defaults always produce a record, and its tag is not
    one of the snapshot's. *)
Lemma default_tier_tag (formatted_code : string) :
  default_tier formatted_code <> ∅ /\ ~ tier1_tag (tag (default_tier formatted_code)).
Proof.
  unfold _generate_default_financial_data, tag, tier1_tag.
  destruct (int_of_str (zfill 6 formatted_code)) as [z|].
  - destruct (estimate_sector_cases z) as [-> | [-> | ->]]; split;
      try (intros E; apply (f_equal (fun m : gmap string pyval => m !! "roe")) in E;
           vm_compute in E; discriminate E);
      intros [E|E]; vm_compute in E; discriminate E.
  - split.
    + intros E. apply (f_equal (fun m : gmap string pyval => m !! "roe")) in E.
      vm_compute in E. discriminate E.
    + intros [E|E]; vm_compute in E; discriminate E.
Qed.

Lemma or_else_first (x y : option (gmap string pyval)) (rest : list (option (gmap string pyval))) :
  first_usable (or_else x y :: rest) = first_usable (x :: y :: rest).
Proof. destruct x, y; reflexivity. Qed.

(** The chain returns the first record in priority order. *)
Lemma resolve_chain_first (formatted_code : string) :
  chain formatted_code = first_usable (attempts formatted_code).
Proof.
  unfold resolve_chain, tier_attempts.
  destruct (method_f_data _ _ _); [reflexivity|].
  destruct (attempt (_get_from_specified_json_files _)); [reflexivity|].
  destruct (attempt (_get_from_financial_data_folder _)); [reflexivity|].
  destruct (if DART_FSS_AVAILABLE then _ else _); [reflexivity|].
  destruct (method_pykrx _ _); [reflexivity|].
  destruct (if api_key_set then _ else _); reflexivity.
Qed.

Lemma attempt_nonempty (x : outcome (option (gmap string pyval))) (r : gmap string pyval) :
  attempt x = Some r -> r <> ∅.
Proof.
  unfold attempt. destruct x as [d|exn]; [|discriminate].
  destruct (truthy d) eqn:E; [|discriminate].
  intros ->. apply truthy_Some in E as (m & [= <-] & Hm). exact Hm.
Qed.

Lemma method_pykrx_nonempty (formatted_code : string) (r : gmap string pyval) :
  method_pykrx get_market_fundamental_data formatted_code = Some r -> r <> ∅.
Proof.
  unfold method_pykrx.
  destruct (get_market_fundamental_data formatted_code) as [d|exn]; [|discriminate].
  destruct (truthy d) eqn:E; [|discriminate].
  apply truthy_Some in E as (m & -> & Hm).
  destruct (has_meaningful_data m pykrx_keys) as [[|]|]; try discriminate.
  intros [= <-]. exact Hm.
Qed.

Lemma snapshot_tier_nonempty (formatted_code : string) (r : gmap string pyval) :
  snapshot_tier formatted_code = Some r -> r <> ∅.
Proof.
  intros Hr. apply method_f_data_tag in Hr. intros ->.
  destruct Hr as [Hr|Hr]; unfold tag in Hr; rewrite lookup_empty in Hr; discriminate.
Qed.

(** Every resolution ends with a non-empty record: the last tier
    cannot fail. *)
Lemma resolve_chain_usable (formatted_code : string) :
  exists r, chain formatted_code = Some r /\ r <> ∅.
Proof.
  unfold resolve_chain.
  destruct (method_f_data _ _ _) as [r|] eqn:E1;
    [exists r; split; [reflexivity|exact (snapshot_tier_nonempty _ _ E1)]|].
  cbn [or_else].
  destruct (attempt (_get_from_specified_json_files _)) as [r|] eqn:E2;
    [exists r; split; [reflexivity|exact (attempt_nonempty _ _ E2)]|].
  destruct (attempt (_get_from_financial_data_folder _)) as [r|] eqn:E3;
    [exists r; split; [reflexivity|exact (attempt_nonempty _ _ E3)]|].
  destruct (if DART_FSS_AVAILABLE then _ else _) as [r|] eqn:E4.
  { exists r. split; [reflexivity|].
    destruct DART_FSS_AVAILABLE; [exact (attempt_nonempty _ _ E4)|discriminate]. }
  destruct (method_pykrx _ _) as [r|] eqn:E5;
    [exists r; split; [reflexivity|exact (method_pykrx_nonempty _ _ E5)]|].
  destruct (if api_key_set then _ else _) as [r|] eqn:E6.
  { exists r. split; [reflexivity|].
    destruct api_key_set; [exact (attempt_nonempty _ _ E6)|discriminate]. }
  eexists. split; [reflexivity|]. apply default_tier_tag.
Qed.

Lemma cache_miss_statement (store : gmap string (gmap string pyval)) (code : string)
  (force_update : bool) :
  force_update = true \/ _get_from_financial_cache now store (zfill 6 code) = None ->
  fst (statement store code force_update) = chain (zfill 6 code).
Proof.
  intros Hmiss. unfold get_financial_statement.
  assert (E : (if force_update then None
               else _get_from_financial_cache now store (zfill 6 code)) = None).
  { destruct Hmiss as [-> | ->]; [reflexivity|destruct force_update; reflexivity]. }
  rewrite E, truthy_None.
  destruct (resolve_chain_usable (zfill 6 code)) as (r & -> & Hr).
  unfold truthy. rewrite bool_decide_eq_false_2 by exact Hr. reflexivity.
Qed.

Lemma cache_entry_nonempty (store : gmap string (gmap string pyval)) (key : string)
  (data : gmap string pyval) :
  _get_from_financial_cache now store key = Some data -> data <> ∅.
Proof.
  unfold _get_from_financial_cache.
  destruct (store !! key) as [d|]; [|discriminate].
  destruct (d !! "cached_at") as [v|] eqn:Ec; cbv beta iota; [|discriminate].
  destruct v as [| |[t| | |]| | |]; cbv beta iota; try discriminate.
  destruct (Qltb _ _); [|discriminate].
  intros [= <-] ->. rewrite lookup_empty in Ec. discriminate Ec.
Qed.

(** A fresh cache entry is returned as it is; no tier is consulted. *)
Lemma cache_hit_statement (store : gmap string (gmap string pyval)) (code : string)
  (data : gmap string pyval) :
  _get_from_financial_cache now store (zfill 6 code) = Some data ->
  statement store code false = (Some data, store).
Proof.
  intros H. unfold get_financial_statement. rewrite H.
  unfold truthy. rewrite bool_decide_eq_false_2 by exact (cache_entry_nonempty _ _ _ H).
  reflexivity.
Qed.

Lemma zfill_length (width : nat) (s : string) :
  (width <= String.length (zfill width s))%nat.
Proof.
  unfold zfill. destruct (width <=? String.length s)%nat eqn:E.
  - apply Nat.leb_le in E. exact E.
  - apply Nat.leb_gt in E.
    assert (Hz : forall n, String.length (zeros n) = n).
    { induction n; simpl; congruence. }
    assert (Ha : forall a b, String.length (a ++ b) = (String.length a + String.length b)%nat).
    { induction a; intros; simpl; [reflexivity|rewrite IHa; reflexivity]. }
    destruct s as [|c r].
    + rewrite Hz. simpl. lia.
    + destruct (Ascii.eqb c "+" || Ascii.eqb c "-"); simpl in *; rewrite Ha, Hz; simpl; lia.
Qed.

Lemma zfill_idempotent (width : nat) (s : string) :
  zfill width (zfill width s) = zfill width s.
Proof.
  pose proof (zfill_length width s) as H. apply Nat.leb_le in H.
  unfold zfill at 1. rewrite H. reflexivity.
Qed.

(** C2, as the code has it: unless a fresh cache entry answers first,
    [get_financial_statement] returns the record of the first tier, in
    priority order, that yields one; when the snapshot lists the
    symbol's fundamentals the record carries a snapshot tag, which the
    sector defaults never carry, and with no quarterly entry it is the
    snapshot entry under the tag ['f_data_fundamental']. *)
Theorem get_financial_statement_priority
  (store : gmap string (gmap string pyval)) (code : string) (force_update : bool) :
  force_update = true \/ _get_from_financial_cache now store (zfill 6 code) = None ->
  fst (statement store code force_update) = first_usable (attempts (zfill 6 code)) /\
  (is_Some (f_data_cache !! ("fundamental_" ++ zfill 6 code)%string) ->
   exists r,
     fst (statement store code force_update) = Some r /\
     tier1_tag (tag r) /\
     tag r <> tag (default_tier (zfill 6 code))) /\
  (forall entry,
     f_data_cache !! ("financial_" ++ zfill 6 code)%string = None ->
     f_data_cache !! ("fundamental_" ++ zfill 6 code)%string = Some entry ->
     fst (statement store code force_update)
     = Some (<["data_source" := VStr "f_data_fundamental"]> entry)).
Proof.
  intros Hmiss. rewrite (cache_miss_statement store code force_update Hmiss).
  split; [apply resolve_chain_first|]. split.
  - intros Hf. rewrite <- (zfill_idempotent 6 code) in Hf.
    apply method_f_data_fundamental_present in Hf as [r Hr].
    exists r. split; [|split].
    + unfold resolve_chain. rewrite Hr. reflexivity.
    + exact (method_f_data_tag _ _ Hr).
    + intros E. apply (proj2 (default_tier_tag (zfill 6 code))).
      rewrite <- E. exact (method_f_data_tag _ _ Hr).
  - intros entry H1 H2. rewrite <- (zfill_idempotent 6 code) in H1, H2.
    unfold resolve_chain.
    rewrite (method_f_data_fundamental_only _ _ H1 H2). reflexivity.
Qed.

End ResolverProperties.

Lemma snapshot_lists_symbol :
  is_Some (Examples.snapshot !! ("fundamental_" ++ zfill 6 "5930")%string).
Proof.
  change ("fundamental_" ++ zfill 6 "5930")%string with "fundamental_005930".
  unfold Examples.snapshot. rewrite lookup_singleton_eq. eexists. reflexivity.
Defined.

(** C2 at a concrete environment: the snapshot lists 005930, the cache
    is empty, every tier in between finds nothing. *)
Lemma get_financial_statement_priority_witness :
  (_get_from_financial_cache 1700000000 ∅ (zfill 6 "5930") = None /\
   is_Some (Examples.snapshot !! ("fundamental_" ++ zfill 6 "5930")%string)) /\
  exists r,
    fst (Examples.resolve 1700000000 Examples.snapshot ∅ "5930" false) = Some r /\
    tier1_tag (tag r).
Proof.
  assert (Hmiss : false = true \/ _get_from_financial_cache 1700000000 ∅ (zfill 6 "5930") = None)
    by (right; reflexivity).
  split; [split; [reflexivity|exact snapshot_lists_symbol]|].
  destruct (get_financial_statement_priority 1700000000 2025 6 "2025-06-05" Examples.decimal
              true true Examples.snapshot Examples.no_quarterly Examples.nothing
              Examples.nothing Examples.nothing Examples.nothing Examples.nothing Written
              ∅ "5930" false Hmiss) as (_ & H & _).
  destruct (H snapshot_lists_symbol) as (r & Hr & Ht & _).
  exists r. split; [exact Hr|exact Ht].
Defined.

(** C2, as stated, fails behind the cache: a record written by the
    sector defaults one day earlier is returned although the snapshot
    now lists the symbol. *)
Lemma cached_default_outlives_snapshot :
  is_Some (Examples.snapshot !! ("fundamental_" ++ zfill 6 "5930")%string) /\
  Examples.returned_field
    (Examples.resolve 1700000000 Examples.snapshot Examples.store_after_first_run "5930" false)
    "data_source" = Some (VStr "추정값_manufacturing") /\
  Examples.returned_field
    (Examples.resolve 1700000000 Examples.snapshot Examples.store_after_first_run "5930" false)
    "source" = Some (VStr "estimated_manufacturing") /\
  Examples.returned_field
    (Examples.resolve 1700000000 Examples.snapshot ∅ "5930" false)
    "data_source" = Some (VStr "f_data_fundamental").
Proof.
  split; [exact snapshot_lists_symbol|].
  split; [vm_compute; reflexivity|].
  split; vm_compute; reflexivity.
Qed.

(** ** The collecting loop of run_screening *)

Import Screener.

Lemma too_many_errors_spec (e total : nat) :
  too_many_errors e total = true <-> (total < 2 * e)%nat.
Proof.
  unfold too_many_errors, fgt, flt. cbn [fmul]. rewrite Qltb_lt, Qred_correct.
  rewrite Nat2Z.inj_lt, Nat2Z.inj_mul, Zlt_Qlt, inject_Z_mult.
  change (inject_Z (Z.of_nat 2)) with 2.
  split; intros H; lra.
Qed.

Lemma too_many_errors_false (e total : nat) :
  too_many_errors e total = false <-> (2 * e <= total)%nat.
Proof.
  destruct (too_many_errors e total) eqn:E.
  - apply too_many_errors_spec in E. split; [discriminate|lia].
  - split; [intros _|reflexivity].
    destruct (Nat.le_gt_cases (2 * e) total) as [H|H]; [exact H|].
    apply too_many_errors_spec in H. congruence.
Qed.

Section Collect.

Variable R : Type.
Variable total_stocks : nat.

Implicit Types (st : counters R) (futures : list (completion R)).

Lemma raised_le_length futures : (raised futures <= length futures)%nat.
Proof.
  induction futures as [|c l IH]; [apply Nat.le_refl|].
  unfold raised in *. cbn [count length]. destruct (is_raised c); lia.
Qed.

Lemma half_bound (e : nat) : (2 * e <= total_stocks)%nat -> (e <= total_stocks / 2)%nat.
Proof. intros H. apply Nat.div_le_lower_bound; lia. Qed.

(** Every raising task that is still waiting when the loop stops was
    one the loop did not need. *)
Lemma collect_processed st futures :
  (processed_count (collect total_stocks st futures) + raised futures
   <= processed_count st + length futures + allowed total_stocks (error_count st))%nat.
Proof.
  revert st. induction futures as [|c l IH]; intros st.
  - cbn. lia.
  - cbn [collect]. destruct c as [r| |].
    + cbn [collect_one aborted]. specialize (IH (collect_one total_stocks st (Result r))).
      cbn [collect_one processed_count error_count] in IH.
      unfold raised in *. cbn [count is_raised length]. lia.
    + cbn [collect_one aborted]. specialize (IH (collect_one total_stocks st NoResult)).
      cbn [collect_one processed_count error_count] in IH.
      unfold raised, allowed in *. cbn [count is_raised length]. lia.
    + cbn [collect_one aborted].
      destruct (too_many_errors (error_count st + 1) total_stocks) eqn:E.
      * cbn [processed_count]. pose proof (raised_le_length l).
        unfold raised, allowed in *. cbn [count is_raised length]. lia.
      * apply too_many_errors_false in E. pose proof (half_bound _ E) as Hh.
        match goal with |- context [collect total_stocks ?s l] => specialize (IH s) end.
        cbn [processed_count error_count] in IH.
        unfold raised, allowed in *. cbn [count is_raised length]. lia.
Qed.

(** Enough raising tasks ahead make the loop stop. *)
Lemma collect_aborts st futures :
  (1 <= raised futures)%nat ->
  (total_stocks < 2 * (error_count st + raised futures))%nat ->
  aborted (collect total_stocks st futures) = true.
Proof.
  revert st. induction futures as [|c l IH]; intros st H1 H2.
  - cbn in H1. lia.
  - cbn [collect]. destruct c as [r| |]; unfold raised in *; cbn [count is_raised] in *.
    + cbn [collect_one aborted]. apply IH; cbn [error_count]; lia.
    + cbn [collect_one aborted]. apply IH; cbn [error_count]; lia.
    + cbn [collect_one aborted].
      destruct (too_many_errors (error_count st + 1) total_stocks) eqn:E; [reflexivity|].
      apply too_many_errors_false in E.
      apply IH; cbn [error_count]; lia.
Qed.

(** Tasks that only hand over [None] are counted as errors, and the
    loop runs to the end. *)
Lemma collect_without_raise st futures :
  raised futures = 0%nat -> futures <> [] ->
  aborted (collect total_stocks st futures) = false /\
  processed_count (collect total_stocks st futures)
  = (processed_count st + length futures)%nat /\
  error_count (collect total_stocks st futures)
  = (error_count st + failed futures)%nat.
Proof.
  revert st. induction futures as [|c l IH]; intros st H0 Hne; [congruence|].
  destruct c as [r| |]; unfold raised, failed in *; cbn [count is_raised is_failed] in *;
    try discriminate.
  - cbn [collect collect_one aborted]. destruct l as [|c' l'].
    + cbn. repeat split; lia.
    + match goal with |- context [collect total_stocks ?s (c' :: l')] =>
        destruct (IH s H0 ltac:(discriminate)) as (A & B & C) end.
      rewrite A, B, C. cbn [processed_count error_count length]. repeat split; lia.
  - cbn [collect collect_one aborted]. destruct l as [|c' l'].
    + cbn. repeat split; lia.
    + match goal with |- context [collect total_stocks ?s (c' :: l')] =>
        destruct (IH s H0 ltac:(discriminate)) as (A & B & C) end.
      rewrite A, B, C. cbn [processed_count error_count length]. repeat split; lia.
Qed.

End Collect.

(** Where the breaker does act: when [future.result] raises and the
    failures counted so far exceed half of the whole universe.  A run
    in which more than half of the futures raise stops, leaving
    unprocessed every raising task beyond the first [total/2 + 1]; with
    100 futures of which 60 raise, at most 91 are processed. *)
Lemma circuit_breaker_on_raising_tasks (R : Type) (futures : list (completion R)) :
  (length futures < 2 * raised futures)%nat ->
  aborted (run_collection futures) = true /\
  (processed_count (run_collection futures) + raised futures
   <= length futures + (length futures / 2 + 1))%nat /\
  (length futures = 100%nat -> raised futures = 60%nat ->
   (processed_count (run_collection futures) <= 91)%nat).
Proof.
  intros H. unfold run_collection.
  pose proof (collect_processed R (length futures) start futures) as Hp.
  cbn [start processed_count error_count] in Hp. unfold allowed in Hp.
  split; [|split].
  - apply collect_aborts; cbn [start error_count]; lia.
  - lia.
  - intros Hl Hr. rewrite Hr in Hp. rewrite Hl in Hp |- *.
    change (100 / 2)%nat with 50%nat in Hp. lia.
Qed.

Section FailedTasks.

Variable Qsqrt : Q -> Q.
Variable float_of_str : string -> option pyfloat.
Variable get_stock_price : string -> option (list bar).
Variable get_financial_statement : string -> outcome (option (gmap string pyval)).
Variable get_investor_data : string -> outcome (option ScoreCalculator.investor_dict).
Variable now : string.
Variable market_data : gmap string DataFrame.

(** The futures of a run, in the order they complete. *)
#[local] Abbreviation futures_of completed :=
  (map (future_result Qsqrt float_of_str get_stock_price get_financial_statement
          get_investor_data now market_data) completed).

(** No task of the pool raises. *)
Lemma futures_do_not_raise (completed : list stock_row) :
  raised (futures_of completed) = 0%nat.
Proof.
  induction completed as [|row rest IH]; [reflexivity|].
  unfold raised in *. cbn [map count]. rewrite IH.
  unfold future_result. destruct (process_single_stock _ _ _ _ _ _ _ _ _ _ _); reflexivity.
Qed.

(** C3. Failed tasks do not stop the run.  A task that fails hands
    over [None]; the loop counts it as an error but tests the error
    count only where [future.result] raises, which no task does.  So
    every run processes its whole universe, whatever share of the tasks
    fails: with 100 instruments of which 60 fail, in any order, all 100
    are processed although more than half of them failed. *)
Theorem failed_tasks_never_stop_the_run (completed : list stock_row) :
  completed <> [] ->
  aborted (run_collection (futures_of completed)) = false /\
  processed_count (run_collection (futures_of completed)) = length completed /\
  error_count (run_collection (futures_of completed)) = failed (futures_of completed) /\
  (length completed = 100%nat -> failed (futures_of completed) = 60%nat ->
   processed_count (run_collection (futures_of completed)) = 100%nat /\
   (processed_count (run_collection (futures_of completed))
    < 2 * error_count (run_collection (futures_of completed)))%nat).
Proof.
  intros Hne. unfold run_collection.
  assert (Hf : futures_of completed <> []) by (destruct completed; [congruence|discriminate]).
  destruct (collect_without_raise screening_result (length (futures_of completed)) start
              (futures_of completed) (futures_do_not_raise completed) Hf) as (A & B & C).
  cbn [start processed_count error_count] in B, C.
  assert (Hlen : length (futures_of completed) = length completed) by apply length_map.
  split; [exact A|]. split; [rewrite B; exact Hlen|]. split; [exact C|].
  intros Hl H60. rewrite B, C, Hlen, Hl, H60. split; [reflexivity|lia].
Qed.

End FailedTasks.

(** C3 at a universe of 100 instruments of which the first sixty to
    complete have no price data. *)
Lemma failed_tasks_never_stop_the_run_witness :
  failed (map (future_result Examples.Qsqrt8 Examples.no_float Examples.sixty_without_prices
                 Examples.no_statement Examples.no_investor_data "2025-06-05 09:00:00" ∅)
            Examples.universe) = 60%nat /\
  aborted (run_collection
             (map (future_result Examples.Qsqrt8 Examples.no_float Examples.sixty_without_prices
                     Examples.no_statement Examples.no_investor_data "2025-06-05 09:00:00" ∅)
                Examples.universe)) = false /\
  processed_count
    (run_collection
       (map (future_result Examples.Qsqrt8 Examples.no_float Examples.sixty_without_prices
               Examples.no_statement Examples.no_investor_data "2025-06-05 09:00:00" ∅)
          Examples.universe)) = 100%nat.
Proof.
  assert (Hne : Examples.universe <> []) by discriminate.
  assert (Hl : length Examples.universe = 100%nat) by reflexivity.
  assert (H60 : failed (map (future_result Examples.Qsqrt8 Examples.no_float
                               Examples.sixty_without_prices Examples.no_statement
                               Examples.no_investor_data "2025-06-05 09:00:00" ∅)
                          Examples.universe) = 60%nat) by (vm_compute; reflexivity).
  destruct (failed_tasks_never_stop_the_run Examples.Qsqrt8 Examples.no_float
              Examples.sixty_without_prices Examples.no_statement Examples.no_investor_data
              "2025-06-05 09:00:00" ∅ Examples.universe Hne) as (A & _ & _ & D).
  split; [exact H60|]. split; [exact A|]. exact (proj1 (D Hl H60)).
Defined.

(** * Further properties of the code *)

(** ** Rounding *)






(** ** The composite score on doubles *)

Section Binary64Range.

Import Binary64.
Local Open Scope Z_scope.
























End Binary64Range.

(** ** The pattern score *)

(** X2. The pattern score is the sum of the fixed weights of the
    patterns found (8 for the contraction, 7 for the pocket pivot, 5
    for the breakout); the evidence mappings have no part in it. *)
Theorem calculate_pattern_score_weights (vcp_found pivot_found breakout_found : bool)
  (vcp_data pivot_data breakout_data : details) :
  fst (calculate_pattern_score (vcp_found, vcp_data) (pivot_found, pivot_data)
         (breakout_found, breakout_data))
  = fz ((if vcp_found then 8 else 0) + (if pivot_found then 7 else 0)
        + (if breakout_found then 5 else 0)).
Proof.
  unfold calculate_pattern_score. cbn [fst].
  destruct vcp_found, pivot_found, breakout_found; vm_compute; reflexivity.
Qed.

(** ** The investor-flow score *)

Lemma iget_with_field_ne (d : investor_dict) (key k : string) (v : pyfloat) :
  key <> k -> iget (with_field d key v) k = iget d k.
Proof.
  intros Hk. unfold iget, with_field. cbn [fields].
  rewrite lookup_insert_ne by exact Hk. reflexivity.
Qed.

Lemma with_field_not_empty (d : investor_dict) (key : string) (v : pyfloat) :
  investor_dict_empty (with_field d key v) = false.
Proof.
  unfold investor_dict_empty, with_field. cbn [data_source fields].
  destruct (data_source d); [reflexivity|].
  apply bool_decide_eq_false. apply insert_non_empty.
Qed.

Lemma investor_score_with_ratio (d : investor_dict) (net ratio : string)
  (v max_points : pyfloat) :
  (net = "foreign_net_buy" /\ ratio = "foreign_ratio") \/
  (net = "institution_net_buy" /\ ratio = "institution_ratio") ->
  investor_dict_empty d = false ->
  (iget d net >? Fin 0)%F = false ->
  fst (calculate_investor_score (Some (with_field d ratio v)) max_points)
  = fst (calculate_investor_score (Some d) max_points).
Proof.
  intros Hk Hne Hnet. unfold calculate_investor_score.
  rewrite Hne, with_field_not_empty.
  change (data_source (with_field d ratio v)) with (data_source d).
  destruct (String.eqb _ "default"); [reflexivity|].
  cbn [fst].
  destruct Hk as [[-> ->]|[-> ->]];
    rewrite ?(iget_with_field_ne d _ "foreign_net_buy"),
            ?(iget_with_field_ne d _ "foreign_ratio"),
            ?(iget_with_field_ne d _ "institution_net_buy"),
            ?(iget_with_field_ne d _ "institution_ratio"),
            ?(iget_with_field_ne d _ "net_buy_days"),
            ?(iget_with_field_ne d _ "foreign_buy_days"),
            ?(iget_with_field_ne d _ "institution_buy_days"),
            ?(iget_with_field_ne d _ "short_selling_ratio") by discriminate.
  - unfold foreign_points. rewrite Hnet. reflexivity.
  - unfold institution_points. rewrite Hnet. reflexivity.
Qed.

(** X3. Without net buying by a group (foreign investors or
    institutions) that group's ratio has no influence on the
    investor-flow score, whatever value it takes and whatever the
    other group does. *)
Theorem investor_score_ratio_needs_net_buying (d : investor_dict) (v max_points : pyfloat) :
  investor_dict_empty d = false ->
  ((iget d "foreign_net_buy" >? Fin 0)%F = false ->
   fst (calculate_investor_score (Some (with_field d "foreign_ratio" v)) max_points)
   = fst (calculate_investor_score (Some d) max_points)) /\
  ((iget d "institution_net_buy" >? Fin 0)%F = false ->
   fst (calculate_investor_score (Some (with_field d "institution_ratio" v)) max_points)
   = fst (calculate_investor_score (Some d) max_points)).
Proof.
  intros Hne. split; intros Hnet.
  - apply (investor_score_with_ratio d "foreign_net_buy");
      [left; split; reflexivity|exact Hne|exact Hnet].
  - apply (investor_score_with_ratio d "institution_net_buy");
      [right; split; reflexivity|exact Hne|exact Hnet].
Qed.

Lemma investor_score_ratio_needs_net_buying_witness :
  investor_dict_empty Examples.institutions_buying = false /\
  (iget Examples.institutions_buying "institution_net_buy" >? Fin 0)%F = true /\
  fst (calculate_investor_score
         (Some (with_field Examples.institutions_buying "foreign_ratio" (Fin 9))) (Fin 12))
  = fst (calculate_investor_score (Some Examples.institutions_buying) (Fin 12)).
Proof.
  assert (Hne : investor_dict_empty Examples.institutions_buying = false)
    by (vm_compute; reflexivity).
  assert (Hf : (iget Examples.institutions_buying "foreign_net_buy" >? Fin 0)%F = false)
    by (vm_compute; reflexivity).
  split; [exact Hne|]. split; [vm_compute; reflexivity|].
  exact (proj1 (investor_score_ratio_needs_net_buying Examples.institutions_buying (Fin 9)
                  (Fin 12) Hne) Hf).
Defined.

(** ** The relative-strength score *)

Lemma rs_half_zero (x y : pyfloat) (full : Q) :
  0 < full -> isnan x = false -> isnan y = false -> ~ same_infinity x y ->
  (x >? y)%F = false -> rs_half (x - y)%F (Fin full) = Fin 0.
Proof.
  intros Hfull Hx Hy Hs Hgt.
  assert (Hz : Qzero full = false).
  { unfold Qzero. destruct (Qeq_bool full 0) eqn:E; [|reflexivity].
    apply Qeq_bool_iff in E. lra. }
  assert (Hn : Qltb full 0 = false) by (apply Qltb_ge; lra).
  destruct x as [a| | |], y as [b| | |]; try discriminate;
    try (exfalso; apply Hs; unfold same_infinity; tauto);
    try (vm_compute in Hgt; discriminate).
  - unfold fgt, flt in Hgt. apply Qltb_ge in Hgt.
    unfold rs_half, fsub, fneg. cbn [fadd fdiv]. rewrite Hz.
    set (u := Qred (Qred (a + Qred (- b)) / full)).
    assert (Hu : u <= 0).
    { subst u. repeat rewrite Qred_correct. apply Qdiv_le_l; [exact Hfull|]. lra. }
    unfold pymax, fgt, flt.
    destruct (Qltb u 0) eqn:E.
    + vm_compute. reflexivity.
    + apply Qltb_ge in E. unfold pymin, flt.
      assert (E1 : Qltb 1 u = false) by (apply Qltb_ge; lra).
      rewrite E1. cbn [fmul]. f_equal.
      change 0 with (Qred 0). apply Qred_complete. lra.
  - unfold rs_half, fsub, fneg. cbn [fadd fdiv]. rewrite Hn. vm_compute. reflexivity.
  - unfold rs_half, fsub, fneg. cbn [fadd fdiv]. rewrite Hn. vm_compute. reflexivity.
  - unfold rs_half, fsub, fneg. cbn [fadd fdiv]. rewrite Hn. vm_compute. reflexivity.
Qed.

Lemma rs_half_full (a b full : Q) :
  0 < full -> full <= a - b -> rs_half (Fin a - Fin b)%F (Fin full) = Fin (25 # 2).
Proof.
  intros Hfull H.
  assert (Hz : Qzero full = false).
  { unfold Qzero. destruct (Qeq_bool full 0) eqn:E; [|reflexivity].
    apply Qeq_bool_iff in E. lra. }
  unfold rs_half, fsub, fneg. cbn [fadd fdiv]. rewrite Hz.
  set (u := Qred (Qred (a + Qred (- b)) / full)).
  assert (Hu : 1 <= u).
  { subst u. repeat rewrite Qred_correct. apply Qdiv_le_r; [exact Hfull|]. lra. }
  unfold pymax, fgt, flt.
  assert (E0 : Qltb u 0 = false) by (apply Qltb_ge; lra).
  rewrite E0. unfold pymin, flt.
  destruct (Qltb 1 u) eqn:E.
  - vm_compute. reflexivity.
  - apply Qltb_ge in E. cbn [fmul]. f_equal.
    change (25 # 2) with (Qred (1 * 12.5)). apply Qred_complete.
    assert (Eu : u == 1) by lra. rewrite Eu. reflexivity.
Qed.

(** X4. An instrument whose 13-week and 26-week returns do not exceed
    the benchmark's gets a relative-strength score of exactly 0 (the
    returns of both not being the same infinity). *)
Theorem calculate_rs_score_lagging (stock_data market_data : DataFrame)
  (stock_latest market_latest : row) :
  spread_defined stock_data market_data ->
  last (rows stock_data) = Some stock_latest ->
  last (rows market_data) = Some market_latest ->
  (Return_13W stock_latest >? Return_13W market_latest)%F = false ->
  (Return_26W stock_latest >? Return_26W market_latest)%F = false ->
  fst (calculate_rs_score stock_data market_data) = Fin 0.
Proof.
  intros Hd Hs Hm H13 H26.
  destruct (Hd _ _ Hs Hm) as [D13 D26].
  unfold calculate_rs_score. rewrite Hs, Hm.
  destruct (has_col stock_data "Return_13W" && has_col market_data "Return_13W");
    destruct (has_col stock_data "Return_26W" && has_col market_data "Return_26W");
    destruct (isnan (Return_13W stock_latest)) eqn:N1;
    destruct (isnan (Return_13W market_latest)) eqn:N2;
    destruct (isnan (Return_26W stock_latest)) eqn:N3;
    destruct (isnan (Return_26W market_latest)) eqn:N4;
    cbn [negb andb fst];
    rewrite ?(rs_half_zero _ _ 0.2 ltac:(reflexivity) N1 N2 D13 H13),
            ?(rs_half_zero _ _ 0.3 ltac:(reflexivity) N3 N4 D26 H26);
    vm_compute; reflexivity.
Qed.

Lemma calculate_rs_score_lagging_witness :
  fst (calculate_rs_score (Examples.returns_frame (Fin 0.05) (Fin (-0.1)))
         (Examples.returns_frame (Fin 0.08) (Fin 0.02))) = Fin 0.
Proof.
  apply (calculate_rs_score_lagging _ _ (Examples.returns_row (Fin 0.05) (Fin (-0.1)))
           (Examples.returns_row (Fin 0.08) (Fin 0.02))).
  - intros s m Hs Hm. injection Hs as <-. injection Hm as <-.
    split; intros [[H _]|[H _]]; discriminate.
  - reflexivity.
  - reflexivity.
  - vm_compute. reflexivity.
  - vm_compute. reflexivity.
Defined.

(** X5. An instrument that beats the benchmark by at least 20 points
    of return over 13 weeks and by at least 30 points over 26 weeks
    gets the full 25 points. *)
Theorem calculate_rs_score_saturates (stock_data market_data : DataFrame)
  (stock_latest market_latest : row) (s13 m13 s26 m26 : Q) :
  last (rows stock_data) = Some stock_latest ->
  last (rows market_data) = Some market_latest ->
  has_col stock_data "Return_13W" = true -> has_col market_data "Return_13W" = true ->
  has_col stock_data "Return_26W" = true -> has_col market_data "Return_26W" = true ->
  Return_13W stock_latest = Fin s13 -> Return_13W market_latest = Fin m13 ->
  Return_26W stock_latest = Fin s26 -> Return_26W market_latest = Fin m26 ->
  0.2 <= s13 - m13 -> 0.3 <= s26 - m26 ->
  fst (calculate_rs_score stock_data market_data) = Fin 25.
Proof.
  intros Hs Hm C1 C2 C3 C4 E1 E2 E3 E4 H13 H26.
  unfold calculate_rs_score. rewrite Hs, Hm, C1, C2, C3, C4, E1, E2, E3, E4.
  cbn [isnan negb andb fst].
  rewrite (rs_half_full s13 m13 0.2 ltac:(reflexivity) H13),
          (rs_half_full s26 m26 0.3 ltac:(reflexivity) H26).
  vm_compute. reflexivity.
Qed.

Lemma calculate_rs_score_saturates_witness :
  fst (calculate_rs_score (Examples.returns_frame (Fin 0.3) (Fin 0.5))
         (Examples.returns_frame (Fin 0.05) (Fin 0.1))) = Fin 25.
Proof.
  apply (calculate_rs_score_saturates _ _ (Examples.returns_row (Fin 0.3) (Fin 0.5))
           (Examples.returns_row (Fin 0.05) (Fin 0.1)) 0.3 0.05 0.5 0.1);
    try reflexivity; vm_compute; discriminate.
Defined.

(** ** The fundamental score and the records of the tiers *)

Lemma default_Some {A} (d a : A) : default d (Some a) = a.
Proof. reflexivity. Qed.

Lemma default_None {A} (d : A) : default d None = d.
Proof. reflexivity. Qed.

Section FundamentalComposition.

Variable float_of_str : string -> option pyfloat.

Lemma fnum_insert_ne (fd : gmap string pyval) (k k' : string) (v : pyval) :
  k <> k' -> fnum float_of_str (<[k := v]> fd) k' = fnum float_of_str fd k'.
Proof. intros H. unfold fnum. rewrite lookup_insert_ne by exact H. reflexivity. Qed.

Lemma has_key_insert_ne (fd : gmap string pyval) (k k' : string) (v : pyval) :
  k <> k' -> has_key (<[k := v]> fd) k' = has_key fd k'.
Proof. intros H. unfold has_key. rewrite lookup_insert_ne by exact H. reflexivity. Qed.

(** The score of a non-empty record: the total of the branch chosen by
    its source tag, rounded and capped. *)
Lemma fundamental_score_fst (fd : gmap string pyval) :
  fd <> ∅ ->
  fst (calculate_fundamental_score float_of_str (Some fd))
  = pymin (pyround 1
             (fst (fundamental_total float_of_str fd
                     (default (default (VStr "unknown") (fd !! "data_source"))
                        (fd !! "source")))))
      (Fin 30).
Proof.
  intros H. unfold calculate_fundamental_score.
  rewrite (bool_decide_eq_false_2 (fd = ∅)) by exact H.
  destruct (fundamental_total _ _ _). reflexivity.
Qed.

Lemma fundamental_total_tag (fd : gmap string pyval) (t ds : pyval) :
  fundamental_total float_of_str (<["data_source" := t]> fd) ds
  = fundamental_total float_of_str fd ds.
Proof.
  unfold fundamental_total, scores_f_data_fundamental, scores_f_data_financial, scores_full.
  rewrite !fnum_insert_ne, !has_key_insert_ne by discriminate. reflexivity.
Qed.

(** A record that carries ['source'] is scored alike with and without
    a tier tag. *)
Lemma calculate_fundamental_score_tag (fd : gmap string pyval) (v t : pyval) :
  fd !! "source" = Some v ->
  calculate_fundamental_score float_of_str (Some (<["data_source" := t]> fd))
  = calculate_fundamental_score float_of_str (Some fd).
Proof.
  intros Hs. unfold calculate_fundamental_score.
  rewrite (bool_decide_eq_false_2 (fd = ∅))
    by (intros ->; rewrite lookup_empty in Hs; discriminate).
  rewrite (bool_decide_eq_false_2 (<["data_source" := t]> fd = ∅)) by apply insert_non_empty.
  rewrite (lookup_insert_ne fd "data_source" "source") by discriminate.
  rewrite Hs, !default_Some, fundamental_total_tag.
  destruct (fundamental_total float_of_str fd v) as [total scores].
  rewrite !fnum_insert_ne, !lookup_insert_ne by discriminate. reflexivity.
Qed.

(** X6. The key ['source'] takes precedence over ['data_source']: for
    a record that carries ['source'], the tier tag written under
    ['data_source'] changes neither the score nor the details, and the
    details report the value of ['source'] as the data source. *)
Theorem fundamental_score_source_shadows_tag (fd : gmap string pyval) (v t : pyval) :
  fd !! "source" = Some v ->
  calculate_fundamental_score float_of_str (Some (<["data_source" := t]> fd))
  = calculate_fundamental_score float_of_str (Some fd) /\
  dget (snd (calculate_fundamental_score float_of_str (Some (<["data_source" := t]> fd))))
    "data_source" = Some v.
Proof.
  intros Hs. split; [apply (calculate_fundamental_score_tag fd v t Hs)|].
  rewrite (calculate_fundamental_score_tag fd v t Hs).
  unfold calculate_fundamental_score.
  rewrite (bool_decide_eq_false_2 (fd = ∅))
    by (intros ->; rewrite lookup_empty in Hs; discriminate).
  rewrite Hs, default_Some.
  destruct (fundamental_total float_of_str fd v) as [total scores]. reflexivity.
Qed.

(** The branch of a record that is not tagged as a snapshot record,
    has no ['debt_ratio'] and has ['per']: the valuation multiples. *)
Lemma fundamental_total_valuation (fd : gmap string pyval) (ds : pyval) :
  is_str ds "f_data_fundamental" = false -> is_str ds "f_data_financial" = false ->
  has_key fd "debt_ratio" = false -> has_key fd "per" = true ->
  fst (fundamental_total float_of_str fd ds)
  = let per := fnum float_of_str fd "per" in
    let pbr := fnum float_of_str fd "pbr" in
    let dividend_yield := fnum float_of_str fd "dividend_yield" in
    if feq per (Fin 0) && feq pbr (Fin 0) && feq dividend_yield (Fin 0) then Fin 5
    else sum_values (scores_valuation per pbr dividend_yield).
Proof.
  intros H1 H2 H3 H4. unfold fundamental_total. rewrite H1, H2, H3, H4.
  rewrite andb_false_r. cbn [orb].
  destruct (feq _ _ && feq _ _ && feq _ _); reflexivity.
Qed.

(** X7. A fundamentals entry of the snapshot, as [_load_f_data] files
    it, is returned by [get_f_data_fundamental] with the tag
    ['f_data_fundamental']; its score comes from the valuation
    multiples alone (the entry's own ['source'] selects the generic
    branch), so the entry's ROE has no influence on it. *)
Theorem snapshot_fundamentals_score_ignores_roe
  (f_data_cache : gmap string (gmap string pyval))
  (code market ticker : string) (stock : gmap string pyval) (roe : pyval) :
  f_data_cache !! ("fundamental_" ++ zfill 6 code)%string
  = Some (fundamental_entry market ticker stock) ->
  exists r,
    get_f_data_fundamental f_data_cache code = Some r /\
    tag r = Some (VStr "f_data_fundamental") /\
    fst (calculate_fundamental_score float_of_str (Some (<["roe" := roe]> r)))
    = fst (calculate_fundamental_score float_of_str (Some r)).
Proof.
  intros H. unfold get_f_data_fundamental. rewrite H. eexists.
  split; [reflexivity|]. split; [unfold tag; apply lookup_insert_eq|].
  set (e := fundamental_entry market ticker stock).
  assert (Hsrc : e !! "source" = Some (VStr "fundamental_data_202506")).
  { subst e. unfold fundamental_entry.
    generalize (default (VStr "") (stock !! "종목명")), (default (vint 0) (stock !! "BPS")),
      (default (vint 0) (stock !! "PER")), (default (vint 0) (stock !! "EPS")),
      (default (vint 0) (stock !! "PBR")), (default (vint 0) (stock !! "ROE")).
    intros. vm_compute. reflexivity. }
  assert (Hdebt : has_key e "debt_ratio" = false).
  { subst e. unfold fundamental_entry.
    generalize (default (VStr "") (stock !! "종목명")), (default (vint 0) (stock !! "BPS")),
      (default (vint 0) (stock !! "PER")), (default (vint 0) (stock !! "EPS")),
      (default (vint 0) (stock !! "PBR")), (default (vint 0) (stock !! "ROE")).
    intros. vm_compute. reflexivity. }
  assert (Hper : has_key e "per" = true).
  { subst e. unfold fundamental_entry.
    generalize (default (VStr "") (stock !! "종목명")), (default (vint 0) (stock !! "BPS")),
      (default (vint 0) (stock !! "PER")), (default (vint 0) (stock !! "EPS")),
      (default (vint 0) (stock !! "PBR")), (default (vint 0) (stock !! "ROE")).
    intros. vm_compute. reflexivity. }
  rewrite (insert_insert_ne _ "roe" "data_source") by discriminate.
  rewrite (calculate_fundamental_score_tag (<["roe" := roe]> e)
             (VStr "fundamental_data_202506"))
    by (rewrite lookup_insert_ne by discriminate; exact Hsrc).
  rewrite (calculate_fundamental_score_tag e (VStr "fundamental_data_202506"))
    by exact Hsrc.
  rewrite !fundamental_score_fst
    by first [apply insert_non_empty
             |intros E; rewrite E, lookup_empty in Hsrc; discriminate].
  rewrite (lookup_insert_ne e "roe" "source") by discriminate.
  rewrite Hsrc, !default_Some.
  rewrite !fundamental_total_valuation;
    rewrite ?has_key_insert_ne by discriminate; try assumption; try reflexivity.
Qed.

End FundamentalComposition.

Lemma fundamental_score_source_shadows_tag_witness :
  ({[ "source" := VStr "fundamental_data_202506"; "per" := VNum (Fin 8) ]}
     : gmap string pyval) !! "source" = Some (VStr "fundamental_data_202506") /\
  calculate_fundamental_score Examples.no_float
    (Some (<["data_source" := VStr "f_data_fundamental"]>
             ({[ "source" := VStr "fundamental_data_202506";
                 "per" := VNum (Fin 8) ]} : gmap string pyval)))
  = calculate_fundamental_score Examples.no_float
      (Some ({[ "source" := VStr "fundamental_data_202506";
                "per" := VNum (Fin 8) ]} : gmap string pyval)).
Proof.
  assert (H : ({[ "source" := VStr "fundamental_data_202506"; "per" := VNum (Fin 8) ]}
                 : gmap string pyval) !! "source" = Some (VStr "fundamental_data_202506"))
    by (vm_compute; reflexivity).
  split; [exact H|].
  exact (proj1 (fundamental_score_source_shadows_tag Examples.no_float _
                  (VStr "fundamental_data_202506") (VStr "f_data_fundamental") H)).
Defined.

Lemma snapshot_fundamentals_score_ignores_roe_witness :
  exists r,
    get_f_data_fundamental
      {[ "fundamental_005930" :=
           fundamental_entry "KOSPI" "005930"
             {[ "PER" := VNum (Fin 12.5); "PBR" := VNum (Fin 1.2); "ROE" := VNum (Fin 9.8) ]} ]}
      "5930" = Some r /\
    tag r = Some (VStr "f_data_fundamental") /\
    fst (calculate_fundamental_score Examples.no_float
           (Some (<["roe" := VNum (Fin 30)]> r)))
    = fst (calculate_fundamental_score Examples.no_float (Some r)).
Proof.
  apply (snapshot_fundamentals_score_ignores_roe Examples.no_float _ "5930" "KOSPI" "005930"
           {[ "PER" := VNum (Fin 12.5); "PBR" := VNum (Fin 1.2); "ROE" := VNum (Fin 9.8) ]}
           (VNum (Fin 30))).
  apply lookup_singleton_eq.
Defined.

(** ** What the lower tiers deliver *)

Section TierRecords.

Variable float_of_str : string -> option pyfloat.
Variable int_of_str : string -> option Z.


(** X9. The sector estimates of the last tier score between 15.5
    and 20.2 of the 30 fundamental points, for every code. *)
Theorem default_estimates_score (current_year current_month : Z) (today code : string) :
  within 15.5 20.2
    (fst (calculate_fundamental_score float_of_str
            (Some (_generate_default_financial_data current_year current_month today
                     int_of_str code)))).
Proof.
  unfold _generate_default_financial_data.
  destruct (int_of_str (zfill 6 code)) as [z|].
  - generalize (quarter_label current_month), ("종목" ++ code)%string. intros q c.
    destruct (estimate_sector_cases z) as [-> | [-> | ->]];
      vm_compute; split; discriminate.
  - vm_compute; split; discriminate.
Qed.

End TierRecords.


(** ** The market-multiples tier *)

Section MarketTier.

Variable float_of_str : string -> option pyfloat.

#[local] Abbreviation column row key :=
  (safe_float float_of_str (default (vint 0) (row !! key))).

Ltac result_data_lookup :=
  unfold result_data, initial_result_data; cbv zeta beta;
  repeat match goal with
         | |- context [safe_float ?f ?v] => generalize (safe_float f v); intro
         end;
  repeat match goal with
         | |- context [if ?c then _ else _] => destruct c
         | |- context [match ?m with Some _ => _ | None => _ end] => destruct m
         end;
  vm_compute; reflexivity.

Lemma result_data_per (date : string) (row : gmap string pyval)
  (market_row : option (gmap string pyval)) :
  result_data float_of_str date row market_row !! "per" = Some (VNum (column row "PER")).
Proof. result_data_lookup. Qed.

Lemma result_data_pbr (date : string) (row : gmap string pyval)
  (market_row : option (gmap string pyval)) :
  result_data float_of_str date row market_row !! "pbr" = Some (VNum (column row "PBR")).
Proof. result_data_lookup. Qed.

Lemma result_data_eps (date : string) (row : gmap string pyval)
  (market_row : option (gmap string pyval)) :
  result_data float_of_str date row market_row !! "eps" = Some (VNum (column row "EPS")).
Proof. result_data_lookup. Qed.

Lemma result_data_bps (date : string) (row : gmap string pyval)
  (market_row : option (gmap string pyval)) :
  result_data float_of_str date row market_row !! "bps" = Some (VNum (column row "BPS")).
Proof. result_data_lookup. Qed.

Lemma result_data_dividend_yield (date : string) (row : gmap string pyval)
  (market_row : option (gmap string pyval)) :
  result_data float_of_str date row market_row !! "dividend_yield"
  = Some (VNum (column row "DIV")).
Proof. result_data_lookup. Qed.

Lemma result_data_no_estimate (date : string) (row : gmap string pyval)
  (market_row : option (gmap string pyval)) :
  (column row "EPS" >? Fin 0)%F = false ->
  result_data float_of_str date row market_row !! "roe" = None /\
  result_data float_of_str date row market_row !! "operating_margin" = None.
Proof.
  intros H. unfold result_data, initial_result_data; cbv zeta beta. rewrite H, andb_false_r. cbn [andb].
  split.
  - repeat match goal with
           | |- context [safe_float ?f ?v] => generalize (safe_float f v); intro
           end;
    repeat match goal with
           | |- context [if ?c then _ else _] => destruct c
           | |- context [match ?m with Some _ => _ | None => _ end] => destruct m
           end;
    vm_compute; reflexivity.
  - repeat match goal with
           | |- context [safe_float ?f ?v] => generalize (safe_float f v); intro
           end;
    repeat match goal with
           | |- context [if ?c then _ else _] => destruct c
           | |- context [match ?m with Some _ => _ | None => _ end] => destruct m
           end;
    vm_compute; reflexivity.
Qed.

(** X10. The market-multiples tier contributes the record of
    [get_market_fundamental_data] exactly when the fundamentals table
    has a row for the instrument and one of its five figures (PER, PBR,
    EPS, BPS, dividend yield) is positive.  With a row of the
    capitalisation table alone the function ends in its [except]
    branch: the record is tagged ['error_default'], its market
    capitalisation is 0, and the tier turns it down. *)
Theorem market_tier_needs_positive_figure (date now_date code : string)
  (row market_row : option (gmap string pyval)) :
  method_pykrx
    (fun _ => Returned (Some (get_market_fundamental_data float_of_str date now_date
                                row market_row))) code
  = (if has_positive_figure float_of_str row
     then Some (get_market_fundamental_data float_of_str date now_date row market_row)
     else None) /\
  (row = None -> is_Some market_row ->
   get_market_fundamental_data float_of_str date now_date row market_row !! "source"
   = Some (VStr "error_default") /\
   get_market_fundamental_data float_of_str date now_date row market_row !! "market_cap"
   = Some (vq 0)).
Proof.
  split.
  - destruct row as [row|]; cbn [get_market_fundamental_data].
    + unfold method_pykrx, truthy.
      rewrite (bool_decide_eq_false_2 (result_data float_of_str date row market_row = ∅)).
      2: { intros E. pose proof (result_data_per date row market_row) as Hp.
           rewrite E, lookup_empty in Hp. discriminate. }
      cbn [negb has_meaningful_data pykrx_keys has_positive_figure existsb].
      rewrite result_data_per, result_data_pbr, result_data_eps, result_data_bps,
        result_data_dividend_yield.
      rewrite !default_Some. cbn [positive].
      destruct (column row "PER" >? Fin 0)%F; [reflexivity|].
      destruct (column row "PBR" >? Fin 0)%F; [reflexivity|].
      destruct (column row "EPS" >? Fin 0)%F eqn:Eeps; [reflexivity|].
      destruct (column row "BPS" >? Fin 0)%F; [reflexivity|].
      destruct (result_data_no_estimate date row market_row Eeps) as [-> ->].
      rewrite !default_None. cbn [orb].
      change (positive (vint 0)) with (@Returned bool false). cbv iota.
      destruct (column row "DIV" >? Fin 0)%F; reflexivity.
    + destruct market_row as [market_row|]; vm_compute; reflexivity.
  - intros -> [capitalisation ->]. cbn [get_market_fundamental_data].
    split; vm_compute; reflexivity.
Qed.

End MarketTier.

Lemma market_tier_needs_positive_figure_witness :
  get_market_fundamental_data Examples.no_float "20250604" "20250605" None
    (Some Examples.capitalisation_row) !! "source"
  = Some (VStr "error_default") /\
  method_pykrx
    (fun _ => Returned (Some (get_market_fundamental_data Examples.no_float "20250604"
                                "20250605" None (Some Examples.capitalisation_row)))) "005930"
  = None.
Proof.
  destruct (market_tier_needs_positive_figure Examples.no_float "20250604" "20250605" "005930"
              None (Some Examples.capitalisation_row)) as [H1 H2].
  split; [apply H2; [reflexivity|eexists; reflexivity]|exact H1].
Defined.

(** ** The cache files of the resolver *)

Lemma Qltb_inject_Z (a b c : Z) :
  Qltb (inject_Z a - inject_Z b) (inject_Z c) = (a - b <? c)%Z.
Proof.
  assert (E : inject_Z a - inject_Z b == inject_Z (a - b)).
  { unfold Z.sub. rewrite inject_Z_plus, inject_Z_opp. reflexivity. }
  destruct (Z.ltb_spec (a - b) c) as [H|H].
  - apply Qltb_lt. rewrite E. rewrite <- Zlt_Qlt. exact H.
  - apply Qltb_ge. rewrite E. rewrite <- Zle_Qle. exact H.
Qed.

Lemma cache_save_then_get (now later : Z)
  (store : gmap string (gmap string pyval)) (code : string) (data : gmap string pyval) :
  _get_from_financial_cache later (_save_to_financial_cache now Written store code data) code
  = if (later - now <? seven_days)%Z then Some (<["cached_at" := vint now]> data) else None.
Proof.
  unfold _get_from_financial_cache, _save_to_financial_cache.
  rewrite lookup_insert_eq, lookup_insert_eq. unfold vint.
  rewrite Qltb_inject_Z. reflexivity.
Qed.

(** X11. Writing a record to the cache and reading the code back
    gives the record with its time stamp while less than seven days
    have passed, and nothing from the seventh day on.  However the
    write ends, the entries of other codes are read as before.  A write
    whose [json.dump] fails loses the entry the code had: the file was
    emptied when it was opened. *)
Theorem financial_cache_round_trip (now later : Z)
  (store : gmap string (gmap string pyval)) (code other : string) (data : gmap string pyval)
  (write : file_write) :
  _get_from_financial_cache later (_save_to_financial_cache now Written store code data) code
  = (if (later - now <? seven_days)%Z then Some (<["cached_at" := vint now]> data) else None) /\
  (other <> code ->
   _get_from_financial_cache later (_save_to_financial_cache now write store code data) other
   = _get_from_financial_cache later store other) /\
  _get_from_financial_cache later (_save_to_financial_cache now DumpFails store code data) code
  = None.
Proof.
  split; [apply cache_save_then_get|]. split.
  - intros Hne. unfold _get_from_financial_cache, _save_to_financial_cache.
    destruct write; [rewrite lookup_insert_ne by congruence| |rewrite lookup_delete_ne by congruence];
      reflexivity.
  - unfold _get_from_financial_cache, _save_to_financial_cache.
    rewrite lookup_delete_eq. reflexivity.
Qed.

Lemma financial_cache_round_trip_witness :
  _get_from_financial_cache 1700000000
    (_save_to_financial_cache Examples.day_before DumpFails
       (_save_to_financial_cache Examples.day_before Written ∅ "000660" Examples.name_only)
       "005930" Examples.name_only) "000660"
  = Some (<["cached_at" := vint Examples.day_before]> Examples.name_only).
Proof.
  rewrite (proj1 (proj2 (financial_cache_round_trip Examples.day_before 1700000000
                           (_save_to_financial_cache Examples.day_before Written ∅ "000660"
                              Examples.name_only)
                           "005930" "000660" Examples.name_only DumpFails)))
    by discriminate.
  rewrite (proj1 (financial_cache_round_trip Examples.day_before 1700000000 ∅
                    "000660" "000660" Examples.name_only Written)).
  reflexivity.
Defined.

Section SecondCall.

(** The first call. *)
Variable now : Z.
Variable current_year : Z.
Variable current_month : Z.
Variable today : string.
Variable int_of_str : string -> option Z.
Variable DART_FSS_AVAILABLE : bool.
Variable api_key_set : bool.
Variable f_data_cache : gmap string (gmap string pyval).
Variable standardise_quarterly : string -> gmap string pyval -> outcome (option (gmap string pyval)).
Variable _get_from_specified_json_files : string -> outcome (option (gmap string pyval)).
Variable _get_from_financial_data_folder : string -> outcome (option (gmap string pyval)).
Variable get_dart_fss_financial_data : string -> outcome (option (gmap string pyval)).
Variable get_market_fundamental_data : string -> outcome (option (gmap string pyval)).
Variable _get_from_dart_api : string -> outcome (option (gmap string pyval)).

(** The second call: a later time, and whatever the tiers hold then. *)
Variable later : Z.
Variable current_year' : Z.
Variable current_month' : Z.
Variable today' : string.
Variable int_of_str' : string -> option Z.
Variable DART_FSS_AVAILABLE' : bool.
Variable api_key_set' : bool.
Variable f_data_cache' : gmap string (gmap string pyval).
Variable standardise_quarterly' : string -> gmap string pyval -> outcome (option (gmap string pyval)).
Variable _get_from_specified_json_files' : string -> outcome (option (gmap string pyval)).
Variable _get_from_financial_data_folder' : string -> outcome (option (gmap string pyval)).
Variable get_dart_fss_financial_data' : string -> outcome (option (gmap string pyval)).
Variable get_market_fundamental_data' : string -> outcome (option (gmap string pyval)).
Variable _get_from_dart_api' : string -> outcome (option (gmap string pyval)).
Variable cache_write' : file_write.

#[local] Abbreviation first_call :=
  (get_financial_statement now current_year current_month today int_of_str
     DART_FSS_AVAILABLE api_key_set f_data_cache standardise_quarterly
     _get_from_specified_json_files _get_from_financial_data_folder
     get_dart_fss_financial_data get_market_fundamental_data _get_from_dart_api Written).

#[local] Abbreviation second_call :=
  (get_financial_statement later current_year' current_month' today' int_of_str'
     DART_FSS_AVAILABLE' api_key_set' f_data_cache' standardise_quarterly'
     _get_from_specified_json_files' _get_from_financial_data_folder'
     get_dart_fss_financial_data' get_market_fundamental_data' _get_from_dart_api'
     cache_write').

(** X12. After a call that went through the tiers and wrote its
    record to the cache, a call for the same code less than seven days
    later returns that record with its time stamp and leaves the cache
    as it is, whatever the tiers hold by then. *)
Theorem second_call_served_from_cache
  (store : gmap string (gmap string pyval)) (code : string) (force_update : bool) :
  force_update = true \/ _get_from_financial_cache now store (zfill 6 code) = None ->
  (later - now < seven_days)%Z ->
  exists data,
    fst (first_call store code force_update) = Some data /\
    second_call (snd (first_call store code force_update)) code false
    = (Some (<["cached_at" := vint now]> data), snd (first_call store code force_update)).
Proof.
  intros Hmiss Hfresh.
  destruct (resolve_chain_usable current_year current_month today int_of_str
              DART_FSS_AVAILABLE api_key_set f_data_cache standardise_quarterly
              _get_from_specified_json_files _get_from_financial_data_folder
              get_dart_fss_financial_data get_market_fundamental_data _get_from_dart_api
              (zfill 6 code)) as (r & Hr & Hne).
  assert (E : first_call store code force_update
              = (Some r, _save_to_financial_cache now Written store (zfill 6 code) r)).
  { unfold get_financial_statement.
    assert (Ec : (if force_update then None
                  else _get_from_financial_cache now store (zfill 6 code)) = None).
    { destruct Hmiss as [-> | ->]; [reflexivity|destruct force_update; reflexivity]. }
    rewrite Ec, truthy_None, Hr.
    unfold truthy. rewrite bool_decide_eq_false_2 by exact Hne. reflexivity. }
  exists r. rewrite E. cbn [fst snd]. split; [reflexivity|].
  apply cache_hit_statement.
  rewrite cache_save_then_get.
  apply Z.ltb_lt in Hfresh. rewrite Hfresh. reflexivity.
Qed.

(** X13. [get_financial_statement] never answers [None] and never
    an empty record: a fresh cache entry or one of the tiers, at last
    the sector estimates, delivers. *)
Theorem get_financial_statement_answers
  (store : gmap string (gmap string pyval)) (code : string) (force_update : bool) :
  exists r, fst (second_call store code force_update) = Some r /\ r <> ∅.
Proof.
  destruct force_update.
  - rewrite cache_miss_statement by (left; reflexivity). apply resolve_chain_usable.
  - destruct (_get_from_financial_cache later store (zfill 6 code)) as [data|] eqn:E.
    + rewrite (cache_hit_statement _ _ _ _ _ _ _ _ _ _ _ _ _ _ _ _ _ _ E).
      exists data. split; [reflexivity|]. exact (cache_entry_nonempty _ _ _ _ E).
    + rewrite cache_miss_statement by (right; exact E). apply resolve_chain_usable.
Qed.

(** X14. Codes are padded to six characters before anything else: a
    code and its padded form are resolved alike, tier by tier and in
    the cache. *)
Theorem get_financial_statement_normalises_code
  (store : gmap string (gmap string pyval)) (code : string) (force_update : bool) :
  second_call store code force_update = second_call store (zfill 6 code) force_update /\
  (6 <= String.length (zfill 6 code))%nat.
Proof.
  split; [|apply zfill_length].
  unfold get_financial_statement. rewrite zfill_idempotent. reflexivity.
Qed.

End SecondCall.

Lemma second_call_served_from_cache_witness :
  exists data,
    fst (Examples.resolve Examples.day_before ∅ ∅ "5930" false) = Some data /\
    Examples.resolve 1700000000 Examples.snapshot
      (snd (Examples.resolve Examples.day_before ∅ ∅ "5930" false)) "5930" false
    = (Some (<["cached_at" := vint Examples.day_before]> data),
       snd (Examples.resolve Examples.day_before ∅ ∅ "5930" false)).
Proof.
  apply second_call_served_from_cache.
  - right. vm_compute. reflexivity.
  - vm_compute. reflexivity.
Defined.

(** ** A quarterly entry without a usable quarter *)

Section QuarterlyEntry.

Variable float_of_str : string -> option pyfloat.
Variable now : Z.
Variable current_year : Z.
Variable current_month : Z.
Variable today : string.
Variable int_of_str : string -> option Z.
Variable DART_FSS_AVAILABLE : bool.
Variable api_key_set : bool.
Variable f_data_cache : gmap string (gmap string pyval).
Variable standardise_quarterly : string -> gmap string pyval -> outcome (option (gmap string pyval)).
Variable _get_from_specified_json_files : string -> outcome (option (gmap string pyval)).
Variable _get_from_financial_data_folder : string -> outcome (option (gmap string pyval)).
Variable get_dart_fss_financial_data : string -> outcome (option (gmap string pyval)).
Variable get_market_fundamental_data : string -> outcome (option (gmap string pyval)).
Variable _get_from_dart_api : string -> outcome (option (gmap string pyval)).
Variable cache_write : file_write.

#[local] Abbreviation statement :=
  (get_financial_statement now current_year current_month today int_of_str
     DART_FSS_AVAILABLE api_key_set f_data_cache standardise_quarterly
     _get_from_specified_json_files _get_from_financial_data_folder
     get_dart_fss_financial_data get_market_fundamental_data _get_from_dart_api
     cache_write).


End QuarterlyEntry.


(** ** Filling the gaps of a price column *)

(** [s'] keeps every value of [s]. *)
#[local] Abbreviation keeps :=
  (Forall2 (fun a b : option Q => a = None \/ b = a)).

Lemma ffill_from_keeps (prev : option Q) (s : list (option Q)) : keeps s (ffill_from prev s).
Proof.
  revert prev. induction s as [|[x|] r IH]; intros prev; simpl.
  - constructor.
  - constructor; [right; reflexivity|apply IH].
  - constructor; [left; reflexivity|apply IH].
Qed.

Lemma keeps_trans (s s1 s2 : list (option Q)) : keeps s s1 -> keeps s1 s2 -> keeps s s2.
Proof.
  intros H. revert s2. induction H as [|a b s s1 Hab _ IH]; intros s2 H2.
  - inversion H2. constructor.
  - inversion H2 as [|b' c s1' s2' Hbc H2']; subst. constructor; [|apply IH, H2'].
    destruct Hab as [-> | ->]; [left; reflexivity|].
    destruct Hbc as [-> | ->]; [left; reflexivity|right; reflexivity].
Qed.

Lemma bfill_keeps (s : list (option Q)) : keeps s (bfill s).
Proof.
  unfold bfill. rewrite <- (reverse_involutive s) at 1.
  apply Forall2_reverse, ffill_from_keeps.
Qed.

Lemma ffill_from_Some (p : Q) (s : list (option Q)) :
  Forall is_Some (ffill_from (Some p) s).
Proof.
  revert p. induction s as [|[x|] r IH]; intros p; simpl; constructor; eauto.
Qed.

Lemma ffill_from_after_value (prev : option Q) (a b : list (option Q)) (x : Q) :
  Forall is_Some a -> Forall is_Some (ffill_from prev (a ++ Some x :: b)).
Proof.
  intros Ha. destruct a as [|[y|] a']; simpl.
  - constructor; [eauto|apply ffill_from_Some].
  - constructor; [eauto|apply ffill_from_Some].
  - inversion Ha as [|? ? [z Hz] _]. discriminate Hz.
Qed.

(** After [ffill] a column is a run of gaps followed by values only. *)
Lemma ffill_shape (s : list (option Q)) :
  Forall (eq None) s \/
  exists k x r, ffill s = replicate k None ++ Some x :: r /\ Forall is_Some r.
Proof.
  unfold ffill. induction s as [|[x|] r IH].
  - left. constructor.
  - right. exists 0%nat, x, (ffill_from (Some x) r). split; [reflexivity|].
    apply ffill_from_Some.
  - destruct IH as [IH|(k & x & t & E & Ht)].
    + left. constructor; [reflexivity|exact IH].
    + right. exists (S k), x, t. simpl. rewrite E. split; [reflexivity|exact Ht].
Qed.

(** X16. Filling a price column forward and then backward keeps its
    length and every value it had, and leaves no gap as soon as the
    column has one value. *)
Theorem fill_gaps_fills (s : list (option Q)) :
  length (fill_gaps s) = length s /\
  (forall i x, s !! i = Some (Some x) -> fill_gaps s !! i = Some (Some x)) /\
  ((exists i x, s !! i = Some (Some x)) -> Forall is_Some (fill_gaps s)).
Proof.
  assert (Hk : keeps s (fill_gaps s)).
  { unfold fill_gaps. eapply keeps_trans; [apply ffill_from_keeps|apply bfill_keeps]. }
  split; [symmetry; exact (Forall2_length _ _ _ Hk)|]. split.
  - intros i x Hi.
    destruct (Forall2_lookup_l _ _ _ _ _ Hk Hi) as (b & Hb & [H | ->]);
      [discriminate H|exact Hb].
  - intros (i & x & Hi). unfold fill_gaps, bfill.
    destruct (ffill_shape s) as [Hn|(k & y & r & E & Hr)].
    + rewrite Forall_forall in Hn.
      assert (Hin : Some x ∈ s) by (eapply list_elem_of_lookup_2; exact Hi).
      specialize (Hn _ Hin). discriminate Hn.
    + rewrite E, reverse_app, reverse_cons, <- app_assoc. simpl.
      apply Forall_reverse. unfold ffill.
      apply ffill_from_after_value, Forall_reverse, Hr.
Qed.

Lemma fill_gaps_fills_witness :
  (exists i x, Examples.gappy_column !! i = Some (Some x)) /\
  Forall is_Some (fill_gaps Examples.gappy_column).
Proof.
  assert (H : exists i x, Examples.gappy_column !! i = Some (Some x))
    by (exists 1%nat, 100; reflexivity).
  split; [exact H|].
  exact (proj2 (proj2 (fill_gaps_fills Examples.gappy_column)) H).
Defined.

(** ** The indicator frame *)

Lemma Qsum_nonneg (l : list Q) : Forall (fun x => 0 <= x) l -> 0 <= Qsum l.
Proof.
  induction 1 as [|x l Hx _ IH]; simpl; [apply Qle_refl|]. lra.
Qed.

Lemma mean_nonneg (l : list Q) (q : Q) :
  Forall (fun x => 0 <= x) l -> mean l = Fin q -> 0 <= q.
Proof.
  intros Hl. destruct l as [|a l]; [discriminate|].
  unfold mean. intros [= <-]. rewrite Qred_correct.
  apply Qdiv_le_r.
  - change 0 with (inject_Z 0). rewrite <- Zlt_Qlt. simpl length. lia.
  - rewrite Qmult_0_l. exact (Qsum_nonneg _ Hl).
Qed.

Lemma window_Forall {A} (P : A -> Prop) (w i : nat) (l : list A) :
  Forall P l -> Forall P (window w i l).
Proof. intros H. unfold window. apply Forall_drop, Forall_take, H. Qed.

Lemma gain_of_nonneg (d : pyfloat) : 0 <= gain_of d.
Proof.
  destruct d as [d| | |]; simpl; try apply Qle_refl.
  destruct (Qltb 0 d) eqn:E; [apply Qltb_lt in E; lra|apply Qle_refl].
Qed.

Lemma loss_of_nonneg (d : pyfloat) : 0 <= loss_of d.
Proof.
  destruct d as [d| | |]; simpl; try apply Qle_refl.
  destruct (Qltb d 0) eqn:E; [apply Qltb_lt in E; rewrite Qred_correct; lra|apply Qle_refl].
Qed.

Lemma Qzero_false_pos (a : Q) : 0 <= a -> Qzero a = false -> 0 < a.
Proof.
  unfold Qzero. intros Ha E.
  destruct (Qlt_le_dec 0 a) as [H|H]; [exact H|].
  assert (Ez : a == 0) by lra. apply Qeq_bool_iff in Ez. congruence.
Qed.

Lemma rsi_of_range (g l : Q) :
  0 <= g -> 0 <= l ->
  rsi_of (Fin g) (Fin l) = NaN \/ within 0 100 (rsi_of (Fin g) (Fin l)).
Proof.
  intros Hg Hl. unfold rsi_of. cbn [fdiv].
  destruct (Qzero l) eqn:Zl.
  - destruct (Qzero g) eqn:Zg; [left; reflexivity|].
    pose proof (Qzero_false_pos g Hg Zg) as Hp.
    apply Qltb_lt in Hp. unfold Qpos. rewrite Hp.
    right. vm_compute. split; discriminate.
  - right. pose proof (Qzero_false_pos l Hl Zl) as Hp.
    cbn [fadd]. set (v := Qred (1 + Qred (g / l))).
    assert (Hv : 1 <= v).
    { subst v. repeat rewrite Qred_correct.
      assert (0 <= g / l) by (apply Qdiv_le_r; [exact Hp|lra]). lra. }
    cbn [fdiv].
    assert (Zv : Qzero v = false).
    { unfold Qzero. destruct (Qeq_bool v 0) eqn:E; [|reflexivity].
      apply Qeq_bool_iff in E. lra. }
    rewrite Zv. unfold fsub, fneg. cbn [fadd within].
    repeat rewrite Qred_correct.
    assert (H1 : 100 / v <= 100) by (apply Qdiv_le_l; lra).
    assert (H2 : 0 <= 100 / v) by (apply Qdiv_le_r; lra).
    split; lra.
Qed.

(** X17. On every row of the enriched frame the RSI is either NaN
    (no gain and no loss in its window) or a number between 0 and
    100. *)
Theorem calculate_indicators_rsi_range (Qsqrt : Q -> Q) (df : list bar) (i : nat) (r : row) :
  rows (calculate_indicators Qsqrt df) !! i = Some r ->
  RSI r = NaN \/ within 0 100 (RSI r).
Proof.
  intros Hr. apply calculate_indicators_lookup in Hr as (b & Hb & ->).
  assert (Hi : (i < length df)%nat) by (apply lookup_lt_Some in Hb; exact Hb).
  unfold enriched_row, compute_series. cbn [RSI s_gain s_loss].
  assert (Hd : length (diff (map Close df)) = length df).
  { unfold diff. rewrite length_map, length_seq, length_map. reflexivity. }
  unfold rolling_mean.
  rewrite !nthf_rolling by (rewrite length_map, Hd; exact Hi).
  set (gains := window 14 i (map gain_of (diff (map Close df)))).
  set (losses := window 14 i (map loss_of (diff (map Close df)))).
  assert (Hg : Forall (fun x => 0 <= x) gains).
  { apply window_Forall, Forall_map, Forall_true. intros x. apply gain_of_nonneg. }
  assert (Hl : Forall (fun x => 0 <= x) losses).
  { apply window_Forall, Forall_map, Forall_true. intros x. apply loss_of_nonneg. }
  assert (Eg : gains <> []).
  { apply window_nonempty; [lia|rewrite length_map, Hd; exact Hi]. }
  assert (El : losses <> []).
  { apply window_nonempty; [lia|rewrite length_map, Hd; exact Hi]. }
  destruct (mean gains) as [g| | |] eqn:Mg;
    try (destruct gains; [congruence|discriminate Mg]).
  destruct (mean losses) as [l| | |] eqn:Ml;
    try (destruct losses; [congruence|discriminate Ml]).
  apply rsi_of_range; [exact (mean_nonneg _ _ Hg Mg)|exact (mean_nonneg _ _ Hl Ml)].
Qed.

Lemma calculate_indicators_rsi_range_witness :
  exists r, rows Examples.pivot_frame !! 49%nat = Some r /\ within 0 100 (RSI r).
Proof.
  eexists. split; [vm_compute; reflexivity|].
  destruct (calculate_indicators_rsi_range Examples.Qsqrt8 Examples.pivot_series 49 _
              ltac:(vm_compute; reflexivity)) as [H|H].
  - vm_compute in H. discriminate H.
  - exact H.
Defined.

Lemma flt_irrefl (x : pyfloat) : (x <? x)%F = false.
Proof.
  destruct x as [a| | |]; try reflexivity.
  unfold flt. apply Qltb_ge, Qle_refl.
Qed.

Lemma early_rows_share_window (Qsqrt : Q -> Q) (df : list bar) (i : nat) (b : bar) :
  df !! i = Some b ->
  ((i < 60)%nat ->
   MA60 (enriched_row (compute_series Qsqrt df) i b)
   = MA120 (enriched_row (compute_series Qsqrt df) i b)) /\
  ((i < 20)%nat ->
   MA20 (enriched_row (compute_series Qsqrt df) i b)
   = MA60 (enriched_row (compute_series Qsqrt df) i b)).
Proof.
  intros Hb.
  assert (Hi : (i < length (map Close df))%nat)
    by (rewrite length_map; apply lookup_lt_Some in Hb; exact Hb).
  unfold enriched_row, compute_series. cbn [MA20 MA60 MA120 s_ma20 s_ma60 s_ma120].
  unfold rolling_mean. rewrite !nthf_rolling by exact Hi.
  unfold window. split.
  - intros H. replace (i + 1 - 60)%nat with 0%nat by lia.
    replace (i + 1 - 120)%nat with 0%nat by lia. reflexivity.
  - intros H. replace (i + 1 - 20)%nat with 0%nat by lia.
    replace (i + 1 - 60)%nat with 0%nat by lia. reflexivity.
Qed.

(** X18. With fewer rows than the shortest window every window sees
    the same prefix: on the first 20 rows MA20, MA60 and MA120
    coincide, and on the first 60 rows MA60 and MA120 do, so the
    alignment MA20 > MA60 cannot hold on the first 20 rows. *)
Theorem early_moving_averages_coincide (Qsqrt : Q -> Q) (df : list bar) (i : nat) (r : row) :
  rows (calculate_indicators Qsqrt df) !! i = Some r ->
  ((i < 60)%nat -> MA60 r = MA120 r) /\
  ((i < 20)%nat -> MA20 r = MA60 r /\ (MA20 r >? MA60 r)%F = false).
Proof.
  intros Hr. apply calculate_indicators_lookup in Hr as (b & Hb & ->).
  destruct (early_rows_share_window Qsqrt df i b Hb) as [H60 H20].
  split; [exact H60|].
  intros H. split; [exact (H20 H)|]. rewrite (H20 H). unfold fgt. apply flt_irrefl.
Qed.

Lemma early_moving_averages_coincide_witness :
  exists r, rows Examples.pivot_frame !! 10%nat = Some r /\ MA20 r = MA60 r.
Proof.
  eexists. split; [vm_compute; reflexivity|].
  refine (proj1 (proj2 (early_moving_averages_coincide Examples.Qsqrt8 Examples.pivot_series
                          10 _ _) _)).
  - vm_compute. reflexivity.
  - lia.
Defined.

Lemma fold_left_Qmax_init (l : list Q) (a : Q) : a <= fold_left Qmax l a.
Proof.
  revert a. induction l as [|y l IH]; intros a; simpl; [apply Qle_refl|].
  eapply Qle_trans; [apply Q.le_max_l|apply IH].
Qed.

Lemma fold_left_Qmax_ge (l : list Q) (a x : Q) :
  x = a \/ In x l -> x <= fold_left Qmax l a.
Proof.
  revert a. induction l as [|y l IH]; intros a [H|H].
  - subst. apply Qle_refl.
  - destruct H.
  - subst. apply fold_left_Qmax_init.
  - simpl. destruct H as [<-|H].
    + eapply Qle_trans; [apply Q.le_max_r|apply fold_left_Qmax_init].
    + apply IH. right. exact H.
Qed.

Lemma fold_left_Qmin_init (l : list Q) (a : Q) : fold_left Qmin l a <= a.
Proof.
  revert a. induction l as [|y l IH]; intros a; simpl; [apply Qle_refl|].
  eapply Qle_trans; [apply IH|apply Q.le_min_l].
Qed.

Lemma fold_left_Qmin_le (l : list Q) (a x : Q) :
  x = a \/ In x l -> fold_left Qmin l a <= x.
Proof.
  revert a. induction l as [|y l IH]; intros a [H|H].
  - subst. apply Qle_refl.
  - destruct H.
  - subst. apply fold_left_Qmin_init.
  - simpl. destruct H as [<-|H].
    + eapply Qle_trans; [apply fold_left_Qmin_init|apply Q.le_min_r].
    + apply IH. right. exact H.
Qed.

Lemma Qmaximum_ge (l : list Q) (x : Q) :
  In x l -> exists m, Qmaximum l = Fin m /\ x <= m.
Proof.
  destruct l as [|a l]; [intros []|]. intros H. eexists. split; [reflexivity|].
  apply fold_left_Qmax_ge. destruct H as [->|H]; [left; reflexivity|right; exact H].
Qed.

Lemma Qminimum_le (l : list Q) (x : Q) :
  In x l -> exists m, Qminimum l = Fin m /\ m <= x.
Proof.
  destruct l as [|a l]; [intros []|]. intros H. eexists. split; [reflexivity|].
  apply fold_left_Qmin_le. destruct H as [->|H]; [left; reflexivity|right; exact H].
Qed.

(** The row at position [i] is among the rows its window sees. *)
Lemma window_current {A} (w i : nat) (l : list A) (x : A) :
  (1 <= w)%nat -> l !! i = Some x -> In x (window w i l).
Proof.
  intros Hw Hx. unfold window. apply list_elem_of_In.
  apply (list_elem_of_lookup_2 _ (i - (i + 1 - w))).
  rewrite lookup_drop, lookup_take_lt by lia.
  replace (i + 1 - w + (i - (i + 1 - w)))%nat with i by lia. exact Hx.
Qed.

Lemma week52_bounds (Qsqrt : Q -> Q) (df : list bar) (i : nat) (r : row) :
  rows (calculate_indicators Qsqrt df) !! i = Some r ->
  exists lo hi, Low_52W r = Fin lo /\ High_52W r = Fin hi /\ lo <= Low r /\ High r <= hi.
Proof.
  intros Hr. apply calculate_indicators_lookup in Hr as (b & Hb & ->).
  assert (Hi : (i < length df)%nat) by (apply lookup_lt_Some in Hb; exact Hb).
  unfold enriched_row, compute_series.
  cbn [Low_52W High_52W s_low_52w s_high_52w price Low High].
  unfold rolling_max, rolling_min.
  rewrite !nthf_rolling by (rewrite length_map; exact Hi).
  destruct (Qminimum_le (window 252 i (map Low df)) (Low b)) as (lo & Elo & Hlo).
  { apply window_current; [lia|]. rewrite list_lookup_fmap, Hb. reflexivity. }
  destruct (Qmaximum_ge (window 252 i (map High df)) (High b)) as (hi & Ehi & Hhi).
  { apply window_current; [lia|]. rewrite list_lookup_fmap, Hb. reflexivity. }
  exists lo, hi. repeat split; assumption.
Qed.

(** X19. On every row the 52-week low is at most the row's low and
    the 52-week high at least the row's high; on a row whose low does
    not exceed its high the two are in order. *)
Theorem calculate_indicators_52w_bounds (Qsqrt : Q -> Q) (df : list bar) (i : nat) (r : row) :
  rows (calculate_indicators Qsqrt df) !! i = Some r ->
  exists lo hi,
    Low_52W r = Fin lo /\ High_52W r = Fin hi /\ lo <= Low r /\ High r <= hi /\
    (Low r <= High r -> lo <= hi).
Proof.
  intros Hr. destruct (week52_bounds Qsqrt df i r Hr) as (lo & hi & Elo & Ehi & Hlo & Hhi).
  exists lo, hi. repeat (split; [assumption|]). intros H. lra.
Qed.

Lemma calculate_indicators_52w_bounds_witness :
  exists r lo hi,
    rows Examples.pivot_frame !! 49%nat = Some r /\
    Low_52W r = Fin lo /\ High_52W r = Fin hi /\ lo <= Low r /\ High r <= hi.
Proof.
  eexists.
  destruct (calculate_indicators_52w_bounds Examples.Qsqrt8 Examples.pivot_series 49 _
              ltac:(vm_compute; reflexivity)) as (lo & hi & H1 & H2 & H3 & H4 & _).
  exists lo, hi. split; [vm_compute; reflexivity|]. repeat split; assumption.
Defined.

(** ** The pattern detectors *)

Lemma length_tail {A} (n : nat) (l : list A) : length (tail n l) = Nat.min n (length l).
Proof. unfold tail. rewrite length_skipn. lia. Qed.

Lemma iloc_neg_Some {A} (k : nat) (l : list A) :
  (1 <= k <= length l)%nat -> exists x, iloc_neg k l = Some x.
Proof.
  intros [H1 H2]. unfold iloc_neg.
  apply Nat.leb_le in H1 as E1. apply Nat.leb_le in H2 as E2. rewrite E1, E2. cbn [andb].
  destruct (nth_error l (length l - k)) as [x|] eqn:E; [exists x; reflexivity|].
  apply nth_error_None in E. lia.
Qed.

Lemma iloc_neg_None {A} (k : nat) (l : list A) :
  (k = 0 \/ length l < k)%nat -> iloc_neg k l = None.
Proof.
  intros H. unfold iloc_neg.
  destruct (1 <=? k)%nat eqn:E1; [|reflexivity].
  destruct (k <=? length l)%nat eqn:E2; [|reflexivity].
  apply Nat.leb_le in E1, E2. lia.
Qed.

Lemma guard_false (df : DataFrame) (window : nat) :
  empty df || (len df <? window)%nat = false <-> rows df <> [] /\ (window <= len df)%nat.
Proof.
  rewrite orb_false_iff, Nat.ltb_ge. unfold empty.
  destruct (rows df); split; intros [H1 H2]; split; congruence || assumption.
Qed.

Lemma detect_breakout_returns (df : DataFrame) (window consolidation_days : nat)
  (breakout_pct : pyfloat) (e : string) :
  detect_breakout df window consolidation_days breakout_pct <> Raised e.
Proof.
  unfold detect_breakout.
  destruct (empty df || (len df <? window)%nat); [discriminate|].
  destruct (length _ <? consolidation_days + 5)%nat eqn:L; [discriminate|].
  apply Nat.ltb_ge in L.
  destruct (iloc_neg_Some 1 (tail window (rows df))) as [x ->]; [lia|].
  discriminate.
Qed.

Lemma detect_vcp_returns (Qsqrt : Q -> Q) (df : DataFrame) (window : nat)
  (std_threshold : pyfloat) (min_periods : nat) :
  (min_periods <= 20)%nat ->
  exists v, detect_vcp Qsqrt df window std_threshold min_periods = Returned v.
Proof.
  intros H. unfold detect_vcp.
  destruct (empty df || (len df <? window)%nat); [eexists; reflexivity|].
  destruct (20 <? min_periods)%nat eqn:M; [apply Nat.ltb_lt in M; lia|].
  destruct (length _ <? 50)%nat; eexists; reflexivity.
Qed.

Lemma detect_pocket_pivot_returns (df : DataFrame) (window min_range : nat)
  (volume_factor : pyfloat) :
  (2 <= window)%nat ->
  exists p, detect_pocket_pivot df window min_range volume_factor = Returned p.
Proof.
  intros H. unfold detect_pocket_pivot.
  destruct (empty df || (len df <? window)%nat) eqn:G; [eexists; reflexivity|].
  apply guard_false in G as [G1 G2].
  assert (Hlen : length (tail window (rows df)) = window).
  { rewrite length_tail. unfold len in G2. lia. }
  destruct (iloc_neg_Some 1 (tail window (rows df))) as [x ->]; [lia|].
  destruct (iloc_neg_Some 2 (tail window (rows df))) as [y ->]; [lia|].
  eexists. reflexivity.
Qed.

(** X20. When the detectors raise.  The contraction detector raises
    exactly on a frame of at least [window] rows with [min_periods]
    above 20 (the rolling window is 20 wide); the pocket-pivot
    detector exactly on a non-empty frame with [window] below 2 (it
    reads the last two rows of the window); the breakout detector
    never.  At the default parameters none of them raises. *)
Theorem detectors_raise_iff (Qsqrt : Q -> Q) (df : DataFrame)
  (vcp_window : nat) (std_threshold : pyfloat) (min_periods : nat)
  (pivot_window min_range : nat) (volume_factor : pyfloat)
  (breakout_window consolidation_days : nat) (breakout_pct : pyfloat) :
  ((exists e, detect_vcp Qsqrt df vcp_window std_threshold min_periods = Raised e)
   <-> rows df <> [] /\ (vcp_window <= len df)%nat /\ (20 < min_periods)%nat) /\
  ((exists e, detect_pocket_pivot df pivot_window min_range volume_factor = Raised e)
   <-> rows df <> [] /\ (pivot_window <= 1)%nat) /\
  (forall e, detect_breakout df breakout_window consolidation_days breakout_pct <> Raised e).
Proof.
  split; [|split].
  - unfold detect_vcp.
    destruct (empty df || (len df <? vcp_window)%nat) eqn:G.
    + split; [intros [e H]; discriminate H|].
      intros (H1 & H2 & _).
      assert (G' : empty df || (len df <? vcp_window)%nat = false)
        by (apply guard_false; split; assumption).
      congruence.
    + apply guard_false in G as [G1 G2].
      destruct (20 <? min_periods)%nat eqn:M.
      * apply Nat.ltb_lt in M. split; [intros _; repeat split; assumption|].
        intros _. eexists. reflexivity.
      * apply Nat.ltb_ge in M.
        split; [|intros (_ & _ & H); lia].
        destruct (length _ <? 50)%nat; intros [e H]; discriminate H.
  - unfold detect_pocket_pivot.
    destruct (empty df || (len df <? pivot_window)%nat) eqn:G.
    + split; [intros [e H]; discriminate H|].
      intros (H1 & H2).
      assert (Hl : (1 <= len df)%nat).
      { unfold len. destruct (rows df); [congruence|simpl; lia]. }
      assert (G' : empty df || (len df <? pivot_window)%nat = false)
        by (apply guard_false; split; [assumption|lia]).
      congruence.
    + apply guard_false in G as [G1 G2].
      assert (Hlen : length (tail pivot_window (rows df)) = pivot_window).
      { rewrite length_tail. unfold len in G2. lia. }
      destruct (Nat.le_gt_cases 2 pivot_window) as [H2|H2].
      * destruct (iloc_neg_Some 1 (tail pivot_window (rows df))) as [x ->]; [lia|].
        destruct (iloc_neg_Some 2 (tail pivot_window (rows df))) as [y ->]; [lia|].
        split; [intros [e H]; discriminate H|intros [_ H]; lia].
      * rewrite (iloc_neg_None 2 (tail pivot_window (rows df))) by lia.
        split; [intros _; split; [assumption|lia]|].
        intros _. destruct (iloc_neg 1 _); eexists; reflexivity.
  - intros e. apply detect_breakout_returns.
Qed.

Lemma nth_error_list_lookup {A} (l : list A) (i : nat) : nth_error l i = l !! i.
Proof. revert i. induction l as [|a l IH]; intros [|i]; simpl; auto. Qed.

Lemma iloc_neg_last {A} (l : list A) : iloc_neg 1 l = last l.
Proof.
  unfold iloc_neg. rewrite last_lookup.
  destruct l as [|a l]; [reflexivity|].
  cbn [Nat.leb length andb]. rewrite nth_error_list_lookup.
  replace (S (length l) - 1)%nat with (length l) by lia. reflexivity.
Qed.

Lemma last_tail {A} (n : nat) (l : list A) : (1 <= n)%nat -> last (tail n l) = last l.
Proof.
  intros Hn. unfold tail. rewrite !last_lookup, length_skipn, lookup_drop.
  destruct l as [|a l]; [reflexivity|]. simpl length.
  f_equal. lia.
Qed.

(** X21. The contraction detector reports a pattern only on a frame
    of at least [window] rows, with at least 50 rows in the window,
    that carries the three moving averages, and only when the latest
    row has close > MA20 > MA60 > MA120. *)
Theorem detect_vcp_requires_alignment (Qsqrt : Q -> Q) (df : DataFrame) (window : nat)
  (std_threshold : pyfloat) (min_periods : nat) (evidence : details) :
  detect_vcp Qsqrt df window std_threshold min_periods = Returned (true, evidence) ->
  (50 <= window <= len df)%nat /\
  has_col df "MA20" = true /\ has_col df "MA60" = true /\ has_col df "MA120" = true /\
  exists latest,
    last (rows df) = Some latest /\
    (Fin (Close latest) >? MA20 latest)%F = true /\
    (MA20 latest >? MA60 latest)%F = true /\
    (MA60 latest >? MA120 latest)%F = true.
Proof.
  unfold detect_vcp.
  destruct (empty df || (len df <? window)%nat) eqn:G; [discriminate|].
  apply guard_false in G as [G1 G2].
  destruct (20 <? min_periods)%nat; [discriminate|].
  destruct (length (tail window (rows df)) <? 50)%nat eqn:L; [discriminate|].
  apply Nat.ltb_ge in L. rewrite length_tail in L.
  intros [= H _]. apply andb_true_iff in H as [_ H].
  destruct (has_col df "MA20" && has_col df "MA60" && has_col df "MA120") eqn:C;
    [|discriminate].
  apply andb_true_iff in C as [C C3]. apply andb_true_iff in C as [C1 C2].
  destruct (last (rows df)) as [latest|]; [|discriminate].
  apply andb_true_iff in H as [H H3]. apply andb_true_iff in H as [H1 H2].
  split; [unfold len in *; lia|].
  repeat (split; [assumption|]).
  exists latest. repeat split; assumption.
Qed.

(** X22. The breakout detector reports a breakout only when the
    latest close is strictly above every high of the consolidation
    span (the [consolidation_days] rows that end five rows before the
    latest) and the latest volume exceeds 1.3 times its 20-period
    average. *)
Theorem detect_breakout_above_resistance (df : DataFrame) (window consolidation_days : nat)
  (breakout_pct : pyfloat) (evidence : details) :
  detect_breakout df window consolidation_days breakout_pct = Returned (true, evidence) ->
  exists latest,
    last (rows df) = Some latest /\
    (forall h,
       In h (slice_neg (consolidation_days + 5) 5
               (map (fun r : row => High r) (tail window (rows df)))) ->
       h < Close latest) /\
    has_col df "Volume_MA20" = true /\
    (Fin (Volume latest) >? Volume_MA20 latest * Fin 1.3)%F = true.
Proof.
  unfold detect_breakout.
  destruct (empty df || (len df <? window)%nat) eqn:G; [discriminate|].
  destruct (length (tail window (rows df)) <? consolidation_days + 5)%nat eqn:L;
    [discriminate|].
  apply Nat.ltb_ge in L.
  assert (Hw : (1 <= window)%nat) by (rewrite length_tail in L; lia).
  rewrite iloc_neg_last, last_tail by exact Hw.
  destruct (last (rows df)) as [latest|]; [|discriminate].
  intros [= H _]. apply andb_true_iff in H as [Hc Hv].
  exists latest. split; [reflexivity|].
  unfold volume_surge in Hv.
  destruct (has_col df "Volume_MA20"); [|discriminate].
  split; [|split; [reflexivity|exact Hv]].
  intros h Hh.
  destruct (Qmaximum_ge _ _ Hh) as (m & Em & Hm).
  rewrite Em in Hc. unfold fgt, flt in Hc. apply Qltb_lt in Hc. lra.
Qed.

(** X23. Two parameters without effect: [min_range] has no part in
    what the pocket-pivot detector returns, and [breakout_pct] none
    in the decision of the breakout detector (it only enters the
    reported ['breakout_level']). *)
Theorem detector_parameters_without_effect (df : DataFrame)
  (window min_range min_range' : nat) (volume_factor : pyfloat)
  (consolidation_days : nat) (breakout_pct breakout_pct' : pyfloat) :
  detect_pocket_pivot df window min_range volume_factor
  = detect_pocket_pivot df window min_range' volume_factor /\
  match detect_breakout df window consolidation_days breakout_pct,
        detect_breakout df window consolidation_days breakout_pct' with
  | Returned (found, _), Returned (found', _) => found = found'
  | _, _ => False
  end.
Proof.
  split; [reflexivity|].
  pose proof (detect_breakout_returns df window consolidation_days breakout_pct) as H1.
  unfold detect_breakout in *.
  destruct (empty df || (len df <? window)%nat); [reflexivity|].
  destruct (length _ <? consolidation_days + 5)%nat; [reflexivity|].
  destruct (iloc_neg 1 _); [reflexivity|].
  exact (H1 _ eq_refl).
Qed.

Lemma detect_vcp_requires_alignment_witness :
  exists evidence latest,
    detect_vcp Examples.Qsqrt8 Examples.contracting_frame 60 (Fin 0.8) 20
    = Returned (true, evidence) /\
    last (rows Examples.contracting_frame) = Some latest /\
    (MA60 latest >? MA120 latest)%F = true.
Proof.
  eexists.
  destruct (detect_vcp_requires_alignment Examples.Qsqrt8 Examples.contracting_frame 60
              (Fin 0.8) 20 _ ltac:(vm_compute; reflexivity))
    as (_ & _ & _ & _ & latest & Hl & _ & _ & H).
  exists latest. split; [vm_compute; reflexivity|]. split; assumption.
Defined.

Lemma detect_breakout_above_resistance_witness :
  exists evidence latest,
    detect_breakout Examples.breakout_frame 60 20 (Fin 3.0) = Returned (true, evidence) /\
    last (rows Examples.breakout_frame) = Some latest /\
    (Fin (Volume latest) >? Volume_MA20 latest * Fin 1.3)%F = true.
Proof.
  eexists.
  destruct (detect_breakout_above_resistance Examples.breakout_frame 60 20 (Fin 3.0) _
              ltac:(vm_compute; reflexivity))
    as (latest & Hl & _ & _ & H).
  exists latest. split; [vm_compute; reflexivity|]. split; assumption.
Defined.

(** ** The collecting loop and the pool *)

Section CollectInvariants.

Variable R : Type.
Variable total_stocks : nat.

Lemma collect_one_counts (st : counters R) (c : completion R) :
  processed_count (collect_one total_stocks st c) = (processed_count st + 1)%nat /\
  (success_count (collect_one total_stocks st c)
   + error_count (collect_one total_stocks st c)
   = success_count st + error_count st + 1)%nat /\
  (length (all_results (collect_one total_stocks st c))
   - success_count (collect_one total_stocks st c)
   = length (all_results st) - success_count st)%nat /\
  (success_count (collect_one total_stocks st c)
   - length (all_results (collect_one total_stocks st c))
   = success_count st - length (all_results st))%nat.
Proof.
  destruct c; cbn [collect_one processed_count success_count error_count all_results];
    rewrite ?length_app; simpl; repeat split; lia.
Qed.

Lemma collect_counts (st : counters R) (futures : list (completion R)) :
  (processed_count st = success_count st + error_count st)%nat ->
  length (all_results st) = success_count st ->
  (processed_count (collect total_stocks st futures)
   = success_count (collect total_stocks st futures)
     + error_count (collect total_stocks st futures))%nat /\
  length (all_results (collect total_stocks st futures))
  = success_count (collect total_stocks st futures) /\
  (processed_count (collect total_stocks st futures)
   <= processed_count st + length futures)%nat.
Proof.
  revert st. induction futures as [|c rest IH]; intros st H1 H2.
  - simpl. repeat split; [assumption|assumption|lia].
  - cbn [collect]. pose proof (collect_one_counts st c) as (P & S & L1 & L2).
    assert (H1' : (processed_count (collect_one total_stocks st c)
                   = success_count (collect_one total_stocks st c)
                     + error_count (collect_one total_stocks st c))%nat) by lia.
    assert (H2' : length (all_results (collect_one total_stocks st c))
                  = success_count (collect_one total_stocks st c)) by lia.
    destruct (aborted (collect_one total_stocks st c)).
    + repeat split; [assumption|assumption|simpl; lia].
    + destruct (IH _ H1' H2') as (A & B & C). repeat split; [assumption|assumption|].
      simpl. lia.
Qed.

End CollectInvariants.

(** X24. The counters of the collecting loop stay consistent, in
    whatever order the tasks complete and whether or not the loop
    stops early: every processed task is counted once, as a success
    or as an error, the successes are the results collected, and no
    more tasks are processed than were submitted. *)
Theorem run_collection_counts (R : Type) (futures : list (completion R)) :
  (processed_count (run_collection futures)
   = success_count (run_collection futures) + error_count (run_collection futures))%nat /\
  length (all_results (run_collection futures)) = success_count (run_collection futures) /\
  (processed_count (run_collection futures) <= length futures)%nat.
Proof.
  unfold run_collection.
  destruct (collect_counts R (length futures) start futures) as (A & B & C);
    [reflexivity|reflexivity|].
  repeat split; assumption.
Qed.

(** X25. Tasks that hand over [None] never stop the run: when no task
    raises, every task is processed, the loop does not stop early, and
    the error count is the number of [None] results, however many
    they are. *)
Theorem none_results_never_stop (R : Type) (futures : list (completion R)) :
  raised futures = 0%nat -> futures <> [] ->
  aborted (run_collection futures) = false /\
  processed_count (run_collection futures) = length futures /\
  error_count (run_collection futures) = failed futures.
Proof.
  intros H0 Hne. unfold run_collection.
  destruct (collect_without_raise R (length futures) start futures H0 Hne) as (A & B & C).
  repeat split; assumption.
Qed.

Lemma none_results_never_stop_witness :
  raised Examples.sixty_none = 0%nat /\
  aborted (run_collection Examples.sixty_none) = false /\
  processed_count (run_collection Examples.sixty_none) = 100%nat.
Proof.
  assert (H0 : raised Examples.sixty_none = 0%nat) by (vm_compute; reflexivity).
  assert (Hne : Examples.sixty_none <> []) by (vm_compute; discriminate).
  destruct (none_results_never_stop unit Examples.sixty_none H0 Hne) as (A & B & _).
  split; [exact H0|]. split; [exact A|exact B].
Defined.

(** ** The trend score on a short history *)

Lemma last_enriched (Qsqrt : Q -> Q) (df : list bar) (latest : row) :
  last (rows (calculate_indicators Qsqrt df)) = Some latest ->
  exists b,
    last df = Some b /\ df !! (length df - 1)%nat = Some b /\
    latest = enriched_row (compute_series Qsqrt df) (length df - 1) b.
Proof.
  rewrite last_lookup. fold (len (calculate_indicators Qsqrt df)).
  rewrite calculate_indicators_len. intros H.
  replace (Init.Nat.pred (length df)) with (length df - 1)%nat in H by lia.
  apply calculate_indicators_lookup in H as (b & Hb & ->).
  exists b. split; [|split; [exact Hb|reflexivity]].
  rewrite last_lookup. replace (Init.Nat.pred (length df)) with (length df - 1)%nat by lia.
  exact Hb.
Qed.

(** X26. An instrument with fewer than 20 periods of history gets at
    most 9 of the 25 trend points: its moving averages coincide, so
    the alignment component gives at most 3, and the slope and volume
    components are not computed; what remains is the position above
    the 52-week low. *)
Theorem short_history_trend_score (Qsqrt : Q -> Q) (df : list bar) :
  (length df < 20)%nat ->
  within 0 9 (fst (calculate_trend_score (calculate_indicators Qsqrt df))).
Proof.
  intros Hlen. unfold calculate_trend_score.
  destruct (last (rows (calculate_indicators Qsqrt df))) as [latest|] eqn:El;
    [|simpl; lra].
  rewrite calculate_indicators_len.
  assert (En : (20 <=? length df)%nat = false) by (apply Nat.leb_gt; exact Hlen).
  rewrite En.
  destruct (last_enriched Qsqrt df latest El) as (b & _ & Hb & E).
  assert (Ha : (0 <= ma_alignment_score latest <= 3)%Z).
  { unfold ma_alignment_score.
    destruct (early_rows_share_window Qsqrt df (length df - 1) b Hb) as [_ H20].
    assert (Hi : (length df - 1 < 20)%nat) by lia.
    rewrite E, (H20 Hi).
    set (m := MA60 (enriched_row (compute_series Qsqrt df) (length df - 1) b)).
    assert (F : (m >? m)%F = false) by (unfold fgt; apply flt_irrefl).
    rewrite F.
    match goal with |- context [if ?c then _ else _] => destruct c end; lia. }
  pose proof (within_sixths 0 3 _ Ha) as H1.
  pose proof (within_sixths 0 6 _ (long_trend_points_range
    (Fin (Close latest) / Low_52W latest)%F)) as H3.
  set (c1 := (fz (ma_alignment_score latest) / Fin 6 * Fin 6)%F) in *.
  set (c3 := (fz (long_trend_points _) / Fin 6 * Fin 6)%F) in *.
  clearbody c1 c3.
  fin_cases H1 c1; fin_cases H3 c3.
  unfold inject_Z in *.
  repeat match goal with |- context [if ?c then _ else _] => destruct c end;
    cbn [fst]; apply (within_pyround 1 0 90); try reflexivity;
    cbn [within fadd]; repeat rewrite Qred_correct; lra.
Qed.

Lemma short_history_trend_score_witness :
  (length (Examples.flat_series 10) < 20)%nat /\
  within 0 9 (fst (calculate_trend_score (Examples.flat_frame 10))).
Proof.
  assert (H : (length (Examples.flat_series 10) < 20)%nat) by (vm_compute; lia).
  split; [exact H|].
  exact (short_history_trend_score Examples.Qsqrt8 (Examples.flat_series 10) H).
Defined.

(** ** One instrument through the pipeline *)








Lemma position_in_range_bounds (c lo hi : Q) :
  lo <= c -> c <= hi -> within 0 100 (position_in_range (Fin c) (Fin hi) (Fin lo)).
Proof.
  intros H1 H2. unfold position_in_range.
  destruct (Fin hi >? Fin lo)%F eqn:E; [|simpl; lra].
  unfold fgt, flt in E. apply Qltb_lt in E.
  unfold fsub, fneg. cbn [fadd fdiv].
  set (y := Qred (hi + Qred (- lo))). set (x := Qred (c + Qred (- lo))).
  assert (Hy : 0 < y) by (subst y; repeat rewrite Qred_correct; lra).
  assert (Hx : 0 <= x /\ x <= y) by (subst x y; repeat rewrite Qred_correct; lra).
  assert (Zy : Qzero y = false).
  { unfold Qzero. destruct (Qeq_bool y 0) eqn:Ez; [|reflexivity].
    apply Qeq_bool_iff in Ez. lra. }
  rewrite Zy. cbn [fmul within]. repeat rewrite Qred_correct.
  assert (A : 0 <= x / y) by (apply Qdiv_le_r; [exact Hy|lra]).
  assert (B : x / y <= 1) by (apply Qdiv_le_l; [exact Hy|lra]).
  split; lra.
Qed.

Section ProcessProperties.

Variable Qsqrt : Q -> Q.
Variable float_of_str : string -> option pyfloat.
Variable get_stock_price : string -> option (list bar).
Variable get_financial_statement : string -> outcome (option (gmap string pyval)).
Variable get_investor_data : string -> outcome (option investor_dict).
Variable now : string.

#[local] Abbreviation process :=
  (process_single_stock Qsqrt float_of_str get_stock_price get_financial_statement
     get_investor_data now).

(** X27. At their default parameters the detectors never raise: the
    branch of [process_single_stock] that resets all three results to
    "not found" is never taken, and the pattern flags of a result are
    the detectors' own. *)
Theorem detect_patterns_never_resets (df : DataFrame) :
  exists vcp_result pivot_result breakout_result,
    detect_vcp Qsqrt df 60 (Fin 0.8) 20 = Returned vcp_result /\
    detect_pocket_pivot df 50 10 (Fin 1.5) = Returned pivot_result /\
    detect_breakout df 60 20 (Fin 3.0) = Returned breakout_result /\
    detect_patterns Qsqrt df = (vcp_result, pivot_result, breakout_result).
Proof.
  destruct (detect_vcp_returns Qsqrt df 60 (Fin 0.8) 20 ltac:(lia)) as [v Hv].
  destruct (detect_pocket_pivot_returns df 50 10 (Fin 1.5) ltac:(lia)) as [p Hp].
  destruct (detect_breakout df 60 20 (Fin 3.0)) as [b|e] eqn:Hb;
    [|exfalso; exact (detect_breakout_returns _ _ _ _ _ Hb)].
  exists v, p, b. unfold detect_patterns. rewrite Hv, Hp, Hb. repeat split; reflexivity.
Qed.


(** X29. The position within the 52-week range reported for an
    instrument is a number between 0 and 100 whenever the latest
    period's close lies between its low and its high. *)
Theorem process_single_stock_position (stock_code stock_name market : string)
  (market_data : gmap string DataFrame) (sector : option string) (r : screening_result)
  (prices : list bar) (latest : bar) :
  get_stock_price stock_code = Some prices -> last prices = Some latest ->
  Low latest <= Close latest -> Close latest <= High latest ->
  process stock_code stock_name market market_data sector = Some r ->
  within 0 100 (position_52w r).
Proof.
  intros Ep El H1 H2. unfold process_single_stock. rewrite Ep.
  destruct prices as [|b0 rest]; [discriminate|].
  assert (Hlr : exists lr lo hi,
            last (rows (calculate_indicators Qsqrt (b0 :: rest))) = Some lr /\
            Close lr = Close latest /\ Low_52W lr = Fin lo /\ High_52W lr = Fin hi /\
            lo <= Low latest /\ High latest <= hi).
  { assert (Hi : (b0 :: rest) !! (length (b0 :: rest) - 1)%nat = Some latest).
    { rewrite last_lookup in El.
      replace (length (b0 :: rest) - 1)%nat with (Init.Nat.pred (length (b0 :: rest))) by lia.
      exact El. }
    set (lr := enriched_row (compute_series Qsqrt (b0 :: rest)) (length (b0 :: rest) - 1) latest).
    assert (Hr : rows (calculate_indicators Qsqrt (b0 :: rest)) !! (length (b0 :: rest) - 1)%nat
                 = Some lr).
    { rewrite calculate_indicators_rows, list_lookup_imap, Hi. reflexivity. }
    destruct (week52_bounds Qsqrt (b0 :: rest) _ lr Hr)
      as (lo & hi & Elo & Ehi & Hlo & Hhi).
    exists lr, lo, hi. split; [|repeat split; assumption].
    rewrite last_lookup. fold (len (calculate_indicators Qsqrt (b0 :: rest))).
    rewrite calculate_indicators_len.
    replace (Init.Nat.pred (length (b0 :: rest))) with (length (b0 :: rest) - 1)%nat by lia.
    exact Hr. }
  assert (Hc1 : has_col (calculate_indicators Qsqrt (b0 :: rest)) "52W_High" = true)
    by reflexivity.
  assert (Hc2 : has_col (calculate_indicators Qsqrt (b0 :: rest)) "52W_Low" = true)
    by reflexivity.
  set (stock_data := calculate_indicators Qsqrt (b0 :: rest)) in *. clearbody stock_data.
  destruct Hlr as (lr & lo & hi & Elr & Ec & Elo & Ehi & Hlo & Hhi).
  destruct (detect_patterns Qsqrt stock_data) as [[v p] b].
  destruct (get_financial_statement stock_code) as [fd|]; [|discriminate].
  destruct (get_investor_data stock_code) as [inv|]; [|discriminate].
  match goal with |- context [let '(_, _) := ?e in _] => destruct e as [pc pcp] end.
  intros [= <-]. cbn [position_52w].
  rewrite Elr, Hc1, Hc2, Elo, Ehi, Ec.
  apply (within_pyround 1 0 1000); try reflexivity.
  apply position_in_range_bounds; lra.
Qed.

End ProcessProperties.


Lemma process_single_stock_position_witness :
  exists r,
    process_single_stock Examples.Qsqrt8 Examples.no_float Examples.fifty_periods
      Examples.no_statement Examples.no_investor_data "2025-06-05 09:00:00"
      "005930" "삼성전자" "KOSPI" ∅ None = Some r /\
    within 0 100 (position_52w r).
Proof.
  destruct (process_single_stock Examples.Qsqrt8 Examples.no_float Examples.fifty_periods
              Examples.no_statement Examples.no_investor_data "2025-06-05 09:00:00"
              "005930" "삼성전자" "KOSPI" ∅ None) as [r|] eqn:E;
    [|vm_compute in E; discriminate E].
  exists r. split; [reflexivity|].
  apply (process_single_stock_position _ _ _ _ _ _ _ _ _ _ _ _ Examples.pivot_series
           (Examples.flat_bar 103 2000) eq_refl ltac:(vm_compute; reflexivity)
           ltac:(vm_compute; discriminate) ltac:(vm_compute; discriminate) E).
Defined.
